(** * Appointment slots and bookings: a model of [main.py]

    The scheduling API of [main.py] is embedded function by function:
    the calendar helpers ([ist_date_from_str], [to_utc_from_ist],
    [overlaps]) and the two routes ([get_availability],
    [create_booking]).  The Python values the routes manipulate are
    modelled first: exceptions, text, [datetime] arithmetic as CPython's
    [datetime] module computes it, and the document collection behind
    [db["booking"]]. *)

From Stdlib Require Import ZArith Lia List Bool.
From Stdlib Require Import Strings.String Strings.Ascii.
From stdpp Require Import base option gmap strings list fin_maps.

Local Open Scope Z_scope.

(** ** Python outcomes *)

Module Py.

(** The exceptions the routes can meet.  [HTTPException] is the one the
    routes raise themselves; the others come from the builtins. *)
Inductive exn : Type :=
  | ValueError
  | TypeError
  | OverflowError
  | HTTPException (status_code : Z) (detail : string).

(** The outcome of evaluating an expression: a value, a raised exception,
    or [OutOfFuel] when the bound given to a [while] loop of the model is
    used up (no Python run ends that way). *)
Inductive result (A : Type) : Type :=
  | Ok (a : A)
  | Raise (e : exn)
  | OutOfFuel.
Arguments Ok {A} a.
Arguments Raise {A} e.
Arguments OutOfFuel {A}.

#[export] Instance result_ret : MRet result := fun _ a => Ok a.
#[export] Instance result_bind : MBind result := fun _ _ f r =>
  match r with
  | Ok a => f a
  | Raise e => Raise e
  | OutOfFuel => OutOfFuel
  end.

(** [try: body / except Exception: raise handler]: every exception of the
    body is replaced by [handler]. *)
Definition try_except {A} (body : result A) (handler : exn) : result A :=
  match body with
  | Ok a => Ok a
  | Raise _ => Raise handler
  | OutOfFuel => OutOfFuel
  end.

(** *** Text

    Text is ASCII: a [string] is its sequence of code points below 128. *)

Definition ord (c : ascii) : Z := Z.of_N (N_of_ascii c).

Definition chr (n : Z) : ascii := ascii_of_N (Z.to_N n).

(** [str.split(sep)] for a separator of one character. *)
Fixpoint split (sep : ascii) (s : string) : list string :=
  match s with
  | EmptyString => [EmptyString]
  | String c s' =>
      if Ascii.eqb c sep then EmptyString :: split sep s'
      else match split sep s' with
           | x :: xs => String c x :: xs
           | [] => [String c EmptyString]
           end
  end.

(** White space as [int] skips it: TAB to CR, FS to US, and the space. *)
Definition isspace (c : ascii) : bool :=
  ((9 <=? ord c) && (ord c <=? 13)) || ((28 <=? ord c) && (ord c <=? 32)).

Definition isdigit (c : ascii) : bool := (48 <=? ord c) && (ord c <=? 57).

Fixpoint lstrip (s : string) : string :=
  match s with
  | EmptyString => EmptyString
  | String c s' => if isspace c then lstrip s' else s
  end.

Fixpoint rstrip (s : string) : string :=
  match s with
  | EmptyString => EmptyString
  | String c s' =>
      match rstrip s' with
      | EmptyString => if isspace c then EmptyString else String c EmptyString
      | r => String c r
      end
  end.

(** The digits of a decimal literal: one or more digits, with single
    underscores allowed between two digits.  [after_digit] tells whether the
    previous character was a digit. *)
Fixpoint int_digits (s : string) (acc : Z) (after_digit : bool) : option Z :=
  match s with
  | EmptyString => if after_digit then Some acc else None
  | String c s' =>
      if isdigit c then int_digits s' (acc * 10 + (ord c - 48)) true
      else if Ascii.eqb c "_"%char && after_digit then int_digits s' acc false
      else None
  end.

Fixpoint count_digits (s : string) : Z :=
  match s with
  | EmptyString => 0
  | String c s' => (if isdigit c then 1 else 0) + count_digits s'
  end.

(** The default of [sys.int_max_str_digits]. *)
Definition int_max_str_digits : Z := 4300.

(** [int(s)] for a [str] argument, base 10: surrounding white space is
    dropped, then an optional sign, then the digits, no more of them than
    [int_max_str_digits].  Anything else raises [ValueError]. *)
Definition int (s : string) : result Z :=
  let body := rstrip (lstrip s) in
  let parsed :=
    match body with
    | String "+"%char r => int_digits r 0 false
    | String "-"%char r => Z.opp <$> int_digits r 0 false
    | _ => int_digits body 0 false
    end in
  match parsed with
  | Some n =>
      if int_max_str_digits <? count_digits body then Raise ValueError
      else Ok n
  | None => Raise ValueError
  end.

(** [map(int, parts)]: the conversions in order, stopping at the first
    exception. *)
Fixpoint map_int (parts : list string) : result (list Z) :=
  match parts with
  | [] => Ok []
  | p :: ps => n ← int p; ns ← map_int ps; mret (n :: ns)
  end.

(** Decimal digits of a natural number, most significant first. *)
Fixpoint digits_from (fuel : nat) (n : Z) (acc : string) : string :=
  match fuel with
  | O => acc
  | S fuel' =>
      let acc' := String (chr (48 + n mod 10)) acc in
      if n <? 10 then acc' else digits_from fuel' (n / 10) acc'
  end.

Definition str_of_nonneg (n : Z) : string :=
  digits_from (S (Z.to_nat (Z.log2 n))) n EmptyString.

Fixpoint zeros (k : nat) : string :=
  match k with
  | O => EmptyString
  | S k' => String "0"%char (zeros k')
  end.

(** [format(n, "0<width>d")], the conversion behind [f"{n:02d}"] and
    ["%04d" % n]: the sign first, then zeros up to [width] characters. *)
Definition format_d (width : nat) (n : Z) : string :=
  let sign := if n <? 0 then "-"%string else EmptyString in
  let digits := str_of_nonneg (Z.abs n) in
  sign +:+ zeros (width - String.length sign - String.length digits) +:+ digits.

(** Order of two strings by code points, as [str] comparison and the
    store's binary string comparison have it. *)
Definition str_lt (a b : string) : bool := String.ltb a b.
Definition str_le (a b : string) : bool := String.leb a b.

End Py.

(** ** The [datetime] module

    Naive values only, as the routes build them; microseconds are zero in
    every value the routes build and are left out.  The arithmetic follows
    CPython's [datetime]: a date is turned into its proleptic Gregorian
    ordinal and back. *)

Module Datetime.
Import Py.

Definition MINYEAR : Z := 1.
Definition MAXYEAR : Z := 9999.
Definition MAXORDINAL : Z := 3652059.

Definition DAYS_IN_MONTH (month : Z) : Z :=
  match month with
  | 1 => 31 | 2 => 28 | 3 => 31 | 4 => 30 | 5 => 31 | 6 => 30
  | 7 => 31 | 8 => 31 | 9 => 30 | 10 => 31 | 11 => 30 | 12 => 31
  | _ => -1
  end.

Definition DAYS_BEFORE_MONTH (month : Z) : Z :=
  match month with
  | 1 => 0 | 2 => 31 | 3 => 59 | 4 => 90 | 5 => 120 | 6 => 151
  | 7 => 181 | 8 => 212 | 9 => 243 | 10 => 273 | 11 => 304 | 12 => 334
  | _ => -1
  end.

Definition is_leap (year : Z) : bool :=
  (year mod 4 =? 0) && (negb (year mod 100 =? 0) || (year mod 400 =? 0)).

Definition days_before_year (year : Z) : Z :=
  let y := year - 1 in
  y * 365 + y / 4 - y / 100 + y / 400.

Definition days_in_month (year month : Z) : Z :=
  if (month =? 2) && is_leap year then 29 else DAYS_IN_MONTH month.

Definition days_before_month (year month : Z) : Z :=
  DAYS_BEFORE_MONTH month + (if (month >? 2) && is_leap year then 1 else 0).

Definition ymd2ord (year month day : Z) : Z :=
  days_before_year year + days_before_month year month + day.

Definition DI400Y : Z := 146097.
Definition DI100Y : Z := 36524.
Definition DI4Y : Z := 1461.

(** Ordinal to (year, month, day), with the 400, 100, 4 and 1 year cycles. *)
Definition ord2ymd (n : Z) : Z * Z * Z :=
  let n := n - 1 in
  let n400 := n / DI400Y in
  let n := n mod DI400Y in
  let year := n400 * 400 + 1 in
  let n100 := n / DI100Y in
  let n := n mod DI100Y in
  let n4 := n / DI4Y in
  let n := n mod DI4Y in
  let n1 := n / 365 in
  let n := n mod 365 in
  let year := year + n100 * 100 + n4 * 4 + n1 in
  if (n1 =? 4) || (n100 =? 4) then (year - 1, 12, 31)
  else
    let leapyear := (n1 =? 3) && (negb (n4 =? 24) || (n100 =? 3)) in
    let month := Z.shiftr (n + 50) 5 in
    let preceding :=
      DAYS_BEFORE_MONTH month + (if (month >? 2) && leapyear then 1 else 0) in
    if preceding >? n then
      let month := month - 1 in
      let preceding :=
        preceding
        - (DAYS_IN_MONTH month + (if (month =? 2) && leapyear then 1 else 0)) in
      (year, month, n - preceding + 1)
    else (year, month, n - preceding + 1).

Record time : Type := mk_time { t_hour : Z; t_minute : Z }.

Record datetime : Type := mk_datetime {
  year : Z; month : Z; day : Z;
  hour : Z; minute : Z; second : Z
}.

(** A [timedelta] without microseconds, as its total number of seconds. *)
Definition timedelta : Type := Z.

Definition timedelta_of (days hours minutes : Z) : timedelta :=
  days * 86400 + hours * 3600 + minutes * 60.

(** [time(hour, minute)]. *)
Definition new_time (h m : Z) : result time :=
  if negb ((0 <=? h) && (h <=? 23)) then Raise ValueError
  else if negb ((0 <=? m) && (m <=? 59)) then Raise ValueError
  else Ok (mk_time h m).

(** [datetime(year, month, day)]: midnight of a date that exists. *)
Definition new_datetime (y m d : Z) : result datetime :=
  if negb ((MINYEAR <=? y) && (y <=? MAXYEAR)) then Raise ValueError
  else if negb ((1 <=? m) && (m <=? 12)) then Raise ValueError
  else if negb ((1 <=? d) && (d <=? days_in_month y m)) then Raise ValueError
  else Ok (mk_datetime y m d 0 0 0).

(** [datetime.combine(d.date(), t)]. *)
Definition combine (d : datetime) (t : time) : datetime :=
  mk_datetime (year d) (month d) (day d) (t_hour t) (t_minute t) 0.

Definition toordinal (d : datetime) : Z := ymd2ord (year d) (month d) (day d).

(** The seconds from the start of day 0 of the calendar: the absolute
    instant of a naive value. *)
Definition instant (d : datetime) : Z :=
  toordinal d * 86400 + hour d * 3600 + minute d * 60 + second d.

(** Monday is 0, Sunday is 6. *)
Definition weekday (d : datetime) : Z := (toordinal d + 6) mod 7.

(** [d + delta]: days and seconds are added up and carried, and a result
    outside years 1 to 9999 raises [OverflowError]. *)
Definition add (d : datetime) (delta : timedelta) : result datetime :=
  let total := instant d + delta in
  let days := total / 86400 in
  let seconds := total mod 86400 in
  let h := seconds / 3600 in
  let rem := seconds mod 3600 in
  let mi := rem / 60 in
  let s := rem mod 60 in
  if (0 <? days) && (days <=? MAXORDINAL) then
    let '(y, m, dd) := ord2ymd days in Ok (mk_datetime y m dd h mi s)
  else Raise OverflowError.

(** [d - delta] is [d + (-delta)]. *)
Definition sub (d : datetime) (delta : timedelta) : result datetime :=
  add d (- delta).

(** Comparison of naive values: field by field, year first. *)
Fixpoint lex_lt (a b : list Z) : bool :=
  match a, b with
  | x :: a', y :: b' => (x <? y) || ((x =? y) && lex_lt a' b')
  | [], _ :: _ => true
  | _, [] => false
  end.

Definition fields (d : datetime) : list Z :=
  [year d; month d; day d; hour d; minute d; second d].

Definition lt (a b : datetime) : bool := lex_lt (fields a) (fields b).

Definition le (a b : datetime) : bool := negb (lt b a).

(** The values the constructors accept. *)
Definition valid_date (y m d : Z) : Prop :=
  MINYEAR <= y <= MAXYEAR /\ 1 <= m <= 12 /\ 1 <= d <= days_in_month y m.

Definition valid (d : datetime) : Prop :=
  valid_date (year d) (month d) (day d)
  /\ 0 <= hour d <= 23 /\ 0 <= minute d <= 59 /\ 0 <= second d <= 59.

(** [d.isoformat()] of a naive value without microseconds. *)
Definition isoformat (d : datetime) : string :=
  format_d 4 (year d) +:+ "-" +:+ format_d 2 (month d) +:+ "-"
  +:+ format_d 2 (day d) +:+ "T" +:+ format_d 2 (hour d) +:+ ":"
  +:+ format_d 2 (minute d) +:+ ":" +:+ format_d 2 (second d).

End Datetime.

(** ** The slot store

    The module [database] ([db], [create_document]) and the schema
    [schemas.Booking] are not part of the sources at hand.  The spec
    describes the store as a document collection with range queries on
    timestamp fields and a single-document insert that returns a generated
    identifier, read-after-write consistent within the process.  The query
    documents themselves are the ones [main.py] builds.  The store is taken
    to be connected: a [db] that is [None] is not modelled. *)

Module Store.
Import Py.

(** Field values of a stored document.  Only strings take part in the
    queries of [main.py]; [VNull] and [VInt] stand for every other kind. *)
Inductive value : Type :=
  | VNull
  | VStr (s : string)
  | VInt (n : Z).

Abbreviation document := (gmap string value).

(** The comparison operators [$gte], [$lt] and [$gt]. *)
Inductive comparison_op : Type := op_gte | op_lt | op_gt.

(** [{field: {op: operand, ...}, ...}] *)
Definition field_query : Type := list (string * list (comparison_op * string)).

(** A query document: field conditions, or [{"$or": [...]}]. *)
Inductive query : Type :=
  | Q_fields (q : field_query)
  | Q_or (alternatives : list field_query).

(** Modelled from the spec: the comparison of the store's range queries,
    missing with the module [database].  A string operand is only ever
    compared with a string value, in binary order: a missing field and a
    value of another kind satisfy no comparison. *)
Definition holds (op : comparison_op) (operand : string) (v : option value)
  : bool :=
  match v with
  | Some (VStr s) =>
      match op with
      | op_gte => str_le operand s
      | op_lt => str_lt s operand
      | op_gt => str_lt operand s
      end
  | _ => false
  end.

Definition matches_fields (q : field_query) (doc : document) : bool :=
  forallb
    (fun fc : string * list (comparison_op * string) =>
       forallb (fun c => holds (fst c) (snd c) (doc !! fst fc)) (snd fc))
    q.

Definition matches (q : query) (doc : document) : bool :=
  match q with
  | Q_fields f => matches_fields f doc
  | Q_or alternatives => existsb (fun f => matches_fields f doc) alternatives
  end.

(** What reaches the store: the log of its accesses, oldest first. *)
Inductive access : Type :=
  | Find (collection : string) (q : query)
  | FindOne (collection : string) (q : query)
  | InsertOne (collection : string) (doc : document).

Record state : Type := mk_state {
  collections : gmap string (list document);
  accesses : list access
}.

(** [db[name]]: a collection never written to is empty. *)
Definition collection (st : state) (name : string) : list document :=
  default [] (collections st !! name).

(** A route: it reads and writes the store and ends in a [result]. *)
Definition M (A : Type) : Type := state -> result A * state.

#[export] Instance M_ret : MRet M := fun _ a st => (Ok a, st).
#[export] Instance M_bind : MBind M := fun _ _ f m st =>
  match m st with
  | (Ok a, st') => f a st'
  | (Raise e, st') => (Raise e, st')
  | (OutOfFuel, st') => (OutOfFuel, st')
  end.

Definition lift {A} (r : result A) : M A := fun st => (r, st).
Definition raise {A} (e : exn) : M A := fun st => (Raise e, st).

Definition log (a : access) (st : state) : state :=
  mk_state (collections st) (accesses st ++ [a]).

(** Modelled from the spec: [list(db[name].find(q))] of the missing [db],
    the documents that match, in the order they were written. *)
Definition find (name : string) (q : query) : M (list document) :=
  fun st => (Ok (List.filter (matches q) (collection st name)),
             log (Find name q) st).

(** Modelled from the spec: [db[name].find_one(q)] of the missing [db], the
    first match or [None]. *)
Definition find_one (name : string) (q : query) : M (option document) :=
  fun st => (Ok (head (List.filter (matches q) (collection st name))),
             log (FindOne name q) st).

(** Modelled from the spec: [create_document(name, doc)] of the missing
    module [database], the single-document insert.  The document is added
    to the collection and its identifier, here its position, is returned. *)
Definition create_document (name : string) (doc : document) : M nat :=
  fun st =>
    let docs := collection st name in
    (Ok (List.length docs),
     log (InsertOne name doc)
       (mk_state (<[name := docs ++ [doc]]> (collections st)) (accesses st))).

(** Modelled from the spec: [schemas.Booking(...)] of the missing module
    [schemas], the persisted record of the spec's data model, as the
    document that is written. *)
Definition BookingSchema (name email : string) (phone : option string)
    (date_ist start_time_ist start_utc_iso end_utc_iso : string)
    (notes : option string) : document :=
  <["name" := VStr name]> (
  <["email" := VStr email]> (
  <["phone" := from_option VStr VNull phone]> (
  <["date_ist" := VStr date_ist]> (
  <["start_time_ist" := VStr start_time_ist]> (
  <["start_utc_iso" := VStr start_utc_iso]> (
  <["end_utc_iso" := VStr end_utc_iso]> (
  <["notes" := from_option VStr VNull notes]> ∅))))))).

End Store.

(** ** [main.py] *)

Module Main.
Import Py Datetime Store.

Definition IST_OFFSET : timedelta := timedelta_of 0 5 30.
Definition SLOT_MINUTES : Z := 30.
Definition START_HOUR_IST : Z := 9.
Definition END_HOUR_IST : Z := 17.

(** The three parts are converted and unpacked inside the [try]: a wrong
    number of parts, a part that is no integer and a date that does not
    exist all end in the same [HTTPException]. *)
Definition ist_date_from_str (date_str : string) : result datetime :=
  try_except
    (parts ← map_int (split "-" date_str);
     match parts with
     | [y; m; d] => new_datetime y m d
     | _ => Raise ValueError
     end)
    (HTTPException 400 "Invalid date format. Use YYYY-MM-DD").

Definition to_utc_from_ist (date_ist : datetime) (t : time) : result datetime :=
  let dt_ist_naive := combine date_ist t in
  sub dt_ist_naive IST_OFFSET.

Definition overlaps (a_start a_end b_start b_end : datetime) : bool :=
  lt a_start b_end && lt b_start a_end.

Record AvailabilityResponse : Type := mk_AvailabilityResponse {
  av_date : string;
  av_slots : list string
}.

(** The request body as the route receives it, after the framework has
    checked the lengths and the address. *)
Record BookingRequest : Type := mk_BookingRequest {
  req_name : string;
  req_email : string;
  req_phone : option string;
  req_date : string;
  req_time : string;
  req_notes : option string
}.

Record BookingResponse : Type := mk_BookingResponse {
  resp_status : string;
  resp_date : string;
  resp_time : string;
  resp_timezone : string
}.

(** [f"{h:02d}:{m:02d}"] *)
Definition hhmm (h m : Z) : string := format_d 2 h +:+ ":" +:+ format_d 2 m.

(** The [while True] loop that fills [all_slots_ist], with a bound on the
    number of iterations. *)
Fixpoint slot_loop (fuel : nat) (date_dt : datetime) (current : time)
    (all_slots_ist : list string) : result (list string) :=
  match fuel with
  | O => OutOfFuel
  | S fuel' =>
      if (t_hour current >=? END_HOUR_IST)
         || ((t_hour current =? END_HOUR_IST) && (t_minute current >? 0))
      then Ok all_slots_ist
      else
        let all_slots_ist :=
          all_slots_ist ++ [hhmm (t_hour current) (t_minute current)] in
        dt ← add (combine date_dt current) (timedelta_of 0 0 SLOT_MINUTES);
        current ← new_time (hour dt) (minute dt);
        slot_loop fuel' date_dt current all_slots_ist
  end.

(** The filter of [get_availability]: the bookings that start within the
    day. *)
Definition day_query (day_start_utc day_end_utc : datetime) : query :=
  Q_fields
    [("start_utc_iso", [(op_gte, isoformat day_start_utc);
                        (op_lt, isoformat day_end_utc)])].

(** The filter of [create_booking]: the bookings that overlap the new one. *)
Definition conflict_query (start_utc end_utc : datetime) : query :=
  Q_or
    [[("start_utc_iso", [(op_lt, isoformat end_utc)]);
      ("end_utc_iso", [(op_gt, isoformat start_utc)])]].

(** The [try] block of [create_booking] that reads [payload.time]. *)
Definition time_from_str (time_str : string) : result time :=
  try_except
    (parts ← map_int (split ":" time_str);
     match parts with
     | [h; m] => new_time h m
     | _ => Raise ValueError
     end)
    (HTTPException 400 "Invalid time format. Use HH:MM 24h").

Section Routes.

(** [datetime.fromisoformat] is the library's parser; the strings it accepts
    beyond the output of [isoformat] differ between Python versions, so the
    routes are modelled over any parser.  Of a value with a zone or with
    microseconds, it gives the wall-clock fields down to the second, which
    is all the route reads after adding [IST_OFFSET]. *)
Variable fromisoformat : string -> result datetime.

(** [datetime.fromisoformat(doc.get(key))]: [doc.get] gives [None] for a
    missing key, and an argument that is no [str] raises [TypeError]. *)
Definition fromisoformat_field (doc : document) (key : string)
  : result datetime :=
  match doc !! key with
  | Some (VStr s) => fromisoformat s
  | _ => Raise TypeError
  end.

(** The [try] body of [for doc in existing]: the slot the document takes. *)
Definition taken_slot (doc : document) : result string :=
  s ← fromisoformat_field doc "start_utc_iso";
  e ← fromisoformat_field doc "end_utc_iso";
  ist_start ← add s IST_OFFSET;
  mret (hhmm (hour ist_start) (minute ist_start)).

(** One turn of the loop: [taken.add(...)], or [continue] on any
    exception. *)
Definition mark_taken (taken : gset string) (doc : document) : gset string :=
  match taken_slot doc with
  | Ok slot => {[slot]} ∪ taken
  | _ => taken
  end.

Definition get_availability (fuel : nat) (date : string)
  : M AvailabilityResponse :=
  date_dt ← lift (ist_date_from_str date);
  let weekday := weekday date_dt in
  if weekday >=? 5 then mret (mk_AvailabilityResponse date [])
  else
    all_slots_ist ← lift (slot_loop fuel date_dt (mk_time START_HOUR_IST 0) []);
    let taken : gset string := ∅ in
    let col := "booking" in
    day_start_utc ← lift (to_utc_from_ist date_dt (mk_time 0 0));
    next_day ← lift (add date_dt (timedelta_of 1 0 0));
    day_end_utc ← lift (to_utc_from_ist next_day (mk_time 0 0));
    existing ← find col (day_query day_start_utc day_end_utc);
    let taken := fold_left mark_taken existing taken in
    let available :=
      List.filter (fun slot => bool_decide (slot ∉ taken)) all_slots_ist in
    mret (mk_AvailabilityResponse date available).

End Routes.

(** [if conflict] holds for every document found: a stored document is
    never an empty dict. *)
Definition create_booking (payload : BookingRequest) : M BookingResponse :=
  date_dt ← lift (ist_date_from_str (req_date payload));
  if weekday date_dt >=? 5 then
    raise (HTTPException 400 "Bookings allowed Monday to Friday only")
  else
    t_obj ← lift (time_from_str (req_time payload));
    if negb ((START_HOUR_IST <=? t_hour t_obj) && (t_hour t_obj <? END_HOUR_IST))
    then raise (HTTPException 400 "Time must be between 09:00 and 17:00 IST")
    else
      start_utc ← lift (to_utc_from_ist date_dt t_obj);
      end_utc ← lift (add start_utc (timedelta_of 0 0 SLOT_MINUTES));
      let col := "booking" in
      conflict ← find_one col (conflict_query start_utc end_utc);
      match conflict with
      | Some _ =>
          raise (HTTPException 409
            "This time slot has already been booked. Please choose another.")
      | None =>
          let booking_doc :=
            BookingSchema (req_name payload) (req_email payload)
              (req_phone payload) (req_date payload) (req_time payload)
              (isoformat start_utc) (isoformat end_utc) (req_notes payload) in
          _id ← create_document "booking" booking_doc;
          mret (mk_BookingResponse "confirmed" (req_date payload)
                  (req_time payload) "IST")
      end.

End Main.

(** ** A parser for the output of [isoformat]

    Every version of [datetime.fromisoformat] reads back what [isoformat]
    writes.  [fromisoformat_strict] accepts the nineteen characters
    [YYYY-MM-DDTHH:MM:SS] and nothing else; it is the least parser the routes
    can be run with. *)

Module Parser.
Import Py Datetime.

Fixpoint read_digits (k : nat) (acc : Z) (s : string) : option (Z * string) :=
  match k with
  | O => Some (acc, s)
  | S k' =>
      match s with
      | String c s' =>
          if isdigit c then read_digits k' (acc * 10 + (ord c - 48)) s'
          else None
      | EmptyString => None
      end
  end.

Definition expect (c : ascii) (s : string) : option string :=
  match s with
  | String c' s' => if Ascii.eqb c c' then Some s' else None
  | EmptyString => None
  end.

Definition read_fields (s : string) : option datetime :=
  '(y, s) ← read_digits 4 0 s;
  s ← expect "-" s;
  '(m, s) ← read_digits 2 0 s;
  s ← expect "-" s;
  '(d, s) ← read_digits 2 0 s;
  s ← expect "T" s;
  '(h, s) ← read_digits 2 0 s;
  s ← expect ":" s;
  '(mi, s) ← read_digits 2 0 s;
  s ← expect ":" s;
  '(sec, s) ← read_digits 2 0 s;
  match s with
  | EmptyString => Some (mk_datetime y m d h mi sec)
  | _ => None
  end.

Definition fromisoformat_strict (s : string) : result datetime :=
  match read_fields s with
  | Some dt =>
      midnight ← new_datetime (year dt) (month dt) (day dt);
      if (hour dt <=? 23) && (minute dt <=? 59) && (second dt <=? 59)
      then Ok dt else Raise ValueError
  | None => Raise ValueError
  end.

End Parser.

(** ** Notions used to state the properties *)

Module Notions.
Import Py Datetime Store Main.

(** The two characters of [format_d 2] and the four of [format_d 4], for
    numbers that fit. *)
Definition two_digits (n : Z) : string :=
  String (chr (48 + n / 10)) (String (chr (48 + n mod 10)) EmptyString).

Definition four_digits (n : Z) : string :=
  String (chr (48 + n / 1000)) (String (chr (48 + n / 100 mod 10))
    (two_digits (n mod 100))).

(** Month and day from the day of the year, counted from 0: the last steps
    of [ord2ymd]. *)
Definition month_day (leapyear : bool) (n : Z) : Z * Z :=
  let month := Z.shiftr (n + 50) 5 in
  let preceding :=
    DAYS_BEFORE_MONTH month + (if (month >? 2) && leapyear then 1 else 0) in
  if preceding >? n then
    (month - 1,
     n - (preceding
          - (DAYS_IN_MONTH (month - 1)
             + (if (month - 1 =? 2) && leapyear then 1 else 0))) + 1)
  else (month, n - preceding + 1).

(** What [month_day] owes for day [n] of a year: a month, a day of that
    month, and the right count of days before it. *)
Definition month_day_ok (leapyear : bool) (n : Z) : bool :=
  let '(m, d) := month_day leapyear n in
  (1 <=? m) && (m <=? 12) && (1 <=? d)
  && (d <=? DAYS_IN_MONTH m + (if (m =? 2) && leapyear then 1 else 0))
  && (DAYS_BEFORE_MONTH m + (if (m >? 2) && leapyear then 1 else 0) + d
      =? n + 1).

(** The numbers 0 to [k - 1]. *)
Definition upto (k : Z) : list Z := Z.of_nat <$> seq 0 (Z.to_nat k).

(** The slots of a working day, as the spec lists them. *)
Definition working_day_grid : list string :=
  ["09:00"; "09:30"; "10:00"; "10:30"; "11:00"; "11:30"; "12:00"; "12:30";
   "13:00"; "13:30"; "14:00"; "14:30"; "15:00"; "15:30"; "16:00"; "16:30"].

(** The labels of [count] slots, the first one [minutes] after midnight. *)
Fixpoint slots_from (minutes : Z) (count : nat) : list string :=
  match count with
  | O => []
  | S count' =>
      hhmm (minutes / 60) (minutes mod 60) :: slots_from (minutes + 30) count'
  end.

(** The contract of [datetime.fromisoformat]: it reads back what
    [isoformat] writes. *)
Definition reads_back (fromisoformat : string -> result datetime) : Prop :=
  forall d, valid d -> fromisoformat (isoformat d) = Ok d.

(** The outcomes of [create_booking]. *)
Definition confirmed (payload : BookingRequest) : BookingResponse :=
  mk_BookingResponse "confirmed" (req_date payload) (req_time payload) "IST".

Definition date_error : exn :=
  HTTPException 400 "Invalid date format. Use YYYY-MM-DD".

Definition time_error : exn :=
  HTTPException 400 "Invalid time format. Use HH:MM 24h".

Definition weekend_error : exn :=
  HTTPException 400 "Bookings allowed Monday to Friday only".

Definition hours_error : exn :=
  HTTPException 400 "Time must be between 09:00 and 17:00 IST".

Definition conflict_error : exn :=
  HTTPException 409
    "This time slot has already been booked. Please choose another.".

(** The document [create_booking] writes for an interval. *)
Definition booking_doc (payload : BookingRequest) (start_utc end_utc : datetime)
  : document :=
  BookingSchema (req_name payload) (req_email payload) (req_phone payload)
    (req_date payload) (req_time payload)
    (isoformat start_utc) (isoformat end_utc) (req_notes payload).

(** A request with the contact fields of the spec's scenario. *)
Definition request (date time : string) : BookingRequest :=
  mk_BookingRequest "A" "a@x.com" None date time None.

(** The slots [get_availability] finds taken in a day window, and the ones
    it leaves. *)
Definition taken_in (fromisoformat : string -> result datetime) (st : state)
    (day_start_utc day_end_utc : datetime) : gset string :=
  fold_left (mark_taken fromisoformat)
    (List.filter (matches (day_query day_start_utc day_end_utc))
       (collection st "booking"))
    ∅.

Definition available_in (fromisoformat : string -> result datetime)
    (st : state) (day_start_utc day_end_utc : datetime)
    (all_slots_ist : list string) : list string :=
  List.filter
    (fun slot =>
       bool_decide (slot ∉ taken_in fromisoformat st day_start_utc day_end_utc))
    all_slots_ist.

(** What [ist_date_from_str] returns: the midnight of a day that exists. *)
Definition ist_date_from_str_midnight (d : datetime) : Prop :=
  valid d /\ hour d = 0 /\ minute d = 0 /\ second d = 0.

(** A store nothing was written to. *)
Definition empty_store : state := mk_state ∅ [].

(** A half-open interval of instants holds [t]. *)
Definition within (start stop t : datetime) : Prop :=
  le start t = true /\ lt t stop = true.

(** The conflict test in the spec's words, on instants:
    [existing.start < new.end AND new.start < existing.end]. *)
Definition chrono_conflict (existing_start existing_end new_start new_end
    : datetime) : bool :=
  (instant existing_start <? instant new_end)
  && (instant new_start <? instant existing_end).

(** The day window in the spec's words, on instants: inclusive start,
    exclusive end. *)
Definition chrono_in_day (day_start day_end start : datetime) : bool :=
  (instant day_start <=? instant start) && (instant start <? instant day_end).

(** A booking as [create_booking] stores it has these two timestamps. *)
Definition stamped (doc : document) (start_utc end_utc : datetime) : Prop :=
  doc !! "start_utc_iso" = Some (VStr (isoformat start_utc))
  /\ doc !! "end_utc_iso" = Some (VStr (isoformat end_utc)).

(** The text of a date as [isoformat] writes it. *)
Definition date_text (y m d : Z) : string :=
  format_d 4 y +:+ "-" +:+ format_d 2 m +:+ "-" +:+ format_d 2 d.

(** Requests served one after the other, whatever their outcomes. *)
Definition book_all (payloads : list BookingRequest) (st : state) : state :=
  fold_left (fun st payload => snd (create_booking payload st)) payloads st.

(** A document with the timestamps of an interval of thirty minutes. *)
Definition half_hour (doc : document) (iv : datetime * datetime) : Prop :=
  stamped doc (fst iv) (snd iv) /\ valid (fst iv) /\ valid (snd iv)
  /\ instant (snd iv) = instant (fst iv) + 1800.

Definition apart (a b : datetime * datetime) : Prop :=
  overlaps (fst a) (snd a) (fst b) (snd b) = false.

(** The invariant of the data model: the stored bookings are intervals of
    thirty minutes, no two of which overlap. *)
Definition no_double_booking (docs : list document) : Prop :=
  exists ivs, Forall2 half_hour docs ivs /\ ForallOrdPairs apart ivs.

(** Every stored booking starts on a half hour of the clock. *)
Definition on_the_half_hour (docs : list document) : Prop :=
  Forall (fun doc => exists iv, half_hour doc iv /\ instant (fst iv) mod 1800 = 0)
    docs.

(** A document without one of its two timestamps, or with something that
    is no string in its place. *)
Definition unstamped (doc : document) : Prop :=
  (forall s, doc !! "start_utc_iso" <> Some (VStr s))
  \/ (forall s, doc !! "end_utc_iso" <> Some (VStr s)).

(** The answer left once a slot is taken out. *)
Definition without (slot : string) (slots : list string) : list string :=
  List.filter (fun s => negb (String.eqb s slot)) slots.

End Notions.

(** ** Facts about text *)

Module TextFacts.
Import Py Notions.

Lemma ord_chr n : 0 <= n < 256 -> ord (chr n) = n.
Proof.
  intros Hn. unfold ord, chr.
  rewrite N_ascii_embedding by lia. lia.
Qed.

Lemma elem_of_upto k n : 0 <= n < k -> In n (upto k).
Proof.
  intros Hn. unfold upto. apply in_map_iff.
  exists (Z.to_nat n). split; [lia|]. apply in_seq. lia.
Qed.

(** One turn of [digits_from]. *)
Lemma digits_from_last fuel n acc :
  0 <= n < 10 -> digits_from (S fuel) n acc = String (chr (48 + n)) acc.
Proof.
  intros Hn. simpl.
  replace (n <? 10) with true by (symmetry; apply Z.ltb_lt; lia).
  rewrite Z.mod_small by lia. reflexivity.
Qed.

Lemma digits_from_more fuel n acc :
  10 <= n ->
  digits_from (S fuel) n acc
  = digits_from fuel (n / 10) (String (chr (48 + n mod 10)) acc).
Proof.
  intros Hn. simpl.
  replace (n <? 10) with false by (symmetry; apply Z.ltb_ge; lia).
  reflexivity.
Qed.

(** The fuel of [str_of_nonneg] covers the digits of the number. *)
Lemma str_of_nonneg_fuel n k :
  2 ^ k <= n -> exists fuel, S (Z.to_nat (Z.log2 n)) = (S (Z.to_nat k) + fuel)%nat.
Proof.
  intros Hn. destruct (Z.le_gt_cases 0 k) as [Hk|Hk].
  - assert (k <= Z.log2 n).
    { rewrite <- (Z.log2_pow2 k Hk). apply Z.log2_le_mono. assumption. }
    exists (Z.to_nat (Z.log2 n) - Z.to_nat k)%nat. lia.
  - exists (Z.to_nat (Z.log2 n)). replace (Z.to_nat k) with 0%nat by lia. lia.
Qed.

Lemma str_of_nonneg_1 n :
  0 <= n < 10 -> str_of_nonneg n = String (chr (48 + n)) EmptyString.
Proof. intros Hn. unfold str_of_nonneg. apply digits_from_last. assumption. Qed.

Lemma str_of_nonneg_2 n :
  10 <= n < 100 -> str_of_nonneg n = two_digits n.
Proof.
  intros Hn. unfold str_of_nonneg, two_digits.
  destruct (str_of_nonneg_fuel n 1 ltac:(change (2 ^ 1) with 2; lia))
    as [fuel ->].
  change (S (Z.to_nat 1) + fuel)%nat with (S (S fuel)).
  rewrite digits_from_more by lia.
  rewrite digits_from_last by (Z.div_mod_to_equations; lia).
  reflexivity.
Qed.

Lemma str_of_nonneg_3 n :
  100 <= n < 1000 ->
  str_of_nonneg n = String (chr (48 + n / 100)) (two_digits (n mod 100)).
Proof.
  intros Hn. unfold str_of_nonneg, two_digits.
  destruct (str_of_nonneg_fuel n 2 ltac:(change (2 ^ 2) with 4; lia))
    as [fuel ->].
  change (S (Z.to_nat 2) + fuel)%nat with (S (S (S fuel))).
  do 2 rewrite digits_from_more by (Z.div_mod_to_equations; lia).
  rewrite digits_from_last by (Z.div_mod_to_equations; lia).
  replace (n / 10 / 10) with (n / 100) by (Z.div_mod_to_equations; lia).
  replace (n / 10 mod 10) with (n mod 100 / 10)
    by (Z.div_mod_to_equations; lia).
  replace (n mod 100 mod 10) with (n mod 10)
    by (Z.div_mod_to_equations; lia).
  reflexivity.
Qed.

Lemma str_of_nonneg_4 n :
  1000 <= n < 10000 -> str_of_nonneg n = four_digits n.
Proof.
  intros Hn. unfold str_of_nonneg, four_digits, two_digits.
  destruct (str_of_nonneg_fuel n 3 ltac:(change (2 ^ 3) with 8; lia))
    as [fuel ->].
  change (S (Z.to_nat 3) + fuel)%nat with (S (S (S (S fuel)))).
  do 3 rewrite digits_from_more by (Z.div_mod_to_equations; lia).
  rewrite digits_from_last by (Z.div_mod_to_equations; lia).
  replace (n / 10 / 10 / 10) with (n / 1000)
    by (Z.div_mod_to_equations; lia).
  replace (n / 10 / 10 mod 10) with (n / 100 mod 10)
    by (Z.div_mod_to_equations; lia).
  replace (n / 10 mod 10) with (n mod 100 / 10)
    by (Z.div_mod_to_equations; lia).
  replace (n mod 100 mod 10) with (n mod 10)
    by (Z.div_mod_to_equations; lia).
  reflexivity.
Qed.

Lemma format_d_nonneg width n :
  0 <= n ->
  format_d width n
  = zeros (width - String.length (str_of_nonneg n)) +:+ str_of_nonneg n.
Proof.
  intros Hn. unfold format_d.
  replace (n <? 0) with false by (symmetry; apply Z.ltb_ge; lia).
  rewrite Z.abs_eq by lia. simpl. rewrite Nat.sub_0_r. reflexivity.
Qed.

Lemma format_d_2 n : 0 <= n < 100 -> format_d 2 n = two_digits n.
Proof.
  intros Hn. rewrite format_d_nonneg by lia.
  destruct (Z.lt_ge_cases n 10).
  - rewrite str_of_nonneg_1 by lia. unfold two_digits.
    rewrite Z.div_small, Z.mod_small by lia. reflexivity.
  - rewrite str_of_nonneg_2 by lia. reflexivity.
Qed.

Lemma format_d_4 n : 0 <= n < 10000 -> format_d 4 n = four_digits n.
Proof.
  intros Hn. rewrite format_d_nonneg by lia.
  destruct (Z.lt_ge_cases n 10); [|destruct (Z.lt_ge_cases n 100);
    [|destruct (Z.lt_ge_cases n 1000)]].
  - rewrite str_of_nonneg_1 by lia. unfold four_digits, two_digits.
    replace (n / 1000) with 0 by (Z.div_mod_to_equations; lia).
    replace (n / 100 mod 10) with 0 by (Z.div_mod_to_equations; lia).
    replace (n mod 100 / 10) with 0 by (Z.div_mod_to_equations; lia).
    replace (n mod 100 mod 10) with n by (Z.div_mod_to_equations; lia).
    reflexivity.
  - rewrite str_of_nonneg_2 by lia. unfold four_digits.
    replace (n / 1000) with 0 by (Z.div_mod_to_equations; lia).
    replace (n / 100 mod 10) with 0 by (Z.div_mod_to_equations; lia).
    rewrite Z.mod_small by lia. reflexivity.
  - rewrite str_of_nonneg_3 by lia. unfold four_digits.
    replace (n / 1000) with 0 by (Z.div_mod_to_equations; lia).
    replace (n / 100 mod 10) with (n / 100) by (Z.div_mod_to_equations; lia).
    reflexivity.
  - rewrite str_of_nonneg_4 by lia. reflexivity.
Qed.

(** Order of strings, one character at a time. *)
Lemma str_lt_cons c1 s1 c2 s2 :
  str_lt (String c1 s1) (String c2 s2)
  = (ord c1 <? ord c2) || ((ord c1 =? ord c2) && str_lt s1 s2).
Proof.
  unfold str_lt, String.ltb, ord. simpl. unfold Ascii.compare.
  destruct (N.compare_spec (N_of_ascii c1) (N_of_ascii c2)) as [E|L|G].
  - rewrite E, Z.ltb_irrefl, Z.eqb_refl. reflexivity.
  - replace (Z.of_N (N_of_ascii c1) <? Z.of_N (N_of_ascii c2)) with true
      by (symmetry; apply Z.ltb_lt; lia).
    reflexivity.
  - replace (Z.of_N (N_of_ascii c1) <? Z.of_N (N_of_ascii c2)) with false
      by (symmetry; apply Z.ltb_ge; lia).
    replace (Z.of_N (N_of_ascii c1) =? Z.of_N (N_of_ascii c2)) with false
      by (symmetry; apply Z.eqb_neq; lia).
    reflexivity.
Qed.

Lemma str_lt_same_head c s1 s2 :
  str_lt (String c s1) (String c s2) = str_lt s1 s2.
Proof. rewrite str_lt_cons, Z.ltb_irrefl, Z.eqb_refl. reflexivity. Qed.

Lemma str_lt_nil : str_lt EmptyString EmptyString = false.
Proof. reflexivity. Qed.

Lemma str_le_lt a b : str_le a b = negb (str_lt b a).
Proof.
  unfold str_le, str_lt, String.leb, String.ltb.
  rewrite (String.compare_antisym b a).
  destruct (String.compare a b); reflexivity.
Qed.

Lemma str_app_cons c s r : String c s +:+ r = String c (s +:+ r).
Proof. reflexivity. Qed.

Lemma str_app_nil r : EmptyString +:+ r = r.
Proof. reflexivity. Qed.

Lemma str_app_assoc (a b c : string) : (a +:+ b) +:+ c = a +:+ (b +:+ c).
Proof. induction a as [|x a IH]; [reflexivity|]. rewrite !str_app_cons, IH. reflexivity. Qed.

Ltac decide_comparisons :=
  repeat match goal with
  | |- context [?x <? ?y] => destruct (Z.ltb_spec x y)
  | |- context [?x =? ?y] => destruct (Z.eqb_spec x y)
  end.

(** Two numbers below 100 compare as their two digits do. *)
Lemma str_lt_two_digits a b r1 r2 :
  0 <= a < 100 -> 0 <= b < 100 ->
  str_lt (two_digits a +:+ r1) (two_digits b +:+ r2)
  = (a <? b) || ((a =? b) && str_lt r1 r2).
Proof.
  intros Ha Hb. unfold two_digits. rewrite !str_app_cons, !str_app_nil.
  rewrite !str_lt_cons, !ord_chr by (Z.div_mod_to_equations; lia).
  destruct (str_lt r1 r2); decide_comparisons; simpl; try reflexivity;
    exfalso; Z.div_mod_to_equations; lia.
Qed.

Lemma four_digits_split a :
  0 <= a < 10000 -> four_digits a = two_digits (a / 100) +:+ two_digits (a mod 100).
Proof.
  intros Ha. unfold four_digits, two_digits at 2. rewrite !str_app_cons, str_app_nil.
  replace (a / 100 / 10) with (a / 1000)
    by (Z.div_mod_to_equations; lia).
  reflexivity.
Qed.

Lemma str_lt_four_digits a b r1 r2 :
  0 <= a < 10000 -> 0 <= b < 10000 ->
  str_lt (four_digits a +:+ r1) (four_digits b +:+ r2)
  = (a <? b) || ((a =? b) && str_lt r1 r2).
Proof.
  intros Ha Hb. rewrite !four_digits_split by assumption.
  rewrite !str_app_assoc.
  rewrite !str_lt_two_digits by (Z.div_mod_to_equations; lia).
  destruct (str_lt r1 r2); decide_comparisons; simpl; try reflexivity;
    exfalso; Z.div_mod_to_equations; lia.
Qed.

End TextFacts.

(** ** Facts about the calendar *)

Module CalendarFacts.
Import Py Datetime Notions TextFacts.

Ltac months m :=
  assert (m = 1 \/ m = 2 \/ m = 3 \/ m = 4 \/ m = 5 \/ m = 6 \/ m = 7
          \/ m = 8 \/ m = 9 \/ m = 10 \/ m = 11 \/ m = 12) as Hmonths by lia;
  repeat (destruct Hmonths as [Hmonths | Hmonths]); subst m.

Lemma days_before_year_step y :
  days_before_year (y + 1)
  = days_before_year y + 365 + (if is_leap y then 1 else 0).
Proof.
  unfold days_before_year, is_leap. replace (y + 1 - 1) with y by lia.
  decide_comparisons; simpl; Z.div_mod_to_equations; lia.
Qed.

Lemma days_before_year_mono y1 y2 :
  y1 <= y2 -> days_before_year y1 <= days_before_year y2.
Proof.
  intros Hle. unfold days_before_year. Z.div_mod_to_equations. lia.
Qed.

Lemma days_before_year_min : days_before_year 1 = 0.
Proof. reflexivity. Qed.

Lemma days_before_year_max : days_before_year 10000 = MAXORDINAL.
Proof. reflexivity. Qed.

(** The day of the year of a date that exists. *)
Lemma day_of_year_range y m d :
  valid_date y m d ->
  1 <= days_before_month y m + d <= 365 + (if is_leap y then 1 else 0).
Proof.
  unfold valid_date, days_before_month, days_in_month.
  intros (_ & Hm & Hd). months m; simpl in *; destruct (is_leap y); simpl in *; lia.
Qed.

Lemma ymd2ord_range y m d :
  valid_date y m d -> 1 <= ymd2ord y m d <= MAXORDINAL.
Proof.
  intros Hv. pose proof (day_of_year_range _ _ _ Hv) as Hd.
  destruct Hv as ((Hy1 & Hy2) & _). unfold MINYEAR, MAXYEAR in *.
  pose proof (days_before_year_mono 1 y Hy1) as Hlo.
  pose proof (days_before_year_mono (y + 1) 10000 ltac:(lia)) as Hhi.
  rewrite days_before_year_step in Hhi.
  rewrite days_before_year_min in Hlo. rewrite days_before_year_max in Hhi.
  unfold ymd2ord. lia.
Qed.

(** Later dates have larger ordinals. *)
Lemma ymd2ord_lt y1 m1 d1 y2 m2 d2 :
  valid_date y1 m1 d1 -> valid_date y2 m2 d2 ->
  lex_lt [y1; m1; d1] [y2; m2; d2] = true ->
  ymd2ord y1 m1 d1 < ymd2ord y2 m2 d2.
Proof.
  intros Hv1 Hv2 Hlt.
  pose proof (day_of_year_range _ _ _ Hv1) as Hd1.
  pose proof (day_of_year_range _ _ _ Hv2) as Hd2.
  unfold ymd2ord. simpl in Hlt.
  destruct (Z.ltb_spec y1 y2) as [Hy|Hy].
  - pose proof (days_before_year_mono (y1 + 1) y2 ltac:(lia)) as Hmono.
    rewrite days_before_year_step in Hmono. lia.
  - destruct (Z.eqb_spec y1 y2) as [->|?]; [|discriminate].
    simpl in Hlt. clear Hd1 Hd2.
    destruct Hv1 as (_ & Hm1 & Hday1), Hv2 as (_ & Hm2 & Hday2).
    unfold days_before_month, days_in_month in *.
    destruct (Z.ltb_spec m1 m2) as [Hm|Hm].
    + clear Hlt. destruct (is_leap y2);
        months m1; simpl in *; months m2; simpl in *; lia.
    + destruct (Z.eqb_spec m1 m2) as [->|?]; [|discriminate].
      simpl in Hlt. destruct (Z.ltb_spec d1 d2); [lia|].
      rewrite andb_false_r in Hlt. discriminate.
Qed.

Lemma ord2ymd_unfold n :
  ord2ymd n =
  let a := (n - 1) / 146097 in
  let r := (n - 1) mod 146097 in
  let b := r / 36524 in
  let r2 := r mod 36524 in
  let c := r2 / 1461 in
  let r3 := r2 mod 1461 in
  let e := r3 / 365 in
  let r4 := r3 mod 365 in
  let year := a * 400 + 1 + b * 100 + c * 4 + e in
  if (e =? 4) || (b =? 4) then (year - 1, 12, 31)
  else
    let '(m, d) := month_day ((e =? 3) && (negb (c =? 24) || (b =? 3))) r4 in
    (year, m, d).
Proof.
  unfold ord2ymd, month_day, DI400Y, DI100Y, DI4Y. cbv zeta.
  destruct (_ || _); [reflexivity|].
  destruct (_ >? _); reflexivity.
Qed.

Lemma month_day_spec leapyear n :
  0 <= n < 365 -> month_day_ok leapyear n = true.
Proof.
  intros Hn.
  assert (Hall : forallb (fun k => month_day_ok true k && month_day_ok false k)
                   (upto 365) = true) by (vm_compute; reflexivity).
  rewrite forallb_forall in Hall.
  specialize (Hall n (elem_of_upto 365 n Hn)).
  apply andb_true_iff in Hall. destruct leapyear; tauto.
Qed.

(** Leap years and days before a year, along the 400, 100, 4 and 1 year
    cycles. *)
Lemma is_leap_cycles a b c e :
  0 <= b <= 3 -> 0 <= c <= 24 -> 0 <= e <= 3 ->
  is_leap (a * 400 + 1 + b * 100 + c * 4 + e)
  = (e =? 3) && (negb (c =? 24) || (b =? 3)).
Proof.
  intros Hb Hc He. unfold is_leap.
  decide_comparisons; simpl; try reflexivity;
    exfalso; Z.div_mod_to_equations; lia.
Qed.

Lemma days_before_year_cycles a b c e :
  0 <= b <= 3 -> 0 <= c <= 24 -> 0 <= e <= 3 ->
  days_before_year (a * 400 + 1 + b * 100 + c * 4 + e)
  = 146097 * a + 36524 * b + 1461 * c + 365 * e.
Proof.
  intros Hb Hc He. unfold days_before_year.
  Z.div_mod_to_equations. lia.
Qed.

Lemma year_below_max y k :
  days_before_year y + k <= MAXORDINAL -> 0 < k -> y <= MAXYEAR.
Proof.
  intros Hle Hk. unfold MAXYEAR.
  destruct (Z.le_gt_cases y 9999) as [?|Hgt]; [assumption|].
  pose proof (days_before_year_mono 10000 y ltac:(lia)) as Hmono.
  rewrite days_before_year_max in Hmono. lia.
Qed.

(** [ord2ymd] gives a date that exists and has the ordinal asked for. *)
Lemma ord2ymd_spec n :
  1 <= n <= MAXORDINAL ->
  let '(y, m, d) := ord2ymd n in valid_date y m d /\ ymd2ord y m d = n.
Proof.
  intros Hn. rewrite ord2ymd_unfold. cbv zeta.
  set (a := (n - 1) / 146097). set (r := (n - 1) mod 146097).
  set (b := r / 36524). set (r2 := r mod 36524).
  set (c := r2 / 1461). set (r3 := r2 mod 1461).
  set (e := r3 / 365). set (r4 := r3 mod 365).
  assert (Ha : n - 1 = 146097 * a + r /\ 0 <= r < 146097 /\ 0 <= a)
    by (subst a r; Z.div_mod_to_equations; lia).
  assert (Hb : r = 36524 * b + r2 /\ 0 <= r2 < 36524)
    by (subst b r2; Z.div_mod_to_equations; lia).
  assert (Hc : r2 = 1461 * c + r3 /\ 0 <= r3 < 1461)
    by (subst c r3; Z.div_mod_to_equations; lia).
  assert (He : r3 = 365 * e + r4 /\ 0 <= r4 < 365)
    by (subst e r4; Z.div_mod_to_equations; lia).
  clearbody a r b r2 c r3 e r4.
  assert (Hbounds : 0 <= b <= 4 /\ 0 <= c <= 24 /\ 0 <= e <= 4) by lia.
  destruct (Z.eqb_spec e 4) as [He4|He4]; [|destruct (Z.eqb_spec b 4) as [Hb4|Hb4]];
    simpl orb; cbv iota.
  - (* the last day of a leap year that ends a 4 year cycle *)
    replace (a * 400 + 1 + b * 100 + c * 4 + e - 1)
      with (a * 400 + 1 + b * 100 + c * 4 + 3) by lia.
    assert (Hb3 : 0 <= b <= 3) by lia.
    assert (Hc23 : 0 <= c <= 23) by lia.
    pose proof (is_leap_cycles a b c 3 Hb3 ltac:(lia) ltac:(lia)) as Hleap.
    pose proof (days_before_year_cycles a b c 3 Hb3 ltac:(lia) ltac:(lia)) as Hdby.
    replace ((3 =? 3) && (negb (c =? 24) || (b =? 3))) with true in Hleap
      by (destruct (Z.eqb_spec c 24); [lia|reflexivity]).
    unfold valid_date, ymd2ord, days_in_month, days_before_month.
    rewrite Hleap, Hdby. simpl.
    split; [|lia].
    split; [|lia]. split; [unfold MINYEAR; lia|].
    apply (year_below_max _ 366); [rewrite Hdby|]; lia.
  - (* the last day of a leap year that ends a 400 year cycle *)
    replace (a * 400 + 1 + b * 100 + c * 4 + e - 1)
      with (a * 400 + 1 + 3 * 100 + 24 * 4 + 3) by lia.
    pose proof (is_leap_cycles a 3 24 3 ltac:(lia) ltac:(lia) ltac:(lia)) as Hleap.
    pose proof (days_before_year_cycles a 3 24 3 ltac:(lia) ltac:(lia) ltac:(lia))
      as Hdby.
    simpl in Hleap.
    unfold valid_date, ymd2ord, days_in_month, days_before_month.
    rewrite Hleap, Hdby. simpl.
    split; [|lia].
    split; [|lia]. split; [unfold MINYEAR; lia|].
    apply (year_below_max _ 366); [rewrite Hdby|]; lia.
  - assert (Hb3 : 0 <= b <= 3) by lia.
    assert (He3 : 0 <= e <= 3) by lia.
    pose proof (is_leap_cycles a b c e Hb3 ltac:(lia) He3) as Hleap.
    pose proof (days_before_year_cycles a b c e Hb3 ltac:(lia) He3) as Hdby.
    pose proof (month_day_spec ((e =? 3) && (negb (c =? 24) || (b =? 3))) r4
                  ltac:(lia)) as Hmd.
    unfold month_day_ok in Hmd.
    destruct (month_day _ r4) as [m d].
    rewrite <- Hleap in Hmd.
    repeat (apply andb_true_iff in Hmd; destruct Hmd as [Hmd ?]).
    unfold valid_date, ymd2ord, days_in_month, days_before_month.
    rewrite Hdby.
    split; [|lia].
    split; [split; [unfold MINYEAR; lia|]|].
    + apply (year_below_max _ 1); [rewrite Hdby|]; lia.
    + split; [lia|]. split; [lia|].
      destruct (Z.eqb_spec m 2) as [->|Hm2]; simpl in *; [|lia].
      destruct (is_leap _); simpl in *; lia.
Qed.
End CalendarFacts.

(** ** Facts about [datetime] values *)

Module DatetimeFacts.
Import Py Datetime Notions TextFacts CalendarFacts.

Lemma lex_lt_irrefl a : lex_lt a a = false.
Proof.
  induction a as [|x a IH]; [reflexivity|].
  simpl. rewrite Z.ltb_irrefl, Z.eqb_refl, IH. reflexivity.
Qed.

Lemma lex_lt_trans a b c :
  lex_lt a b = true -> lex_lt b c = true -> lex_lt a c = true.
Proof.
  revert b c. induction a as [|x a IH]; intros [|y b] [|z c]; simpl;
    try congruence.
  intros Hab Hbc.
  destruct (Z.ltb_spec x y), (Z.ltb_spec y z), (Z.ltb_spec x z),
    (Z.eqb_spec x y), (Z.eqb_spec y z), (Z.eqb_spec x z);
    simpl in *; try reflexivity; try discriminate; try lia.
  eapply IH; eassumption.
Qed.

Lemma lex_lt_total (a b : list Z) :
  length a = length b -> lex_lt a b = true \/ a = b \/ lex_lt b a = true.
Proof.
  revert b. induction a as [|x a IH]; intros [|y b] Hlen; simpl in *;
    try discriminate; auto.
  destruct (Z.ltb_spec x y), (Z.ltb_spec y x), (Z.eqb_spec x y),
    (Z.eqb_spec y x); simpl; auto; try lia.
  subst y. destruct (IH b ltac:(lia)) as [?|[->|?]]; auto.
Qed.

Lemma lex_lt_asym a b : lex_lt a b = true -> lex_lt b a = false.
Proof.
  intros Hab. destruct (lex_lt b a) eqn:Hba; [|reflexivity].
  pose proof (lex_lt_trans _ _ _ Hab Hba) as Haa.
  rewrite lex_lt_irrefl in Haa. discriminate.
Qed.

Lemma lex_lt_app_lt (p1 p2 q1 q2 : list Z) :
  length p1 = length p2 -> lex_lt p1 p2 = true ->
  lex_lt (p1 ++ q1) (p2 ++ q2) = true.
Proof.
  revert p2. induction p1 as [|x p1 IH]; intros [|y p2] Hlen; simpl in *;
    try discriminate.
  destruct (x <? y); [reflexivity|]. destruct (x =? y); [|discriminate].
  simpl. apply IH. lia.
Qed.

Lemma lex_lt_app_eq (p q1 q2 : list Z) :
  lex_lt (p ++ q1) (p ++ q2) = lex_lt q1 q2.
Proof.
  induction p as [|x p IH]; [reflexivity|].
  simpl. rewrite Z.ltb_irrefl, Z.eqb_refl, IH. reflexivity.
Qed.

Lemma ymd2ord_inj y1 m1 d1 y2 m2 d2 :
  valid_date y1 m1 d1 -> valid_date y2 m2 d2 ->
  ymd2ord y1 m1 d1 = ymd2ord y2 m2 d2 -> [y1; m1; d1] = [y2; m2; d2].
Proof.
  intros Hv1 Hv2 Heq.
  destruct (lex_lt_total [y1; m1; d1] [y2; m2; d2] eq_refl)
    as [Hlt|[?|Hlt]]; [|assumption|].
  - pose proof (ymd2ord_lt _ _ _ _ _ _ Hv1 Hv2 Hlt). lia.
  - pose proof (ymd2ord_lt _ _ _ _ _ _ Hv2 Hv1 Hlt). lia.
Qed.

Lemma ord2ymd_ymd2ord y m d :
  valid_date y m d -> ord2ymd (ymd2ord y m d) = (y, m, d).
Proof.
  intros Hv. pose proof (ord2ymd_spec _ (ymd2ord_range _ _ _ Hv)) as Hspec.
  destruct (ord2ymd (ymd2ord y m d)) as [[y' m'] d'].
  destruct Hspec as [Hv' Heq].
  pose proof (ymd2ord_inj _ _ _ _ _ _ Hv' Hv Heq) as Hlist.
  congruence.
Qed.

(** The seconds since midnight. *)
Lemma instant_split d :
  valid d ->
  instant d / 86400 = toordinal d
  /\ instant d mod 86400 = hour d * 3600 + minute d * 60 + second d.
Proof.
  intros (_ & Hh & Hm & Hs). unfold instant.
  Z.div_mod_to_equations. lia.
Qed.

Lemma instant_range d :
  valid d -> 86400 <= instant d < (MAXORDINAL + 1) * 86400.
Proof.
  intros Hv. pose proof (ymd2ord_range _ _ _ (proj1 Hv)) as Hord.
  destruct Hv as (_ & Hh & Hm & Hs). unfold instant, toordinal. lia.
Qed.

(** A value is known by its instant. *)
Lemma instant_inj a b : valid a -> valid b -> instant a = instant b -> a = b.
Proof.
  intros Ha Hb Heq.
  destruct (instant_split a Ha) as [Hda Hsa].
  destruct (instant_split b Hb) as [Hdb Hsb].
  rewrite Heq in Hda, Hsa. rewrite Hdb in Hda. rewrite Hsb in Hsa.
  pose proof (ymd2ord_inj _ _ _ _ _ _ (proj1 Ha) (proj1 Hb) (eq_sym Hda))
    as Hdate.
  destruct Ha as (_ & ? & ? & ?), Hb as (_ & ? & ? & ?).
  destruct a, b; simpl in *.
  injection Hdate as -> -> ->.
  f_equal; lia.
Qed.

(** Field by field comparison is comparison of instants. *)
Lemma lt_instant a b :
  valid a -> valid b -> lt a b = (instant a <? instant b).
Proof.
  intros Ha Hb. unfold lt, fields.
  change (lex_lt ([year a; month a; day a] ++ [hour a; minute a; second a])
                 ([year b; month b; day b] ++ [hour b; minute b; second b])
          = (instant a <? instant b)).
  pose proof (proj1 Ha) as Hda. pose proof (proj1 Hb) as Hdb.
  destruct Ha as (_ & ? & ? & ?), Hb as (_ & ? & ? & ?).
  unfold instant, toordinal.
  destruct (lex_lt_total [year a; month a; day a] [year b; month b; day b]
              eq_refl) as [Hlt|[Heq|Hlt]].
  - rewrite lex_lt_app_lt by (reflexivity || assumption).
    pose proof (ymd2ord_lt _ _ _ _ _ _ Hda Hdb Hlt).
    symmetry. apply Z.ltb_lt. lia.
  - rewrite Heq, lex_lt_app_eq. injection Heq as -> -> ->.
    simpl. decide_comparisons; simpl; try reflexivity; exfalso; lia.
  - rewrite (lex_lt_asym _ _ (lex_lt_app_lt
               [year b; month b; day b] [year a; month a; day a]
               [hour b; minute b; second b] [hour a; minute a; second a]
               eq_refl Hlt)).
    pose proof (ymd2ord_lt _ _ _ _ _ _ Hdb Hda Hlt).
    symmetry. apply Z.ltb_ge. lia.
Qed.

Lemma le_instant a b :
  valid a -> valid b -> le a b = (instant a <=? instant b).
Proof.
  intros Ha Hb. unfold le. rewrite lt_instant by assumption.
  destruct (Z.ltb_spec (instant b) (instant a)),
    (Z.leb_spec (instant a) (instant b)); simpl; try reflexivity; lia.
Qed.

(** What [add] returns: the value at the shifted instant, when there is
    one. *)
Lemma add_spec d delta :
  86400 <= instant d + delta < (MAXORDINAL + 1) * 86400 ->
  exists d', add d delta = Ok d' /\ valid d'
             /\ instant d' = instant d + delta.
Proof.
  intros Hrange. unfold add. cbv zeta.
  set (t := instant d + delta) in *.
  assert (Hdays : 1 <= t / 86400 <= MAXORDINAL)
    by (unfold MAXORDINAL in *; Z.div_mod_to_equations; lia).
  replace ((0 <? t / 86400) && (t / 86400 <=? MAXORDINAL)) with true
    by (symmetry; apply andb_true_iff; split;
        [apply Z.ltb_lt|apply Z.leb_le]; lia).
  pose proof (ord2ymd_spec _ Hdays) as Hspec.
  destruct (ord2ymd (t / 86400)) as [[y m] dd].
  destruct Hspec as [Hv Hord].
  eexists. split; [reflexivity|].
  split.
  - split; [exact Hv|]. simpl. Z.div_mod_to_equations. lia.
  - unfold instant, toordinal. simpl. rewrite Hord.
    Z.div_mod_to_equations. lia.
Qed.

Lemma add_overflow d delta :
  ~ (86400 <= instant d + delta < (MAXORDINAL + 1) * 86400) ->
  add d delta = Raise OverflowError.
Proof.
  intros Hrange. unfold add. cbv zeta.
  set (t := instant d + delta) in *.
  replace ((0 <? t / 86400) && (t / 86400 <=? MAXORDINAL)) with false;
    [reflexivity|].
  symmetry. apply andb_false_iff.
  destruct (Z.ltb_spec 0 (t / 86400)); [right|left; reflexivity].
  apply Z.leb_gt. unfold MAXORDINAL in *. Z.div_mod_to_equations. lia.
Qed.

Lemma add_inv d delta d' :
  add d delta = Ok d' -> valid d' /\ instant d' = instant d + delta.
Proof.
  intros Hadd.
  destruct (Z_le_dec 86400 (instant d + delta)) as [Hlo|Hlo];
    [destruct (Z_lt_dec (instant d + delta) ((MAXORDINAL + 1) * 86400))
       as [Hhi|Hhi]|].
  - destruct (add_spec d delta ltac:(lia)) as (d'' & Hadd' & Hv & Hi).
    rewrite Hadd in Hadd'. injection Hadd' as ->. auto.
  - rewrite add_overflow in Hadd by lia. discriminate.
  - rewrite add_overflow in Hadd by lia. discriminate.
Qed.

(** To add is to reach the value at the shifted instant. *)
Lemma add_to d delta d' :
  valid d' -> instant d' = instant d + delta -> add d delta = Ok d'.
Proof.
  intros Hv Hi. pose proof (instant_range d' Hv) as Hr.
  destruct (add_spec d delta ltac:(lia)) as (d'' & Hadd & Hv' & Hi').
  rewrite Hadd. f_equal. apply instant_inj; [assumption..|lia].
Qed.


Lemma days_in_month_le y m : days_in_month y m <= 31.
Proof.
  unfold days_in_month, DAYS_IN_MONTH.
  destruct ((m =? 2) && is_leap y); [lia|].
  destruct m as [|p|p]; try lia.
  do 4 (try destruct p as [p|p|]); lia.
Qed.

Lemma str_app_nil_r s : s +:+ EmptyString = s.
Proof. induction s as [|c s IH]; [reflexivity|]. rewrite str_app_cons, IH. reflexivity. Qed.

Lemma isoformat_digits d :
  valid d ->
  isoformat d
  = four_digits (year d) +:+ "-" +:+ two_digits (month d) +:+ "-"
    +:+ two_digits (day d) +:+ "T" +:+ two_digits (hour d) +:+ ":"
    +:+ two_digits (minute d) +:+ ":" +:+ two_digits (second d).
Proof.
  intros (((Hy1 & Hy2) & Hm & Hd) & Hh & Hmi & Hs).
  pose proof (days_in_month_le (year d) (month d)).
  unfold MINYEAR, MAXYEAR in *. unfold isoformat.
  rewrite format_d_4 by lia. rewrite !format_d_2 by lia. reflexivity.
Qed.

(** Timestamps compare as text the way their values compare. *)
Lemma str_lt_isoformat a b :
  valid a -> valid b -> str_lt (isoformat a) (isoformat b) = lt a b.
Proof.
  intros Ha Hb. rewrite !isoformat_digits by assumption.
  destruct Ha as (((Hy1 & Hy2) & Hm & Hd) & Hh & Hmi & Hs).
  destruct Hb as (((Hy1' & Hy2') & Hm' & Hd') & Hh' & Hmi' & Hs').
  pose proof (days_in_month_le (year a) (month a)).
  pose proof (days_in_month_le (year b) (month b)).
  unfold MINYEAR, MAXYEAR in *.
  rewrite <- (str_app_nil_r (two_digits (second a))).
  rewrite <- (str_app_nil_r (two_digits (second b))).
  rewrite str_lt_four_digits by lia.
  rewrite !str_app_cons, !str_app_nil.
  do 5 (rewrite str_lt_same_head; rewrite str_lt_two_digits by lia).
  rewrite str_lt_nil. reflexivity.
Qed.

Lemma str_lt_isoformat_instant a b :
  valid a -> valid b ->
  str_lt (isoformat a) (isoformat b) = (instant a <? instant b).
Proof.
  intros Ha Hb. rewrite str_lt_isoformat, lt_instant by assumption.
  reflexivity.
Qed.

Lemma str_le_isoformat_instant a b :
  valid a -> valid b ->
  str_le (isoformat a) (isoformat b) = (instant a <=? instant b).
Proof.
  intros Ha Hb. rewrite str_le_lt, str_lt_isoformat_instant by assumption.
  destruct (Z.ltb_spec (instant b) (instant a)),
    (Z.leb_spec (instant a) (instant b)); simpl; try reflexivity; lia.
Qed.

End DatetimeFacts.

(** ** The strict parser reads back [isoformat] *)

Module ParserFacts.
Import Py Datetime Parser Notions TextFacts CalendarFacts DatetimeFacts.

Lemma isdigit_chr x : 0 <= x <= 9 -> isdigit (chr (48 + x)) = true.
Proof.
  intros Hx. unfold isdigit. rewrite ord_chr by lia.
  apply andb_true_iff. split; apply Z.leb_le; lia.
Qed.

Lemma read_two_digits n acc r :
  0 <= n < 100 ->
  read_digits 2 acc (two_digits n +:+ r) = Some (acc * 100 + n, r).
Proof.
  intros Hn. unfold two_digits. rewrite !str_app_cons, str_app_nil. simpl.
  rewrite !isdigit_chr, !ord_chr by (Z.div_mod_to_equations; lia).
  do 2 f_equal. Z.div_mod_to_equations. lia.
Qed.

Lemma read_four_digits n r :
  0 <= n < 10000 -> read_digits 4 0 (four_digits n +:+ r) = Some (n, r).
Proof.
  intros Hn. unfold four_digits, two_digits. rewrite !str_app_cons, str_app_nil. simpl.
  rewrite !isdigit_chr, !ord_chr by (Z.div_mod_to_equations; lia).
  do 2 f_equal. Z.div_mod_to_equations. lia.
Qed.

Lemma expect_same c s : expect c (String c s) = Some s.
Proof. unfold expect. rewrite Ascii.eqb_refl. reflexivity. Qed.

Lemma new_datetime_valid y m d :
  valid_date y m d -> new_datetime y m d = Ok (mk_datetime y m d 0 0 0).
Proof.
  intros ((Hy1 & Hy2) & (Hm1 & Hm2) & (Hd1 & Hd2)). unfold new_datetime.
  apply Z.leb_le in Hy1, Hy2, Hm1, Hm2, Hd1, Hd2.
  rewrite Hy1, Hy2, Hm1, Hm2, Hd1, Hd2. reflexivity.
Qed.

Lemma read_fields_isoformat d : valid d -> read_fields (isoformat d) = Some d.
Proof.
  intros Hv. rewrite isoformat_digits by assumption.
  destruct Hv as (((Hy1 & Hy2) & Hm & Hd) & Hh & Hmi & Hs).
  pose proof (days_in_month_le (year d) (month d)).
  unfold MINYEAR, MAXYEAR in *. unfold read_fields.
  rewrite <- (str_app_nil_r (two_digits (second d))).
  rewrite !str_app_cons, !str_app_nil.
  rewrite read_four_digits by lia. cbn [mbind option_bind].
  do 5 (rewrite expect_same; cbn [mbind option_bind];
        rewrite read_two_digits by lia; cbn [mbind option_bind]).
  destruct d; reflexivity.
Qed.

Lemma fromisoformat_strict_reads_back : reads_back fromisoformat_strict.
Proof.
  intros d Hv. unfold fromisoformat_strict.
  rewrite read_fields_isoformat by assumption.
  rewrite new_datetime_valid by apply Hv. simpl.
  destruct Hv as (_ & Hh & Hmi & Hs).
  replace (hour d <=? 23) with true by (symmetry; apply Z.leb_le; lia).
  replace (minute d <=? 59) with true by (symmetry; apply Z.leb_le; lia).
  replace (second d <=? 59) with true by (symmetry; apply Z.leb_le; lia).
  reflexivity.
Qed.

End ParserFacts.

(** ** Facts about the routes *)

Module RouteFacts.
Import Py Datetime Store Main Parser Notions.
Import TextFacts CalendarFacts DatetimeFacts ParserFacts.

Lemma new_datetime_inv y m d dt :
  new_datetime y m d = Ok dt ->
  valid_date y m d /\ dt = mk_datetime y m d 0 0 0.
Proof.
  unfold new_datetime, valid_date.
  destruct (Z.leb_spec MINYEAR y), (Z.leb_spec y MAXYEAR); simpl;
    try discriminate.
  destruct (Z.leb_spec 1 m), (Z.leb_spec m 12); simpl; try discriminate.
  destruct (Z.leb_spec 1 d), (Z.leb_spec d (days_in_month y m)); simpl;
    try discriminate.
  intros Heq. injection Heq as <-. auto.
Qed.

Lemma new_time_inv h m t :
  new_time h m = Ok t -> t = mk_time h m /\ 0 <= h <= 23 /\ 0 <= m <= 59.
Proof.
  unfold new_time.
  destruct (Z.leb_spec 0 h), (Z.leb_spec h 23); simpl; try discriminate.
  destruct (Z.leb_spec 0 m), (Z.leb_spec m 59); simpl; try discriminate.
  intros Heq. injection Heq as <-. auto.
Qed.

(** A date that [ist_date_from_str] accepts is the midnight of a day that
    exists. *)
Lemma ist_date_from_str_inv date_str dt :
  ist_date_from_str date_str = Ok dt ->
  valid dt /\ hour dt = 0 /\ minute dt = 0 /\ second dt = 0.
Proof.
  unfold ist_date_from_str, try_except.
  destruct (map_int (split "-" date_str)) as [parts| |]; simpl;
    try discriminate.
  destruct parts as [|y [|m [|d [|]]]]; simpl; try discriminate.
  destruct (new_datetime y m d) as [dt'| |] eqn:Hnew; try discriminate.
  intros Heq. injection Heq as <-.
  apply new_datetime_inv in Hnew as [Hv ->].
  unfold valid. simpl. split; [split; [exact Hv|lia]|auto].
Qed.

Lemma time_from_str_inv time_str t :
  time_from_str time_str = Ok t ->
  0 <= t_hour t <= 23 /\ 0 <= t_minute t <= 59.
Proof.
  unfold time_from_str, try_except.
  destruct (map_int (split ":" time_str)) as [parts| |]; simpl;
    try discriminate.
  destruct parts as [|h [|m [|]]]; simpl; try discriminate.
  destruct (new_time h m) as [t'| |] eqn:Hnew; try discriminate.
  intros Heq. injection Heq as <-.
  apply new_time_inv in Hnew as [-> ?]. assumption.
Qed.

(** The two parsers end in a value or in their own [HTTPException]. *)
Lemma int_terminates p : int p <> OutOfFuel.
Proof.
  unfold int.
  destruct (match rstrip (lstrip p) with "" => _ | _ => _ end);
    [destruct (_ <? _)|]; discriminate.
Qed.

Lemma map_int_terminates parts : map_int parts <> OutOfFuel.
Proof.
  induction parts as [|p ps IH]; simpl; [discriminate|].
  pose proof (int_terminates p) as Hp.
  destruct (int p); simpl; [|discriminate|contradiction].
  destruct (map_int ps); simpl; [discriminate..|contradiction].
Qed.

Lemma try_except_cases {A} (body : result A) handler :
  body <> OutOfFuel ->
  (exists a, try_except body handler = Ok a)
  \/ try_except body handler = Raise handler.
Proof. destruct body; simpl; eauto. contradiction. Qed.

Lemma ist_date_from_str_cases date_str :
  (exists dt, ist_date_from_str date_str = Ok dt)
  \/ ist_date_from_str date_str = Raise date_error.
Proof.
  apply try_except_cases.
  pose proof (map_int_terminates (split "-" date_str)) as Hparts.
  destruct (map_int _) as [parts| |]; simpl; [|discriminate|contradiction].
  destruct parts as [|y [|m [|d [|]]]]; try discriminate.
  unfold new_datetime. repeat (destruct (negb _); try discriminate).
Qed.

Lemma time_from_str_cases time_str :
  (exists t, time_from_str time_str = Ok t)
  \/ time_from_str time_str = Raise time_error.
Proof.
  apply try_except_cases.
  pose proof (map_int_terminates (split ":" time_str)) as Hparts.
  destruct (map_int _) as [parts| |]; simpl; [|discriminate|contradiction].
  destruct parts as [|h [|m [|]]]; try discriminate.
  unfold new_time. repeat (destruct (negb _); try discriminate).
Qed.

Lemma combine_valid d t :
  valid d -> 0 <= t_hour t <= 23 -> 0 <= t_minute t <= 59 ->
  valid (combine d t).
Proof.
  intros (Hd & _) Hh Hm. unfold valid, combine. simpl. auto with lia.
Qed.

Lemma instant_combine d t :
  instant (combine d t)
  = toordinal d * 86400 + t_hour t * 3600 + t_minute t * 60.
Proof. unfold instant, toordinal, combine. simpl. lia. Qed.

(** The interval [create_booking] computes for a time within hours: it
    never leaves the calendar. *)
Lemma booking_interval date_dt t_obj :
  valid date_dt -> 0 <= t_minute t_obj <= 59 ->
  START_HOUR_IST <= t_hour t_obj < END_HOUR_IST ->
  exists start_utc end_utc,
    to_utc_from_ist date_dt t_obj = Ok start_utc
    /\ add start_utc (timedelta_of 0 0 SLOT_MINUTES) = Ok end_utc
    /\ valid start_utc /\ valid end_utc
    /\ instant start_utc = instant (combine date_dt t_obj) - 19800
    /\ instant end_utc = instant start_utc + 1800.
Proof.
  intros Hv Hm Hh. unfold START_HOUR_IST, END_HOUR_IST in Hh.
  pose proof (ymd2ord_range _ _ _ (proj1 Hv)) as Hord.
  fold (toordinal date_dt) in Hord. unfold MAXORDINAL in *.
  destruct (add_spec (combine date_dt t_obj) (- IST_OFFSET))
    as (start_utc & Hstart & Hvs & His).
  { rewrite instant_combine. unfold IST_OFFSET, timedelta_of, MAXORDINAL. lia. }
  rewrite instant_combine in His.
  destruct (add_spec start_utc (timedelta_of 0 0 SLOT_MINUTES))
    as (end_utc & Hend & Hve & Hie).
  { rewrite His.
    unfold IST_OFFSET, timedelta_of, SLOT_MINUTES, MAXORDINAL. lia. }
  exists start_utc, end_utc.
  split; [exact Hstart|]. split; [exact Hend|].
  split; [assumption|]. split; [assumption|].
  rewrite instant_combine.
  unfold IST_OFFSET, timedelta_of, SLOT_MINUTES in *. lia.
Qed.

(** *** Running a route *)

Lemma bind_lift_ok {A B} (r : result A) (f : A -> M B) a st :
  r = Ok a -> (lift r ≫= f) st = f a st.
Proof. intros ->. reflexivity. Qed.

Lemma bind_lift_raise {A B} (r : result A) (f : A -> M B) e st :
  r = Raise e -> (lift r ≫= f) st = (Raise e, st).
Proof. intros ->. reflexivity. Qed.

Lemma weekday_test d : weekday d < 5 -> (weekday d >=? 5) = false.
Proof. intros Hlt. rewrite Z.geb_leb. apply Z.leb_gt. assumption. Qed.

Lemma hours_test h :
  negb ((START_HOUR_IST <=? h) && (h <? END_HOUR_IST)) = false
  <-> START_HOUR_IST <= h < END_HOUR_IST.
Proof.
  destruct (Z.leb_spec START_HOUR_IST h), (Z.ltb_spec h END_HOUR_IST);
    simpl; split; intros; try discriminate; try lia; reflexivity.
Qed.

(** [create_booking] on a request that passes the checks: the conflict
    query decides. *)
Lemma create_booking_checked payload st date_dt t_obj start_utc end_utc :
  ist_date_from_str (req_date payload) = Ok date_dt ->
  weekday date_dt < 5 ->
  time_from_str (req_time payload) = Ok t_obj ->
  START_HOUR_IST <= t_hour t_obj < END_HOUR_IST ->
  to_utc_from_ist date_dt t_obj = Ok start_utc ->
  add start_utc (timedelta_of 0 0 SLOT_MINUTES) = Ok end_utc ->
  create_booking payload st
  = let q := conflict_query start_utc end_utc in
    let doc := booking_doc payload start_utc end_utc in
    let docs := collection st "booking" in
    match head (List.filter (matches q) docs) with
    | Some _ => (Raise conflict_error, log (FindOne "booking" q) st)
    | None =>
        (Ok (confirmed payload),
         mk_state (<["booking" := docs ++ [doc]]> (collections st))
           (accesses st ++ [FindOne "booking" q; InsertOne "booking" doc]))
    end.
Proof.
  intros Hdate Hwd Htime Hh Hstart Hend. unfold create_booking.
  rewrite (bind_lift_ok _ _ _ _ Hdate), (weekday_test _ Hwd).
  rewrite (bind_lift_ok _ _ _ _ Htime).
  rewrite (proj2 (hours_test _) Hh).
  rewrite (bind_lift_ok _ _ _ _ Hstart), (bind_lift_ok _ _ _ _ Hend).
  cbv zeta. unfold mbind at 1, M_bind, find_one.
  destruct (head _); [reflexivity|].
  unfold mbind, M_bind, create_document, log, collection. simpl.
  rewrite <- List.app_assoc. reflexivity.
Qed.


(** [create_booking] with the store passed along explicitly. *)
Lemma create_booking_cases payload st :
  create_booking payload st
  = match ist_date_from_str (req_date payload) with
    | Ok date_dt =>
        if weekday date_dt >=? 5 then (Raise weekend_error, st)
        else
          match time_from_str (req_time payload) with
          | Ok t_obj =>
              if negb ((START_HOUR_IST <=? t_hour t_obj)
                       && (t_hour t_obj <? END_HOUR_IST))
              then (Raise hours_error, st)
              else
                match to_utc_from_ist date_dt t_obj with
                | Ok start_utc =>
                    match add start_utc (timedelta_of 0 0 SLOT_MINUTES) with
                    | Ok end_utc =>
                        let q := conflict_query start_utc end_utc in
                        let doc := booking_doc payload start_utc end_utc in
                        let docs := collection st "booking" in
                        match head (List.filter (matches q) docs) with
                        | Some _ =>
                            (Raise conflict_error, log (FindOne "booking" q) st)
                        | None =>
                            (Ok (confirmed payload),
                             mk_state
                               (<["booking" := docs ++ [doc]]> (collections st))
                               (accesses st
                                ++ [FindOne "booking" q; InsertOne "booking" doc]))
                        end
                    | Raise e => (Raise e, st)
                    | OutOfFuel => (OutOfFuel, st)
                    end
                | Raise e => (Raise e, st)
                | OutOfFuel => (OutOfFuel, st)
                end
          | Raise e => (Raise e, st)
          | OutOfFuel => (OutOfFuel, st)
          end
    | Raise e => (Raise e, st)
    | OutOfFuel => (OutOfFuel, st)
    end.
Proof.
  unfold create_booking.
  destruct (ist_date_from_str (req_date payload)) as [date_dt|e|] eqn:Hdate;
    [|reflexivity..].
  rewrite (bind_lift_ok _ _ _ _ eq_refl).
  destruct (weekday date_dt >=? 5); [reflexivity|].
  destruct (time_from_str (req_time payload)) as [t_obj|e|] eqn:Htime;
    [|reflexivity..].
  rewrite (bind_lift_ok _ _ _ _ eq_refl).
  destruct (negb _); [reflexivity|].
  destruct (to_utc_from_ist date_dt t_obj) as [start_utc|e|] eqn:Hstart;
    [|reflexivity..].
  rewrite (bind_lift_ok _ _ _ _ eq_refl).
  destruct (add start_utc _) as [end_utc|e|] eqn:Hend; [|reflexivity..].
  rewrite (bind_lift_ok _ _ _ _ eq_refl).
  cbv zeta. unfold mbind at 1, M_bind, find_one.
  destruct (head _); [reflexivity|].
  unfold mbind, M_bind, create_document, log, collection. simpl.
  rewrite <- List.app_assoc. reflexivity.
Qed.

(** A confirmed booking passed every check and found no conflict. *)
Lemma create_booking_ok_inv payload st resp st' :
  create_booking payload st = (Ok resp, st') ->
  exists date_dt t_obj start_utc end_utc,
    ist_date_from_str (req_date payload) = Ok date_dt
    /\ weekday date_dt < 5
    /\ time_from_str (req_time payload) = Ok t_obj
    /\ START_HOUR_IST <= t_hour t_obj < END_HOUR_IST
    /\ to_utc_from_ist date_dt t_obj = Ok start_utc
    /\ add start_utc (timedelta_of 0 0 SLOT_MINUTES) = Ok end_utc
    /\ head (List.filter (matches (conflict_query start_utc end_utc))
               (collection st "booking")) = None
    /\ resp = confirmed payload
    /\ collections st'
       = <["booking" := collection st "booking"
                        ++ [booking_doc payload start_utc end_utc]]>
           (collections st).
Proof.
  rewrite create_booking_cases.
  destruct (ist_date_from_str (req_date payload)) as [date_dt|e|];
    try discriminate.
  destruct (Z.geb_spec (weekday date_dt) 5) as [?|Hwd]; try discriminate.
  destruct (time_from_str (req_time payload)) as [t_obj|e|]; try discriminate.
  destruct (negb _) eqn:Hhours; try discriminate.
  apply hours_test in Hhours.
  destruct (to_utc_from_ist date_dt t_obj) as [start_utc|e|] eqn:Hstart;
    try discriminate.
  destruct (add start_utc _) as [end_utc|e|] eqn:Hend; try discriminate.
  cbv zeta. destruct (head _) eqn:Hhead; try discriminate.
  intros Heq. injection Heq as <- <-.
  exists date_dt, t_obj, start_utc, end_utc. simpl.
  repeat (split; [first [reflexivity|assumption]|]). reflexivity.
Qed.

(** *** Stored bookings and the queries *)

Lemma booking_doc_stamped payload start_utc end_utc :
  stamped (booking_doc payload start_utc end_utc) start_utc end_utc.
Proof. split; reflexivity. Qed.

Lemma matches_conflict_query doc s e start_utc end_utc :
  stamped doc s e ->
  matches (conflict_query start_utc end_utc) doc
  = str_lt (isoformat s) (isoformat end_utc)
    && str_lt (isoformat start_utc) (isoformat e).
Proof.
  intros [Hs He]. unfold matches, conflict_query, matches_fields. simpl.
  rewrite Hs, He. simpl. rewrite !andb_true_r, orb_false_r. reflexivity.
Qed.

Lemma matches_day_query doc s e day_start_utc day_end_utc :
  stamped doc s e ->
  matches (day_query day_start_utc day_end_utc) doc
  = str_le (isoformat day_start_utc) (isoformat s)
    && str_lt (isoformat s) (isoformat day_end_utc).
Proof.
  intros [Hs He]. unfold matches, day_query, matches_fields. simpl.
  rewrite Hs. simpl. rewrite !andb_true_r. reflexivity.
Qed.

Lemma collection_insert st name docs accs :
  collection (mk_state (<[name := docs]> (collections st)) accs) name = docs.
Proof. unfold collection. simpl. rewrite lookup_insert_eq. reflexivity. Qed.


(** *** The slots of a day *)

Lemma slot_loop_S fuel date_dt current acc :
  slot_loop (S fuel) date_dt current acc
  = if (t_hour current >=? END_HOUR_IST)
       || ((t_hour current =? END_HOUR_IST) && (t_minute current >? 0))
    then Ok acc
    else
      dt ← add (combine date_dt current) (timedelta_of 0 0 SLOT_MINUTES);
      current' ← new_time (hour dt) (minute dt);
      slot_loop fuel date_dt current'
        (acc ++ [hhmm (t_hour current) (t_minute current)]).
Proof. reflexivity. Qed.

(** One turn of the loop before 17:00: the slot is listed and the clock
    moves on by half an hour. *)
Lemma slot_loop_step fuel date_dt h m h' m' acc :
  valid date_dt -> 0 <= h < END_HOUR_IST -> 0 <= m <= 59 ->
  h * 60 + m + SLOT_MINUTES = h' * 60 + m' -> 0 <= m' <= 59 ->
  slot_loop (S fuel) date_dt (mk_time h m) acc
  = slot_loop fuel date_dt (mk_time h' m') (acc ++ [hhmm h m]).
Proof.
  intros Hv Hh Hm Hnext Hm'. unfold END_HOUR_IST, SLOT_MINUTES in *.
  rewrite slot_loop_S. simpl t_hour. simpl t_minute.
  unfold END_HOUR_IST, SLOT_MINUTES.
  replace (h >=? 17) with false by (symmetry; rewrite Z.geb_leb; apply Z.leb_gt; lia).
  replace (h =? 17) with false by (symmetry; apply Z.eqb_neq; lia).
  simpl orb. cbv iota.
  rewrite (add_to _ _
             (mk_datetime (year date_dt) (month date_dt) (day date_dt) h' m' 0)).
  - simpl. unfold new_time.
    replace ((0 <=? h') && (h' <=? 23)) with true
      by (symmetry; apply andb_true_iff; split; apply Z.leb_le; lia).
    replace ((0 <=? m') && (m' <=? 59)) with true
      by (symmetry; apply andb_true_iff; split; apply Z.leb_le; lia).
    reflexivity.
  - split; [apply Hv|]. simpl. lia.
  - unfold instant, toordinal, combine, timedelta_of. simpl. lia.
Qed.

(** The loop from any slot boundary on: it needs one turn per slot left and
    one to stop at 17:00. *)
Lemma slot_loop_run date_dt count :
  valid date_dt ->
  forall fuel minutes acc,
    0 <= minutes -> minutes + 30 * Z.of_nat count = 1020 ->
    slot_loop fuel date_dt (mk_time (minutes / 60) (minutes mod 60)) acc
    = if (fuel <=? count)%nat then OutOfFuel
      else Ok (acc ++ slots_from minutes count).
Proof.
  intros Hv. induction count as [|count IH]; intros fuel minutes acc Hmin Hsum.
  - assert (minutes = 1020) as -> by lia.
    destruct fuel as [|fuel]; [reflexivity|].
    simpl. rewrite List.app_nil_r. reflexivity.
  - destruct fuel as [|fuel]; [reflexivity|].
    rewrite (slot_loop_step _ _ _ _ ((minutes + 30) / 60) ((minutes + 30) mod 60));
      try assumption;
      try (unfold END_HOUR_IST, SLOT_MINUTES; Z.div_mod_to_equations; lia).
    rewrite IH by lia.
    change (S fuel <=? S count)%nat with (fuel <=? count)%nat.
    destruct (fuel <=? count)%nat; [reflexivity|].
    simpl. rewrite <- List.app_assoc. reflexivity.
Qed.

(** With fuel for its seventeen turns the loop lists the whole grid, and
    with less it lists nothing. *)
Lemma slot_loop_grid fuel date_dt :
  valid date_dt -> (17 <= fuel)%nat ->
  slot_loop fuel date_dt (mk_time START_HOUR_IST 0) [] = Ok working_day_grid.
Proof.
  intros Hv Hfuel.
  change (mk_time START_HOUR_IST 0) with (mk_time (540 / 60) (540 mod 60)).
  rewrite (slot_loop_run date_dt 16 Hv fuel 540 []) by lia.
  replace (fuel <=? 16)%nat with false by (symmetry; apply Nat.leb_gt; lia).
  reflexivity.
Qed.

Lemma slot_loop_ok_inv fuel date_dt all_slots_ist :
  valid date_dt ->
  slot_loop fuel date_dt (mk_time START_HOUR_IST 0) [] = Ok all_slots_ist ->
  all_slots_ist = working_day_grid.
Proof.
  intros Hv.
  change (mk_time START_HOUR_IST 0) with (mk_time (540 / 60) (540 mod 60)).
  rewrite (slot_loop_run date_dt 16 Hv fuel 540 []) by lia.
  destruct (fuel <=? 16)%nat; [discriminate|].
  intros Heq. injection Heq as <-. reflexivity.
Qed.

(** [get_availability] with the store passed along explicitly. *)
Lemma get_availability_cases fromisoformat fuel date st :
  get_availability fromisoformat fuel date st
  = match ist_date_from_str date with
    | Ok date_dt =>
        if weekday date_dt >=? 5 then (Ok (mk_AvailabilityResponse date []), st)
        else
          match slot_loop fuel date_dt (mk_time START_HOUR_IST 0) [] with
          | Ok all_slots_ist =>
              match to_utc_from_ist date_dt (mk_time 0 0) with
              | Ok day_start_utc =>
                  match add date_dt (timedelta_of 1 0 0) with
                  | Ok next_day =>
                      match to_utc_from_ist next_day (mk_time 0 0) with
                      | Ok day_end_utc =>
                          (Ok (mk_AvailabilityResponse date
                                 (available_in fromisoformat st day_start_utc
                                    day_end_utc all_slots_ist)),
                           log (Find "booking"
                                  (day_query day_start_utc day_end_utc)) st)
                      | Raise e => (Raise e, st)
                      | OutOfFuel => (OutOfFuel, st)
                      end
                  | Raise e => (Raise e, st)
                  | OutOfFuel => (OutOfFuel, st)
                  end
              | Raise e => (Raise e, st)
              | OutOfFuel => (OutOfFuel, st)
              end
          | Raise e => (Raise e, st)
          | OutOfFuel => (OutOfFuel, st)
          end
    | Raise e => (Raise e, st)
    | OutOfFuel => (OutOfFuel, st)
    end.
Proof.
  unfold get_availability.
  destruct (ist_date_from_str date) as [date_dt|e|]; [|reflexivity..].
  rewrite (bind_lift_ok _ _ _ _ eq_refl). cbv zeta.
  destruct (weekday date_dt >=? 5); [reflexivity|].
  destruct (slot_loop fuel date_dt _ []) as [all_slots_ist|e|];
    [|reflexivity..].
  rewrite (bind_lift_ok _ _ _ _ eq_refl).
  destruct (to_utc_from_ist date_dt _) as [day_start_utc|e|]; [|reflexivity..].
  rewrite (bind_lift_ok _ _ _ _ eq_refl).
  destruct (add date_dt _) as [next_day|e|]; [|reflexivity..].
  rewrite (bind_lift_ok _ _ _ _ eq_refl).
  destruct (to_utc_from_ist next_day _) as [day_end_utc|e|]; [|reflexivity..].
  rewrite (bind_lift_ok _ _ _ _ eq_refl).
  reflexivity.
Qed.

(** The window of a day that has a day before it and a day after it. *)
Lemma day_window date_dt :
  valid date_dt -> hour date_dt = 0 -> minute date_dt = 0 ->
  second date_dt = 0 -> 1 < toordinal date_dt < MAXORDINAL ->
  exists day_start_utc next_day day_end_utc,
    to_utc_from_ist date_dt (mk_time 0 0) = Ok day_start_utc
    /\ add date_dt (timedelta_of 1 0 0) = Ok next_day
    /\ to_utc_from_ist next_day (mk_time 0 0) = Ok day_end_utc
    /\ valid day_start_utc /\ valid day_end_utc
    /\ instant day_start_utc = toordinal date_dt * 86400 - 19800
    /\ instant day_end_utc = toordinal date_dt * 86400 + 86400 - 19800.
Proof.
  intros Hv Hh Hm Hs Hord. unfold MAXORDINAL in Hord.
  assert (Hi : instant date_dt = toordinal date_dt * 86400)
    by (unfold instant; lia).
  destruct (add_spec (combine date_dt (mk_time 0 0)) (- IST_OFFSET))
    as (day_start_utc & Hstart & Hvs & His).
  { rewrite instant_combine. unfold IST_OFFSET, timedelta_of, MAXORDINAL.
    cbn [t_hour t_minute]. lia. }
  destruct (add_spec date_dt (timedelta_of 1 0 0))
    as (next_day & Hnext & Hvn & Hin).
  { rewrite Hi. unfold timedelta_of, MAXORDINAL. lia. }
  destruct (instant_split next_day Hvn) as [Hnd _].
  rewrite Hin, Hi in Hnd. unfold timedelta_of in Hnd.
  assert (Hno : toordinal next_day = toordinal date_dt + 1)
    by (rewrite <- Hnd; Z.div_mod_to_equations; lia).
  destruct (add_spec (combine next_day (mk_time 0 0)) (- IST_OFFSET))
    as (day_end_utc & Hend & Hve & Hie).
  { rewrite instant_combine, Hno. unfold IST_OFFSET, timedelta_of, MAXORDINAL.
    cbn [t_hour t_minute]. lia. }
  exists day_start_utc, next_day, day_end_utc.
  split; [exact Hstart|]. split; [exact Hnext|]. split; [exact Hend|].
  split; [assumption|]. split; [assumption|].
  rewrite instant_combine in His, Hie. rewrite Hno in Hie.
  unfold IST_OFFSET, timedelta_of in His, Hie.
  cbn [t_hour t_minute] in His, Hie. lia.
Qed.

(** *** The set of taken slots *)

Lemma fold_mark_taken_mono fromisoformat docs (acc : gset string) slot :
  slot ∈ acc -> slot ∈ fold_left (mark_taken fromisoformat) docs acc.
Proof.
  revert acc. induction docs as [|doc docs IH]; intros acc Hin; [assumption|].
  simpl. apply IH. unfold mark_taken.
  destruct (taken_slot fromisoformat doc); [set_solver|assumption..].
Qed.

Lemma fold_mark_taken_in fromisoformat docs (acc : gset string) doc slot :
  In doc docs -> taken_slot fromisoformat doc = Ok slot ->
  slot ∈ fold_left (mark_taken fromisoformat) docs acc.
Proof.
  revert acc. induction docs as [|doc' docs IH]; intros acc Hin Hslot;
    [contradiction|].
  simpl. destruct Hin as [->|Hin]; [|apply IH; assumption].
  apply fold_mark_taken_mono. unfold mark_taken. rewrite Hslot. set_solver.
Qed.

Lemma fold_mark_taken_inv fromisoformat docs (acc : gset string) slot :
  slot ∈ fold_left (mark_taken fromisoformat) docs acc ->
  slot ∈ acc
  \/ exists doc, In doc docs /\ taken_slot fromisoformat doc = Ok slot.
Proof.
  revert acc. induction docs as [|doc docs IH]; intros acc Hin; [auto|].
  simpl in Hin. apply IH in Hin as [Hin|(doc' & Hin & Hslot)].
  - unfold mark_taken in Hin.
    destruct (taken_slot fromisoformat doc) as [slot'| |] eqn:Hslot; auto.
    apply elem_of_union in Hin as [Hin|Hin]; auto.
    apply elem_of_singleton in Hin as ->.
    right. exists doc. split; [left; reflexivity|assumption].
  - right. exists doc'. split; [right; assumption|assumption].
Qed.

Lemma elem_of_available fromisoformat st day_start_utc day_end_utc all slot :
  In slot (available_in fromisoformat st day_start_utc day_end_utc all)
  <-> In slot all
      /\ slot ∉ taken_in fromisoformat st day_start_utc day_end_utc.
Proof.
  unfold available_in. rewrite filter_In, bool_decide_eq_true. reflexivity.
Qed.

End RouteFacts.

(** ** The properties of the routes *)

Import Py Datetime Store Main Parser Notions.
Import TextFacts CalendarFacts DatetimeFacts ParserFacts RouteFacts.

(** *** Order of instants *)

Lemma lt_irrefl a : lt a a = false.
Proof. apply lex_lt_irrefl. Qed.

Lemma le_lt_trans a t b : le a t = true -> lt t b = true -> lt a b = true.
Proof.
  unfold le, lt. intros Hle Hlt.
  destruct (lex_lt_total (fields a) (fields t) eq_refl) as [Hat|[Heq|Hta]].
  - eapply lex_lt_trans; eassumption.
  - rewrite Heq. assumption.
  - rewrite Hta in Hle. discriminate.
Qed.

(** C6, as stated, fails on an empty interval: [10:00, 10:00) holds no
    instant, and the test still answers true against [09:00, 11:00). *)
Lemma C6_empty_interval_counterexample :
  ~ (forall a_start a_end b_start b_end,
       overlaps a_start a_end b_start b_end = true
       <-> exists t, within a_start a_end t /\ within b_start b_end t).
Proof.
  intros Hall.
  destruct (Hall (mk_datetime 2024 6 10 10 0 0) (mk_datetime 2024 6 10 10 0 0)
                   (mk_datetime 2024 6 10 9 0 0) (mk_datetime 2024 6 10 11 0 0))
    as [Hex _].
  destruct (Hex eq_refl) as (t & [Hle Hlt] & _).
  unfold le in Hle. rewrite Hlt in Hle. discriminate.
Qed.

(** C6, amended: for two intervals that are not empty, the test
    [a_start < b_end and b_start < a_end] holds exactly when some instant
    lies in both [a_start, a_end) and [b_start, b_end). *)
Theorem C6_overlaps_iff_shared_instant a_start a_end b_start b_end :
  lt a_start a_end = true -> lt b_start b_end = true ->
  (overlaps a_start a_end b_start b_end = true
   <-> exists t, within a_start a_end t /\ within b_start b_end t).
Proof.
  intros Ha Hb. unfold overlaps, within. split.
  - intros Hov. apply andb_true_iff in Hov as [Hab Hba].
    destruct (lt a_start b_start) eqn:Hstarts.
    + assert (Hrev : lt b_start a_start = false)
        by (apply lex_lt_asym; exact Hstarts).
      exists b_start. unfold le. rewrite lt_irrefl, Hba, Hb, Hrev. auto.
    + exists a_start. unfold le. rewrite lt_irrefl, Hstarts, Ha, Hab. auto.
  - intros (t & [Hat Hta] & [Hbt Htb]). apply andb_true_iff. split.
    + exact (le_lt_trans _ _ _ Hat Htb).
    + exact (le_lt_trans _ _ _ Hbt Hta).
Qed.

Lemma C6_witness :
  overlaps (mk_datetime 2024 6 10 4 30 0) (mk_datetime 2024 6 10 5 0 0)
           (mk_datetime 2024 6 10 4 45 0) (mk_datetime 2024 6 10 5 15 0) = true
  <-> exists t,
        within (mk_datetime 2024 6 10 4 30 0) (mk_datetime 2024 6 10 5 0 0) t
        /\ within (mk_datetime 2024 6 10 4 45 0) (mk_datetime 2024 6 10 5 15 0) t.
Proof.
  apply (C6_overlaps_iff_shared_instant
           (mk_datetime 2024 6 10 4 30 0) (mk_datetime 2024 6 10 5 0 0)
           (mk_datetime 2024 6 10 4 45 0) (mk_datetime 2024 6 10 5 15 0));
    reflexivity.
Defined.

(** *** Text order and time order *)

(** C10: on the timestamps the routes write, comparison of the [isoformat]
    strings is comparison of the instants, so the day query selects the
    bookings that start within the day and the conflict query the bookings
    whose interval overlaps the new one. *)
Theorem C10_string_queries_are_chronological :
  (forall a b, valid a -> valid b ->
     str_lt (isoformat a) (isoformat b) = (instant a <? instant b)
     /\ str_le (isoformat a) (isoformat b) = (instant a <=? instant b))
  /\ (forall doc s e day_start_utc day_end_utc,
        valid s -> valid day_start_utc -> valid day_end_utc ->
        stamped doc s e ->
        matches (day_query day_start_utc day_end_utc) doc
        = chrono_in_day day_start_utc day_end_utc s)
  /\ (forall doc s e start_utc end_utc,
        valid s -> valid e -> valid start_utc -> valid end_utc ->
        stamped doc s e ->
        matches (conflict_query start_utc end_utc) doc
        = chrono_conflict s e start_utc end_utc
        /\ chrono_conflict s e start_utc end_utc
           = overlaps s e start_utc end_utc).
Proof.
  split; [|split].
  - intros a b Ha Hb. split.
    + apply str_lt_isoformat_instant; assumption.
    + apply str_le_isoformat_instant; assumption.
  - intros doc s e ds de Hs Hds Hde Hdoc.
    rewrite (matches_day_query _ _ _ _ _ Hdoc).
    rewrite str_le_isoformat_instant, str_lt_isoformat_instant by assumption.
    reflexivity.
  - intros doc s e start_utc end_utc Hs He Hstart Hend Hdoc.
    rewrite (matches_conflict_query _ _ _ _ _ Hdoc).
    rewrite !str_lt_isoformat_instant by assumption.
    unfold chrono_conflict, overlaps.
    rewrite !lt_instant by assumption. auto.
Qed.

Ltac computed :=
  repeat split; vm_compute; first [congruence | intuition congruence].

Lemma C10_witness :
  (str_lt (isoformat (mk_datetime 2024 6 10 4 30 0))
          (isoformat (mk_datetime 2024 6 10 5 0 0))
   = (instant (mk_datetime 2024 6 10 4 30 0)
      <? instant (mk_datetime 2024 6 10 5 0 0)))
  /\ matches (conflict_query (mk_datetime 2024 6 10 4 30 0)
                             (mk_datetime 2024 6 10 5 0 0))
       (booking_doc (request "2024-06-10" "09:45")
          (mk_datetime 2024 6 10 4 15 0) (mk_datetime 2024 6 10 4 45 0))
     = chrono_conflict
         (mk_datetime 2024 6 10 4 15 0) (mk_datetime 2024 6 10 4 45 0)
         (mk_datetime 2024 6 10 4 30 0) (mk_datetime 2024 6 10 5 0 0).
Proof.
  destruct C10_string_queries_are_chronological as (Horder & _ & Hconflict).
  split.
  - apply (Horder (mk_datetime 2024 6 10 4 30 0) (mk_datetime 2024 6 10 5 0 0));
      computed.
  - apply (Hconflict _ (mk_datetime 2024 6 10 4 15 0)
             (mk_datetime 2024 6 10 4 45 0)); computed.
Defined.

(** *** Weekends *)

(** C8: on a Saturday or a Sunday the availability query answers with no
    slot, whatever the store holds, and leaves the store alone. *)
Theorem C8_weekend_has_no_slots fromisoformat fuel date date_dt st :
  ist_date_from_str date = Ok date_dt ->
  5 <= weekday date_dt ->
  get_availability fromisoformat fuel date st
  = (Ok (mk_AvailabilityResponse date []), st).
Proof.
  intros Hdate Hwd. rewrite get_availability_cases, Hdate.
  replace (weekday date_dt >=? 5) with true; [reflexivity|].
  symmetry. rewrite Z.geb_leb. apply Z.leb_le. assumption.
Qed.

Lemma C8_witness :
  get_availability fromisoformat_strict 0 "2024-06-08"
    (snd (create_booking (request "2024-06-10" "10:00") empty_store))
  = (Ok (mk_AvailabilityResponse "2024-06-08" []),
     snd (create_booking (request "2024-06-10" "10:00") empty_store)).
Proof.
  apply (C8_weekend_has_no_slots fromisoformat_strict 0 "2024-06-08"
           (mk_datetime 2024 6 8 0 0 0)); computed.
Defined.

(** *** Business hours *)

(** C5: a weekday request whose time reads as [t_obj] is rejected with the
    business-hours error, before the store is touched, unless
    09:00 <= time < 17:00; within these bounds the check passes whatever the
    minute is, because it looks at the hour alone, and the request ends
    confirmed or in a conflict. *)
Theorem C5_business_hours_check payload st date_dt t_obj :
  ist_date_from_str (req_date payload) = Ok date_dt ->
  weekday date_dt < 5 ->
  time_from_str (req_time payload) = Ok t_obj ->
  let minutes := t_hour t_obj * 60 + t_minute t_obj in
  (9 * 60 <= minutes < 17 * 60
   <-> START_HOUR_IST <= t_hour t_obj < END_HOUR_IST)
  /\ (~ 9 * 60 <= minutes < 17 * 60 ->
      create_booking payload st = (Raise hours_error, st))
  /\ (9 * 60 <= minutes < 17 * 60 ->
      fst (create_booking payload st) = Ok (confirmed payload)
      \/ fst (create_booking payload st) = Raise conflict_error).
Proof.
  intros Hdate Hwd Htime minutes.
  destruct (time_from_str_inv _ _ Htime) as [Hh Hm].
  pose proof (ist_date_from_str_inv _ _ Hdate) as (Hv & _).
  assert (Hiff : 9 * 60 <= minutes < 17 * 60
                 <-> START_HOUR_IST <= t_hour t_obj < END_HOUR_IST)
    by (unfold minutes, START_HOUR_IST, END_HOUR_IST; lia).
  split; [exact Hiff|]. split.
  - intros Hout. rewrite create_booking_cases, Hdate, (weekday_test _ Hwd), Htime.
    destruct (negb _) eqn:Htest; [reflexivity|].
    apply hours_test in Htest. tauto.
  - intros Hin. apply Hiff in Hin.
    destruct (booking_interval date_dt t_obj Hv Hm Hin)
      as (start_utc & end_utc & Hstart & Hend & _).
    rewrite (create_booking_checked _ st _ _ _ _ Hdate Hwd Htime Hin Hstart Hend).
    cbv zeta. destruct (head _); simpl; auto.
Qed.

Lemma C5_witness :
  create_booking (request "2024-06-10" "08:30") empty_store
  = (Raise hours_error, empty_store)
  /\ create_booking (request "2024-06-10" "17:00") empty_store
     = (Raise hours_error, empty_store)
  /\ (fst (create_booking (request "2024-06-10" "09:15") empty_store)
      = Ok (confirmed (request "2024-06-10" "09:15"))
      \/ fst (create_booking (request "2024-06-10" "09:15") empty_store)
         = Raise conflict_error).
Proof.
  split; [|split].
  - apply (C5_business_hours_check (request "2024-06-10" "08:30") empty_store
             (mk_datetime 2024 6 10 0 0 0) (mk_time 8 30)); computed.
  - apply (C5_business_hours_check (request "2024-06-10" "17:00") empty_store
             (mk_datetime 2024 6 10 0 0 0) (mk_time 17 0)); computed.
  - apply (C5_business_hours_check (request "2024-06-10" "09:15") empty_store
             (mk_datetime 2024 6 10 0 0 0) (mk_time 9 15)); computed.
Defined.

(** *** Failures *)

(** C7: when [create_booking] ends in an error, the error is one of the
    five the route reports, no document was written, and unless the error
    is the conflict (found by the one read of the store) the store was not
    reached at all. *)
Theorem C7_failed_booking_writes_nothing payload st e st' :
  create_booking payload st = (Raise e, st') ->
  In e [date_error; weekend_error; time_error; hours_error; conflict_error]
  /\ collections st' = collections st
  /\ (e <> conflict_error -> st' = st)
  /\ (e = conflict_error ->
      exists q, accesses st' = accesses st ++ [FindOne "booking" q]).
Proof.
  rewrite create_booking_cases.
  destruct (ist_date_from_str_cases (req_date payload)) as [[date_dt Hdate]|Hdate];
    rewrite Hdate.
  2: { intros Heq. injection Heq as <- <-. simpl. intuition discriminate. }
  pose proof (ist_date_from_str_inv _ _ Hdate) as (Hv & _).
  destruct (weekday date_dt >=? 5).
  { intros Heq. injection Heq as <- <-. simpl. intuition discriminate. }
  destruct (time_from_str_cases (req_time payload)) as [[t_obj Htime]|Htime];
    rewrite Htime.
  2: { intros Heq. injection Heq as <- <-. simpl. intuition discriminate. }
  destruct (time_from_str_inv _ _ Htime) as [_ Hm].
  destruct (negb _) eqn:Htest.
  { intros Heq. injection Heq as <- <-. simpl. intuition discriminate. }
  apply hours_test in Htest.
  destruct (booking_interval date_dt t_obj Hv Hm Htest)
    as (start_utc & end_utc & Hstart & Hend & _).
  rewrite Hstart, Hend. cbv zeta.
  destruct (head _); [|discriminate].
  intros Heq. injection Heq as <- <-. simpl.
  split; [tauto|]. split; [reflexivity|]. split; [congruence|]. eauto.
Qed.

Lemma C7_witness :
  In weekend_error
    [date_error; weekend_error; time_error; hours_error; conflict_error]
  /\ collections empty_store = collections empty_store
  /\ (weekend_error <> conflict_error -> empty_store = empty_store)
  /\ (weekend_error = conflict_error ->
      exists q, accesses empty_store = accesses empty_store ++ [FindOne "booking" q]).
Proof.
  apply (C7_failed_booking_writes_nothing (request "2024-06-08" "10:00")
           empty_store weekend_error empty_store).
  reflexivity.
Defined.

(** *** Booking twice *)

Lemma filter_none {A} (f : A -> bool) l :
  Forall (fun x => f x = false) l -> List.filter f l = [].
Proof.
  induction 1 as [|x l Hx _ IH]; [reflexivity|].
  simpl. rewrite Hx. exact IH.
Qed.

Lemma filter_one {A} (f : A -> bool) x :
  List.filter f [x] = if f x then [x] else [].
Proof. reflexivity. Qed.

(** A booking overlaps itself: its start is before its end. *)
Lemma booking_conflicts_with_itself payload start_utc end_utc :
  valid start_utc ->
  add start_utc (timedelta_of 0 0 SLOT_MINUTES) = Ok end_utc ->
  matches (conflict_query start_utc end_utc)
    (booking_doc payload start_utc end_utc) = true.
Proof.
  intros Hvs Hend. apply add_inv in Hend as [Hve Hie].
  rewrite (matches_conflict_query _ _ _ _ _
             (booking_doc_stamped payload start_utc end_utc)).
  rewrite str_lt_isoformat_instant by assumption.
  unfold timedelta_of, SLOT_MINUTES in Hie.
  replace (instant start_utc <? instant end_utc) with true
    by (symmetry; apply Z.ltb_lt; lia).
  reflexivity.
Qed.

(** C1, as stated, fails on a store that already holds the slot: the first
    of the two calls is then the one that ends in the conflict. *)
Lemma C1_taken_slot_counterexample :
  ~ (forall st payload date_dt t_obj,
       ist_date_from_str (req_date payload) = Ok date_dt ->
       weekday date_dt < 5 ->
       time_from_str (req_time payload) = Ok t_obj ->
       START_HOUR_IST <= t_hour t_obj < END_HOUR_IST ->
       exists st',
         create_booking payload st = (Ok (confirmed payload), st')
         /\ fst (create_booking payload st') = Raise conflict_error).
Proof.
  intros Hall.
  destruct (Hall
              (snd (create_booking (request "2024-06-10" "10:00") empty_store))
              (request "2024-06-10" "10:00")
              (mk_datetime 2024 6 10 0 0 0) (mk_time 10 0))
    as (st' & Hfirst & _); try computed.
  vm_compute in Hfirst. discriminate Hfirst.
Qed.

(** C1, amended: for a weekday request within hours, on a store in which no
    booking matches the conflict query of the requested interval, the first
    call is confirmed and the same call made again ends in the conflict
    error (status 409). *)
Theorem C1_second_booking_conflicts st payload date_dt t_obj start_utc end_utc :
  ist_date_from_str (req_date payload) = Ok date_dt ->
  weekday date_dt < 5 ->
  time_from_str (req_time payload) = Ok t_obj ->
  START_HOUR_IST <= t_hour t_obj < END_HOUR_IST ->
  to_utc_from_ist date_dt t_obj = Ok start_utc ->
  add start_utc (timedelta_of 0 0 SLOT_MINUTES) = Ok end_utc ->
  Forall (fun doc => matches (conflict_query start_utc end_utc) doc = false)
    (collection st "booking") ->
  exists st',
    create_booking payload st = (Ok (confirmed payload), st')
    /\ collection st' "booking"
       = collection st "booking" ++ [booking_doc payload start_utc end_utc]
    /\ fst (create_booking payload st') = Raise conflict_error.
Proof.
  intros Hdate Hwd Htime Hh Hstart Hend Hfree.
  assert (Hvs : valid start_utc) by (apply add_inv in Hstart; tauto).
  rewrite (create_booking_checked _ st _ _ _ _ Hdate Hwd Htime Hh Hstart Hend).
  cbv zeta. rewrite (filter_none _ _ Hfree). simpl.
  eexists. split; [reflexivity|].
  rewrite collection_insert. split; [reflexivity|].
  rewrite (create_booking_checked _ _ _ _ _ _ Hdate Hwd Htime Hh Hstart Hend).
  cbv zeta. rewrite collection_insert, List.filter_app, (filter_none _ _ Hfree).
  rewrite filter_one, (booking_conflicts_with_itself payload _ _ Hvs Hend).
  reflexivity.
Qed.

Lemma C1_witness :
  exists st',
    create_booking (request "2024-06-10" "10:00") empty_store
    = (Ok (confirmed (request "2024-06-10" "10:00")), st')
    /\ collection st' "booking"
       = collection empty_store "booking"
         ++ [booking_doc (request "2024-06-10" "10:00")
               (mk_datetime 2024 6 10 4 30 0) (mk_datetime 2024 6 10 5 0 0)]
    /\ fst (create_booking (request "2024-06-10" "10:00") st')
       = Raise conflict_error.
Proof.
  apply (C1_second_booking_conflicts empty_store (request "2024-06-10" "10:00")
           (mk_datetime 2024 6 10 0 0 0) (mk_time 10 0)
           (mk_datetime 2024 6 10 4 30 0) (mk_datetime 2024 6 10 5 0 0));
    try computed.
  constructor.
Defined.

(** *** Round trip *)

(** C4: the two timestamps of a confirmed booking read back as an interval
    of thirty minutes whose start, moved by +5:30, is the requested local
    date and time. *)
Theorem C4_stored_interval_round_trip fromisoformat payload st resp st'
    date_dt t_obj :
  reads_back fromisoformat ->
  ist_date_from_str (req_date payload) = Ok date_dt ->
  time_from_str (req_time payload) = Ok t_obj ->
  create_booking payload st = (Ok resp, st') ->
  exists doc start_utc end_utc,
    collection st' "booking" = collection st "booking" ++ [doc]
    /\ fromisoformat_field fromisoformat doc "start_utc_iso" = Ok start_utc
    /\ fromisoformat_field fromisoformat doc "end_utc_iso" = Ok end_utc
    /\ add start_utc IST_OFFSET = Ok (combine date_dt t_obj)
    /\ add start_utc (timedelta_of 0 0 30) = Ok end_utc.
Proof.
  intros Hrb Hdate Htime Hbook.
  destruct (create_booking_ok_inv _ _ _ _ Hbook)
    as (date_dt' & t_obj' & start_utc & end_utc & Hdate' & Hwd & Htime' & Hh
        & Hstart & Hend & _ & _ & Hst').
  rewrite Hdate in Hdate'. injection Hdate' as <-.
  rewrite Htime in Htime'. injection Htime' as <-.
  pose proof (ist_date_from_str_inv _ _ Hdate) as (Hv & _).
  destruct (time_from_str_inv _ _ Htime) as [Hhour Hm].
  destruct (add_inv _ _ _ Hstart) as [Hvs His].
  destruct (add_inv _ _ _ Hend) as [Hve _].
  exists (booking_doc payload start_utc end_utc), start_utc, end_utc.
  split.
  { unfold collection at 1. rewrite Hst', lookup_insert_eq. reflexivity. }
  split.
  { unfold fromisoformat_field. rewrite (proj1 (booking_doc_stamped _ _ _)).
    apply Hrb. assumption. }
  split.
  { unfold fromisoformat_field. rewrite (proj2 (booking_doc_stamped _ _ _)).
    apply Hrb. assumption. }
  split; [|exact Hend].
  apply add_to; [apply combine_valid; assumption|]. lia.
Qed.

Lemma C4_witness :
  exists doc start_utc end_utc,
    collection (snd (create_booking (request "2024-06-10" "10:00") empty_store))
      "booking"
    = collection empty_store "booking" ++ [doc]
    /\ fromisoformat_field fromisoformat_strict doc "start_utc_iso" = Ok start_utc
    /\ fromisoformat_field fromisoformat_strict doc "end_utc_iso" = Ok end_utc
    /\ add start_utc IST_OFFSET
       = Ok (combine (mk_datetime 2024 6 10 0 0 0) (mk_time 10 0))
    /\ add start_utc (timedelta_of 0 0 30) = Ok end_utc.
Proof.
  apply (C4_stored_interval_round_trip fromisoformat_strict
           (request "2024-06-10" "10:00") empty_store
           (confirmed (request "2024-06-10" "10:00"))
           (snd (create_booking (request "2024-06-10" "10:00") empty_store))
           (mk_datetime 2024 6 10 0 0 0) (mk_time 10 0)).
  - exact fromisoformat_strict_reads_back.
  - reflexivity.
  - reflexivity.
  - vm_compute. reflexivity.
Defined.

(** *** Availability after a booking *)

Lemma grid_time_label s t :
  In s working_day_grid -> time_from_str s = Ok t ->
  hhmm (t_hour t) (t_minute t) = s.
Proof.
  unfold working_day_grid. simpl In. intros Hin Ht.
  repeat (destruct Hin as [<-|Hin];
          [vm_compute in Ht; injection Ht as <-; reflexivity|]).
  contradiction.
Qed.

Lemma result_bind_ok {A B} (a : A) (f : A -> result B) : Ok a ≫= f = f a.
Proof. reflexivity. Qed.

(** What the loop of [get_availability] reads off a booking: the slot of
    its requested time. *)
Lemma booking_marks_its_slot fromisoformat payload date_dt t_obj
    start_utc end_utc :
  reads_back fromisoformat -> valid date_dt ->
  0 <= t_hour t_obj <= 23 -> 0 <= t_minute t_obj <= 59 ->
  to_utc_from_ist date_dt t_obj = Ok start_utc ->
  add start_utc (timedelta_of 0 0 SLOT_MINUTES) = Ok end_utc ->
  taken_slot fromisoformat (booking_doc payload start_utc end_utc)
  = Ok (hhmm (t_hour t_obj) (t_minute t_obj)).
Proof.
  intros Hrb Hv Hh Hm Hstart Hend.
  destruct (add_inv _ _ _ Hstart) as [Hvs His].
  destruct (add_inv _ _ _ Hend) as [Hve _].
  unfold taken_slot, fromisoformat_field.
  rewrite (proj1 (booking_doc_stamped payload start_utc end_utc)).
  rewrite (proj2 (booking_doc_stamped payload start_utc end_utc)).
  rewrite (Hrb _ Hvs), result_bind_ok, (Hrb _ Hve), result_bind_ok.
  cbv zeta.
  rewrite (add_to start_utc IST_OFFSET (combine date_dt t_obj)).
  - reflexivity.
  - apply combine_valid; assumption.
  - lia.
Qed.

(** The window of a day, read off the three computations of the route. *)
Lemma day_window_inv date_dt day_start_utc next_day day_end_utc :
  valid date_dt -> hour date_dt = 0 -> minute date_dt = 0 ->
  second date_dt = 0 ->
  to_utc_from_ist date_dt (mk_time 0 0) = Ok day_start_utc ->
  add date_dt (timedelta_of 1 0 0) = Ok next_day ->
  to_utc_from_ist next_day (mk_time 0 0) = Ok day_end_utc ->
  valid day_start_utc /\ valid day_end_utc
  /\ instant day_start_utc = toordinal date_dt * 86400 - 19800
  /\ instant day_end_utc = toordinal date_dt * 86400 + 86400 - 19800.
Proof.
  intros Hv Hh Hm Hs Hstart Hnext Hend.
  destruct (add_inv _ _ _ Hstart) as [Hvs His].
  destruct (add_inv _ _ _ Hnext) as [Hvn Hin].
  destruct (add_inv _ _ _ Hend) as [Hve Hie].
  destruct (instant_split next_day Hvn) as [Hnd _].
  assert (Hi : instant date_dt = toordinal date_dt * 86400)
    by (unfold instant; lia).
  rewrite Hin, Hi in Hnd. unfold timedelta_of in Hnd.
  assert (Hno : toordinal next_day = toordinal date_dt + 1)
    by (rewrite <- Hnd; Z.div_mod_to_equations; lia).
  rewrite instant_combine in His, Hie. rewrite Hno in Hie.
  unfold IST_OFFSET, timedelta_of in His, Hie.
  cbn [t_hour t_minute] in His, Hie.
  split; [assumption|]. split; [assumption|]. lia.
Qed.

(** C3: after a confirmed booking of a grid slot, the availability query for
    the same date never answers with that slot; and it does answer, unless
    the date is the first or the last day of the calendar. *)
Theorem C3_booked_slot_not_listed fromisoformat fuel payload st resp st'
    date_dt :
  reads_back fromisoformat ->
  In (req_time payload) working_day_grid ->
  ist_date_from_str (req_date payload) = Ok date_dt ->
  create_booking payload st = (Ok resp, st') ->
  (forall av st'',
     get_availability fromisoformat fuel (req_date payload) st' = (Ok av, st'') ->
     ~ In (req_time payload) (av_slots av))
  /\ ((17 <= fuel)%nat -> 1 < toordinal date_dt < MAXORDINAL ->
      exists av st'',
        get_availability fromisoformat fuel (req_date payload) st'
        = (Ok av, st'')).
Proof.
  intros Hrb Hgrid Hdate Hbook.
  destruct (create_booking_ok_inv _ _ _ _ Hbook)
    as (date_dt' & t_obj & start_utc & end_utc & Hdate' & Hwd & Htime & Hh
        & Hstart & Hend & _ & _ & Hst').
  rewrite Hdate in Hdate'. injection Hdate' as <-.
  pose proof (ist_date_from_str_inv _ _ Hdate) as (Hv & H0h & H0m & H0s).
  destruct (time_from_str_inv _ _ Htime) as [Hhour Hm].
  destruct (add_inv _ _ _ Hstart) as [Hvs His].
  rewrite instant_combine in His.
  split.
  - intros av st'' Hav. rewrite get_availability_cases, Hdate in Hav.
    rewrite (weekday_test _ Hwd) in Hav.
    destruct (slot_loop fuel date_dt _ []) as [all_slots_ist| |];
      try discriminate.
    destruct (to_utc_from_ist date_dt (mk_time 0 0)) as [day_start_utc| |]
      eqn:Hds; try discriminate.
    destruct (add date_dt (timedelta_of 1 0 0)) as [next_day| |] eqn:Hnd;
      try discriminate.
    destruct (to_utc_from_ist next_day (mk_time 0 0)) as [day_end_utc| |]
      eqn:Hde; try discriminate.
    injection Hav as <- _. simpl.
    destruct (day_window_inv _ _ _ _ Hv H0h H0m H0s Hds Hnd Hde)
      as (Hvds & Hvde & Hids & Hide).
    rewrite elem_of_available. intros [_ Hfree]. apply Hfree.
    unfold taken_in.
    apply (fold_mark_taken_in _ _ _ (booking_doc payload start_utc end_utc)).
    + apply filter_In. split.
      * unfold collection. rewrite Hst', lookup_insert_eq. simpl.
        apply in_or_app. right. left. reflexivity.
      * rewrite (matches_day_query _ _ _ _ _
                   (booking_doc_stamped payload start_utc end_utc)).
        rewrite str_le_isoformat_instant, str_lt_isoformat_instant
          by assumption.
        unfold START_HOUR_IST, END_HOUR_IST, IST_OFFSET, timedelta_of in *.
        apply andb_true_iff. split; [apply Z.leb_le|apply Z.ltb_lt]; lia.
    + rewrite (booking_marks_its_slot _ _ _ _ _ _ Hrb Hv Hhour Hm Hstart Hend).
      rewrite (grid_time_label _ _ Hgrid Htime). reflexivity.
  - intros Hfuel Hord.
    destruct (day_window date_dt Hv H0h H0m H0s Hord)
      as (day_start_utc & next_day & day_end_utc & Hds & Hnd & Hde & _).
    rewrite get_availability_cases, Hdate, (weekday_test _ Hwd).
    rewrite (slot_loop_grid _ _ Hv Hfuel), Hds, Hnd, Hde. eauto.
Qed.

Lemma C3_witness :
  (forall av st'',
     get_availability fromisoformat_strict 17 "2024-06-10"
       (snd (create_booking (request "2024-06-10" "10:00") empty_store))
     = (Ok av, st'') ->
     ~ In "10:00" (av_slots av))
  /\ ((17 <= 17)%nat -> 1 < toordinal (mk_datetime 2024 6 10 0 0 0) < MAXORDINAL ->
      exists av st'',
        get_availability fromisoformat_strict 17 "2024-06-10"
          (snd (create_booking (request "2024-06-10" "10:00") empty_store))
        = (Ok av, st'')).
Proof.
  apply (C3_booked_slot_not_listed fromisoformat_strict 17
           (request "2024-06-10" "10:00") empty_store
           (confirmed (request "2024-06-10" "10:00"))
           (snd (create_booking (request "2024-06-10" "10:00") empty_store))
           (mk_datetime 2024 6 10 0 0 0)).
  - exact fromisoformat_strict_reads_back.
  - simpl. tauto.
  - reflexivity.
  - vm_compute. reflexivity.
Defined.

(** *** Slots listed and slots that can be booked *)

Lemma taken_slot_inv fromisoformat doc slot :
  taken_slot fromisoformat doc = Ok slot ->
  exists s e ist_start,
    fromisoformat_field fromisoformat doc "start_utc_iso" = Ok s
    /\ fromisoformat_field fromisoformat doc "end_utc_iso" = Ok e
    /\ add s IST_OFFSET = Ok ist_start
    /\ hhmm (hour ist_start) (minute ist_start) = slot.
Proof.
  unfold taken_slot.
  destruct (fromisoformat_field fromisoformat doc "start_utc_iso")
    as [s| |]; try discriminate.
  destruct (fromisoformat_field fromisoformat doc "end_utc_iso")
    as [e| |]; try discriminate.
  rewrite !result_bind_ok. cbv zeta.
  destruct (add s IST_OFFSET) as [ist_start| |] eqn:Hadd; try discriminate.
  rewrite result_bind_ok. intros Heq. injection Heq as <-.
  exists s, e, ist_start. auto.
Qed.

(** [get_availability] on a weekday whose window is within the calendar. *)
Lemma get_availability_checked fromisoformat fuel date st date_dt
    day_start_utc next_day day_end_utc :
  (17 <= fuel)%nat ->
  ist_date_from_str date = Ok date_dt ->
  weekday date_dt < 5 ->
  to_utc_from_ist date_dt (mk_time 0 0) = Ok day_start_utc ->
  add date_dt (timedelta_of 1 0 0) = Ok next_day ->
  to_utc_from_ist next_day (mk_time 0 0) = Ok day_end_utc ->
  get_availability fromisoformat fuel date st
  = (Ok (mk_AvailabilityResponse date
           (available_in fromisoformat st day_start_utc day_end_utc
              working_day_grid)),
     log (Find "booking" (day_query day_start_utc day_end_utc)) st).
Proof.
  intros Hfuel Hdate Hwd Hds Hnd Hde.
  pose proof (ist_date_from_str_inv _ _ Hdate) as (Hv & _).
  rewrite get_availability_cases, Hdate, (weekday_test _ Hwd).
  rewrite (slot_loop_grid _ _ Hv Hfuel), Hds, Hnd, Hde. reflexivity.
Qed.

(** C9: on a weekday, a grid slot is left out of the answer only when the
    start of some stored booking reads back, moved by +5:30, as that slot's
    label; so after the one booking of 09:15 on an empty store, the slot
    09:30 is still listed although a request for it ends in the conflict
    error. *)
Theorem C9_listed_slot_may_conflict fromisoformat :
  reads_back fromisoformat ->
  (forall fuel date date_dt st av st' slot,
     ist_date_from_str date = Ok date_dt ->
     weekday date_dt < 5 ->
     get_availability fromisoformat fuel date st = (Ok av, st') ->
     In slot working_day_grid ->
     ~ In slot (av_slots av) ->
     exists doc s ist_start,
       In doc (collection st "booking")
       /\ fromisoformat_field fromisoformat doc "start_utc_iso" = Ok s
       /\ add s IST_OFFSET = Ok ist_start
       /\ hhmm (hour ist_start) (minute ist_start) = slot)
  /\ (exists st,
        create_booking (request "2024-06-10" "09:15") empty_store
        = (Ok (confirmed (request "2024-06-10" "09:15")), st)
        /\ (exists av st',
              get_availability fromisoformat 17 "2024-06-10" st = (Ok av, st')
              /\ In "09:30" (av_slots av))
        /\ fst (create_booking (request "2024-06-10" "09:30") st)
           = Raise conflict_error).
Proof.
  intros Hrb. split.
  - intros fuel date date_dt st av st' slot Hdate Hwd Hav Hgrid Hout.
    pose proof (ist_date_from_str_inv _ _ Hdate) as (Hv & _).
    rewrite get_availability_cases, Hdate, (weekday_test _ Hwd) in Hav.
    destruct (slot_loop fuel date_dt _ []) as [all_slots_ist| |] eqn:Hloop;
      try discriminate.
    destruct (to_utc_from_ist date_dt (mk_time 0 0)) as [day_start_utc| |];
      try discriminate.
    destruct (add date_dt (timedelta_of 1 0 0)) as [next_day| |];
      try discriminate.
    destruct (to_utc_from_ist next_day (mk_time 0 0)) as [day_end_utc| |];
      try discriminate.
    injection Hav as <- _. cbn [av_slots] in Hout.
    apply slot_loop_ok_inv in Hloop; [subst all_slots_ist|assumption].
    rewrite elem_of_available in Hout.
    destruct (decide (slot ∈ taken_in fromisoformat st day_start_utc day_end_utc))
      as [Htaken|Hfree]; [|tauto].
    apply fold_mark_taken_inv in Htaken as [Hempty|(doc & Hdoc & Hslot)];
      [set_solver|].
    apply filter_In in Hdoc as [Hdoc _].
    destruct (taken_slot_inv _ _ _ Hslot) as (s & e & ist_start & Hs & _ & Hadd & Hlabel).
    exists doc, s, ist_start. auto.
  - set (d0 := mk_datetime 2024 6 10 0 0 0).
    set (s0 := mk_datetime 2024 6 10 3 45 0).
    set (e0 := mk_datetime 2024 6 10 4 15 0).
    set (early := request "2024-06-10" "09:15").
    set (late := request "2024-06-10" "09:30").
    assert (Hd0 : valid d0) by computed.
    rewrite (create_booking_checked early empty_store d0 (mk_time 9 15) s0 e0)
      by computed.
    cbv zeta. change (collection empty_store "booking") with (@nil document).
    cbn [List.filter head app].
    eexists. split; [reflexivity|]. split.
    + rewrite (get_availability_checked fromisoformat 17 "2024-06-10" _ d0
                 (mk_datetime 2024 6 9 18 30 0) (mk_datetime 2024 6 11 0 0 0)
                 (mk_datetime 2024 6 10 18 30 0)) by (computed || lia).
      eexists. eexists. split; [reflexivity|]. cbn [av_slots].
      apply elem_of_available.
      split; [unfold working_day_grid; simpl In; tauto|].
      unfold taken_in. rewrite collection_insert. intros Htaken.
      apply fold_mark_taken_inv in Htaken as [Hempty|(doc & Hdoc & Hslot)];
        [set_solver|].
      apply filter_In in Hdoc as [[<-|[]] _].
      rewrite (booking_marks_its_slot fromisoformat early d0 (mk_time 9 15)
                 s0 e0 Hrb Hd0) in Hslot by computed.
      vm_compute in Hslot. discriminate Hslot.
    + rewrite (create_booking_checked late _ d0 (mk_time 9 30)
                 (mk_datetime 2024 6 10 4 0 0) (mk_datetime 2024 6 10 4 30 0))
        by computed.
      cbv zeta. rewrite collection_insert, filter_one.
      rewrite (matches_conflict_query _ _ _ _ _
                 (booking_doc_stamped early s0 e0)).
      replace (str_lt (isoformat s0) (isoformat (mk_datetime 2024 6 10 4 30 0))
               && str_lt (isoformat (mk_datetime 2024 6 10 4 0 0)) (isoformat e0))
        with true by (vm_compute; reflexivity).
      reflexivity.
Qed.

Lemma C9_witness :
  (forall fuel date date_dt st av st' slot,
     ist_date_from_str date = Ok date_dt ->
     weekday date_dt < 5 ->
     get_availability fromisoformat_strict fuel date st = (Ok av, st') ->
     In slot working_day_grid ->
     ~ In slot (av_slots av) ->
     exists doc s ist_start,
       In doc (collection st "booking")
       /\ fromisoformat_field fromisoformat_strict doc "start_utc_iso" = Ok s
       /\ add s IST_OFFSET = Ok ist_start
       /\ hhmm (hour ist_start) (minute ist_start) = slot)
  /\ (exists st,
        create_booking (request "2024-06-10" "09:15") empty_store
        = (Ok (confirmed (request "2024-06-10" "09:15")), st)
        /\ (exists av st',
              get_availability fromisoformat_strict 17 "2024-06-10" st
              = (Ok av, st')
              /\ In "09:30" (av_slots av))
        /\ fst (create_booking (request "2024-06-10" "09:30") st)
           = Raise conflict_error).
Proof.
  apply (C9_listed_slot_may_conflict fromisoformat_strict).
  exact fromisoformat_strict_reads_back.
Defined.

(** *** A day without bookings *)

(** On a weekday that has a day before it and a day after it, with no
    stored booking in the day window, the answer is the whole grid. *)
Lemma availability_of_free_day fromisoformat fuel date date_dt st
    day_start_utc next_day day_end_utc :
  (17 <= fuel)%nat ->
  ist_date_from_str date = Ok date_dt ->
  weekday date_dt < 5 ->
  to_utc_from_ist date_dt (mk_time 0 0) = Ok day_start_utc ->
  add date_dt (timedelta_of 1 0 0) = Ok next_day ->
  to_utc_from_ist next_day (mk_time 0 0) = Ok day_end_utc ->
  Forall (fun doc => matches (day_query day_start_utc day_end_utc) doc = false)
    (collection st "booking") ->
  fst (get_availability fromisoformat fuel date st)
  = Ok (mk_AvailabilityResponse date working_day_grid).
Proof.
  intros Hfuel Hdate Hwd Hds Hnd Hde Hfree.
  rewrite (get_availability_checked _ _ _ _ _ _ _ _
             Hfuel Hdate Hwd Hds Hnd Hde).
  cbn [fst]. unfold available_in, taken_in. rewrite (filter_none _ _ Hfree).
  reflexivity.
Qed.

Lemma availability_of_free_day_defined date_dt :
  ist_date_from_str_midnight date_dt ->
  1 < toordinal date_dt < MAXORDINAL ->
  exists day_start_utc next_day day_end_utc,
    to_utc_from_ist date_dt (mk_time 0 0) = Ok day_start_utc
    /\ add date_dt (timedelta_of 1 0 0) = Ok next_day
    /\ to_utc_from_ist next_day (mk_time 0 0) = Ok day_end_utc.
Proof.
  intros (Hv & Hh & Hm & Hs) Hord.
  destruct (day_window date_dt Hv Hh Hm Hs Hord)
    as (ds & nd & de & Hds & Hnd & Hde & _).
  exists ds, nd, de. auto.
Qed.

(** C2 fails on the first and on the last day of the calendar, a Monday and
    a Friday: the day window leaves the range of [datetime] and the route
    ends in an [OverflowError] that nothing catches. *)
Theorem C2_calendar_edge_days_overflow fromisoformat st :
  (ist_date_from_str "0001-01-01" = Ok (mk_datetime 1 1 1 0 0 0)
   /\ weekday (mk_datetime 1 1 1 0 0 0) = 0
   /\ get_availability fromisoformat 17 "0001-01-01" st
      = (Raise OverflowError, st))
  /\ (ist_date_from_str "9999-12-31" = Ok (mk_datetime 9999 12 31 0 0 0)
      /\ weekday (mk_datetime 9999 12 31 0 0 0) = 4
      /\ get_availability fromisoformat 17 "9999-12-31" st
         = (Raise OverflowError, st)).
Proof.
  rewrite !get_availability_cases.
  repeat split; vm_compute; reflexivity.
Qed.

(** ** Further properties of the routes *)

(** *** Reading dates and times *)

Lemma digit_not_space x : 0 <= x <= 9 -> isspace (chr (48 + x)) = false.
Proof.
  intros Hx. unfold isspace. rewrite ord_chr by lia.
  apply orb_false_iff. split; apply andb_false_iff.
  - right. apply Z.leb_gt. lia.
  - right. apply Z.leb_gt. lia.
Qed.

Lemma digit_not_char x c :
  0 <= x <= 9 -> ~ 48 <= ord c <= 57 -> Ascii.eqb (chr (48 + x)) c = false.
Proof.
  intros Hx Hc. destruct (Ascii.eqb_spec (chr (48 + x)) c) as [<-|]; [|reflexivity].
  rewrite ord_chr in Hc by lia. lia.
Qed.

(** [int] on a text that starts with a digit and has no white space at
    its ends: no sign is looked for. *)
Lemma int_digit_head c r :
  isdigit c = true -> rstrip (lstrip (String c r)) = String c r ->
  int (String c r)
  = match int_digits (String c r) 0 false with
    | Some n =>
        if int_max_str_digits <? count_digits (String c r)
        then Raise ValueError else Ok n
    | None => Raise ValueError
    end.
Proof.
  intros Hd Hstrip. unfold int. rewrite Hstrip. clear Hstrip.
  destruct c as [[] [] [] [] [] [] [] []]; cbv in Hd; try discriminate Hd;
    reflexivity.
Qed.

Lemma strip_two c1 c2 :
  isspace c1 = false -> isspace c2 = false ->
  rstrip (lstrip (String c1 (String c2 EmptyString)))
  = String c1 (String c2 EmptyString).
Proof. intros H1 H2. simpl. rewrite H1. simpl. rewrite H2. reflexivity. Qed.

Lemma strip_four c1 c2 c3 c4 :
  isspace c1 = false -> isspace c4 = false ->
  rstrip (lstrip (String c1 (String c2 (String c3 (String c4 EmptyString)))))
  = String c1 (String c2 (String c3 (String c4 EmptyString))).
Proof. intros H1 H4. simpl. rewrite H1. simpl. rewrite H4. reflexivity. Qed.

Lemma int_two_digits n : 0 <= n < 100 -> int (two_digits n) = Ok n.
Proof.
  intros Hn. unfold two_digits.
  assert (H1 : 0 <= n / 10 <= 9) by (Z.div_mod_to_equations; lia).
  assert (H0 : 0 <= n mod 10 <= 9) by (Z.div_mod_to_equations; lia).
  rewrite int_digit_head
    by (apply isdigit_chr || apply strip_two; try apply digit_not_space; lia).
  simpl. rewrite !isdigit_chr, !ord_chr by lia. simpl.
  f_equal. Z.div_mod_to_equations. lia.
Qed.

Lemma int_four_digits n : 0 <= n < 10000 -> int (four_digits n) = Ok n.
Proof.
  intros Hn. unfold four_digits, two_digits.
  assert (H3 : 0 <= n / 1000 <= 9) by (Z.div_mod_to_equations; lia).
  assert (H2 : 0 <= n / 100 mod 10 <= 9) by (Z.div_mod_to_equations; lia).
  assert (H1 : 0 <= n mod 100 / 10 <= 9) by (Z.div_mod_to_equations; lia).
  assert (H0 : 0 <= n mod 100 mod 10 <= 9) by (Z.div_mod_to_equations; lia).
  rewrite int_digit_head
    by (apply isdigit_chr || apply strip_four; try apply digit_not_space; lia).
  simpl. rewrite !isdigit_chr, !ord_chr by lia. simpl.
  f_equal. Z.div_mod_to_equations. lia.
Qed.

(** [split] around a separator that the pieces do not hold. *)
Lemma split_head sep c s :
  Ascii.eqb c sep = false ->
  split sep (String c s)
  = match split sep s with
    | x :: xs => String c x :: xs
    | [] => [String c EmptyString]
    end.
Proof. intros Hc. simpl. rewrite Hc. reflexivity. Qed.

Lemma split_sep sep s : split sep (String sep s) = EmptyString :: split sep s.
Proof. simpl. rewrite Ascii.eqb_refl. reflexivity. Qed.

Lemma split_two_digits sep n rest :
  ~ 48 <= ord sep <= 57 -> 0 <= n < 100 ->
  split sep (two_digits n +:+ String sep rest) = two_digits n :: split sep rest.
Proof.
  intros Hsep Hn. unfold two_digits. rewrite !str_app_cons, str_app_nil.
  rewrite !split_head, split_sep
    by (apply digit_not_char; [Z.div_mod_to_equations; lia|assumption]).
  reflexivity.
Qed.

Lemma split_two_digits_end sep n :
  ~ 48 <= ord sep <= 57 -> 0 <= n < 100 ->
  split sep (two_digits n) = [two_digits n].
Proof.
  intros Hsep Hn. unfold two_digits.
  rewrite !split_head
    by (apply digit_not_char; [Z.div_mod_to_equations; lia|assumption]).
  reflexivity.
Qed.

Lemma split_four_digits sep n rest :
  ~ 48 <= ord sep <= 57 -> 0 <= n < 10000 ->
  split sep (four_digits n +:+ String sep rest) = four_digits n :: split sep rest.
Proof.
  intros Hsep Hn. rewrite four_digits_split, str_app_assoc by assumption.
  unfold two_digits at 1. rewrite !str_app_cons, str_app_nil.
  rewrite !split_head
    by (apply digit_not_char; [Z.div_mod_to_equations; lia|assumption]).
  rewrite split_two_digits by (assumption || (Z.div_mod_to_equations; lia)).
  reflexivity.
Qed.

(** X1: a date that exists, written the way [isoformat] writes dates, is
    read by [ist_date_from_str] as the midnight of that date. *)
Theorem ist_date_from_str_reads_date_text y m d :
  valid_date y m d ->
  ist_date_from_str (date_text y m d) = Ok (mk_datetime y m d 0 0 0).
Proof.
  intros Hv. pose proof Hv as ((Hy1 & Hy2) & Hm & Hd).
  pose proof (days_in_month_le y m). unfold MINYEAR, MAXYEAR in *.
  unfold ist_date_from_str, date_text.
  rewrite format_d_4, !format_d_2 by lia.
  rewrite !str_app_cons, !str_app_nil.
  rewrite split_four_digits, split_two_digits, split_two_digits_end
    by (lia || (vm_compute; intuition congruence)).
  simpl map_int.
  rewrite int_four_digits, !int_two_digits by lia.
  simpl. rewrite new_datetime_valid by assumption. reflexivity.
Qed.

Lemma ist_date_from_str_reads_date_text_witness :
  ist_date_from_str (date_text 2024 2 29) = Ok (mk_datetime 2024 2 29 0 0 0).
Proof. apply (ist_date_from_str_reads_date_text 2024 2 29). computed. Defined.

(** X2: [ist_date_from_str] ends in the midnight of a day that exists,
    between the years 1 and 9999, or in its error of status 400; no other
    exception leaves it, whatever the text. *)
Theorem ist_date_from_str_outcomes date_str :
  (exists y m d,
     valid_date y m d
     /\ ist_date_from_str date_str = Ok (mk_datetime y m d 0 0 0))
  \/ ist_date_from_str date_str = Raise date_error.
Proof.
  destruct (ist_date_from_str_cases date_str) as [[dt Hdt]|Herr]; [left|right; assumption].
  destruct (ist_date_from_str_inv _ _ Hdt) as ((Hv & _) & Hh & Hm & Hs).
  exists (year dt), (month dt), (day dt). split; [assumption|].
  rewrite Hdt. destruct dt; simpl in *. subst. reflexivity.
Qed.

(** X3: a time of the day written as [HH:MM] is read back by the [try]
    block of [create_booking]; and whatever the text, the block ends in a
    time of the day or in its error of status 400. *)
Theorem time_from_str_reads_hhmm :
  (forall h m, 0 <= h <= 23 -> 0 <= m <= 59 ->
     time_from_str (hhmm h m) = Ok (mk_time h m))
  /\ (forall time_str,
        (exists h m, 0 <= h <= 23 /\ 0 <= m <= 59
                     /\ time_from_str time_str = Ok (mk_time h m))
        \/ time_from_str time_str = Raise time_error).
Proof.
  split.
  - intros h m Hh Hm. unfold time_from_str, hhmm.
    rewrite !format_d_2 by lia.
    rewrite !str_app_cons, !str_app_nil.
    rewrite split_two_digits, split_two_digits_end
      by (lia || (vm_compute; intuition congruence)).
    simpl map_int. rewrite !int_two_digits by lia. simpl.
    unfold new_time.
    replace ((0 <=? h) && (h <=? 23)) with true
      by (symmetry; apply andb_true_iff; split; apply Z.leb_le; lia).
    replace ((0 <=? m) && (m <=? 59)) with true
      by (symmetry; apply andb_true_iff; split; apply Z.leb_le; lia).
    reflexivity.
  - intros time_str.
    destruct (time_from_str_cases time_str) as [[t Ht]|Herr];
      [left|right; assumption].
    destruct (time_from_str_inv _ _ Ht) as [Hh Hm].
    exists (t_hour t), (t_minute t). rewrite Ht. destruct t. auto.
Qed.

Lemma time_from_str_reads_hhmm_witness :
  time_from_str (hhmm 9 5) = Ok (mk_time 9 5).
Proof. apply (proj1 time_from_str_reads_hhmm 9 5); lia. Defined.

(** *** Local time to UTC *)

Lemma first_day d :
  valid d -> (toordinal d = 1 <-> year d = 1 /\ month d = 1 /\ day d = 1).
Proof.
  intros (Hv & _). unfold toordinal. split.
  - intros Hord.
    assert (Hone : valid_date 1 1 1) by computed.
    pose proof (ymd2ord_inj _ _ _ _ _ _ Hv Hone Hord) as Heq.
    injection Heq as -> -> ->. auto.
  - intros (-> & -> & ->). reflexivity.
Qed.

Lemma to_utc_from_ist_sub date_ist t :
  to_utc_from_ist date_ist t = add (combine date_ist t) (- IST_OFFSET).
Proof. reflexivity. Qed.

Lemma to_utc_from_ist_inv date_ist t u :
  to_utc_from_ist date_ist t = Ok u ->
  valid u
  /\ instant u
     = toordinal date_ist * 86400 + t_hour t * 3600 + t_minute t * 60 - 19800.
Proof.
  rewrite to_utc_from_ist_sub. intros Hu. apply add_inv in Hu.
  destruct Hu as [Hv Hi]. split; [assumption|].
  rewrite Hi, instant_combine. unfold IST_OFFSET, timedelta_of. lia.
Qed.

Lemma slot_end_inv start_utc end_utc :
  add start_utc (timedelta_of 0 0 SLOT_MINUTES) = Ok end_utc ->
  valid end_utc /\ instant end_utc = instant start_utc + 1800.
Proof. intros Hend. exact (add_inv _ _ _ Hend). Qed.

(** X4: [to_utc_from_ist] fails in one case only, a time before 05:30 on
    the first day of the calendar, where it raises [OverflowError];
    everywhere else it gives the instant 5:30 earlier, and adding the
    offset to the result gives the local date and time back. *)
Theorem to_utc_from_ist_outcomes date_ist t :
  valid date_ist -> 0 <= t_hour t <= 23 -> 0 <= t_minute t <= 59 ->
  (year date_ist = 1 /\ month date_ist = 1 /\ day date_ist = 1
   /\ t_hour t * 60 + t_minute t < 330 ->
   to_utc_from_ist date_ist t = Raise OverflowError)
  /\ (~ (year date_ist = 1 /\ month date_ist = 1 /\ day date_ist = 1
         /\ t_hour t * 60 + t_minute t < 330) ->
      exists u,
        to_utc_from_ist date_ist t = Ok u /\ valid u
        /\ instant u = instant (combine date_ist t) - 19800
        /\ add u IST_OFFSET = Ok (combine date_ist t)).
Proof.
  intros Hv Hh Hm.
  pose proof (ymd2ord_range _ _ _ (proj1 Hv)) as Hord.
  fold (toordinal date_ist) in Hord. unfold MAXORDINAL in Hord.
  pose proof (first_day _ Hv) as Hfirst.
  pose proof (combine_valid _ _ Hv Hh Hm) as Hvc.
  split.
  - intros (Hy & Hmo & Hd & Hearly).
    assert (Hone : toordinal date_ist = 1) by tauto.
    rewrite to_utc_from_ist_sub. apply add_overflow.
    rewrite instant_combine, Hone. unfold IST_OFFSET, timedelta_of. lia.
  - intros Hlater.
    assert (Hrange : 2 <= toordinal date_ist
                     \/ 330 <= t_hour t * 60 + t_minute t).
    { destruct (Z.eq_dec (toordinal date_ist) 1) as [Hone|]; [|lia].
      right. apply Hfirst in Hone. lia. }
    destruct (add_spec (combine date_ist t) (- IST_OFFSET))
      as (u & Hu & Hvu & Hiu).
    { rewrite instant_combine. unfold IST_OFFSET, timedelta_of, MAXORDINAL.
      lia. }
    exists u. rewrite to_utc_from_ist_sub. split; [exact Hu|].
    split; [assumption|].
    unfold IST_OFFSET, timedelta_of in *.
    split; [lia|]. apply add_to; [assumption|lia].
Qed.

Lemma to_utc_from_ist_outcomes_witness :
  to_utc_from_ist (mk_datetime 1 1 1 0 0 0) (mk_time 5 29) = Raise OverflowError
  /\ exists u,
       to_utc_from_ist (mk_datetime 1 1 1 0 0 0) (mk_time 5 30) = Ok u
       /\ valid u
       /\ instant u
          = instant (combine (mk_datetime 1 1 1 0 0 0) (mk_time 5 30)) - 19800
       /\ add u IST_OFFSET
          = Ok (combine (mk_datetime 1 1 1 0 0 0) (mk_time 5 30)).
Proof.
  split.
  - apply (to_utc_from_ist_outcomes (mk_datetime 1 1 1 0 0 0) (mk_time 5 29));
      computed.
  - apply (to_utc_from_ist_outcomes (mk_datetime 1 1 1 0 0 0) (mk_time 5 30));
      computed.
Defined.

(** *** The slot loop *)

(** X5: for every date the loop of [get_availability] makes sixteen turns
    that list a slot and a seventeenth that stops at 17:00: with a bound of
    seventeen turns or more it returns the grid, never an exception. *)
Theorem slot_loop_turns fuel date_dt :
  valid date_dt ->
  slot_loop fuel date_dt (mk_time START_HOUR_IST 0) []
  = if (fuel <=? 16)%nat then OutOfFuel else Ok working_day_grid.
Proof.
  intros Hv.
  change (mk_time START_HOUR_IST 0) with (mk_time (540 / 60) (540 mod 60)).
  rewrite (slot_loop_run date_dt 16 Hv fuel 540 []) by lia.
  reflexivity.
Qed.

Lemma slot_loop_turns_witness :
  slot_loop 17 (mk_datetime 9999 12 31 0 0 0) (mk_time START_HOUR_IST 0) []
  = Ok working_day_grid.
Proof.
  apply (slot_loop_turns 17 (mk_datetime 9999 12 31 0 0 0)). computed.
Defined.

(** *** What the availability query answers *)

(** X6: with a bound of seventeen turns or more, [get_availability] ends
    in exactly one of four ways: the error of status 400 for a text that is
    no date; no slot on a weekend; an [OverflowError] on the first and on
    the last day of the calendar; and otherwise the grid less the taken
    slots, after one read of the store. *)
Theorem get_availability_outcomes fromisoformat fuel date st :
  (17 <= fuel)%nat ->
  (ist_date_from_str date = Raise date_error
   /\ get_availability fromisoformat fuel date st = (Raise date_error, st))
  \/ (exists date_dt,
        ist_date_from_str date = Ok date_dt /\ 5 <= weekday date_dt
        /\ get_availability fromisoformat fuel date st
           = (Ok (mk_AvailabilityResponse date []), st))
  \/ (exists date_dt,
        ist_date_from_str date = Ok date_dt /\ weekday date_dt < 5
        /\ (toordinal date_dt = 1 \/ toordinal date_dt = MAXORDINAL)
        /\ get_availability fromisoformat fuel date st
           = (Raise OverflowError, st))
  \/ (exists date_dt day_start_utc day_end_utc,
        ist_date_from_str date = Ok date_dt /\ weekday date_dt < 5
        /\ 1 < toordinal date_dt < MAXORDINAL
        /\ valid day_start_utc /\ valid day_end_utc
        /\ instant day_start_utc = toordinal date_dt * 86400 - 19800
        /\ instant day_end_utc = instant day_start_utc + 86400
        /\ get_availability fromisoformat fuel date st
           = (Ok (mk_AvailabilityResponse date
                    (available_in fromisoformat st day_start_utc day_end_utc
                       working_day_grid)),
              log (Find "booking" (day_query day_start_utc day_end_utc)) st)).
Proof.
  intros Hfuel. rewrite get_availability_cases.
  destruct (ist_date_from_str_cases date) as [[date_dt Hdate]|Hdate];
    rewrite Hdate; [|left; auto].
  right. pose proof (ist_date_from_str_inv _ _ Hdate) as (Hv & H0h & H0m & H0s).
  destruct (Z.geb_spec (weekday date_dt) 5) as [Hwe|Hwd].
  { left. exists date_dt. auto. }
  right. rewrite (slot_loop_grid _ _ Hv Hfuel).
  pose proof (ymd2ord_range _ _ _ (proj1 Hv)) as Hord.
  fold (toordinal date_dt) in Hord.
  assert (Hi : instant date_dt = toordinal date_dt * 86400)
    by (unfold instant; lia).
  destruct (Z.eq_dec (toordinal date_dt) 1) as [Hfirst|Hnotfirst].
  { left. exists date_dt. repeat (split; [auto|]).
    rewrite to_utc_from_ist_sub, add_overflow; [reflexivity|].
    rewrite instant_combine, Hfirst. unfold IST_OFFSET, timedelta_of.
    cbn [t_hour t_minute]. lia. }
  destruct (Z.eq_dec (toordinal date_dt) MAXORDINAL) as [Hlast|Hnotlast].
  { left. exists date_dt. repeat (split; [auto|]).
    destruct (to_utc_from_ist date_dt (mk_time 0 0)) as [ds|e|] eqn:Hds.
    - rewrite add_overflow; [reflexivity|].
      rewrite Hi, Hlast. unfold timedelta_of, MAXORDINAL. lia.
    - rewrite to_utc_from_ist_sub in Hds.
      destruct (add_spec (combine date_dt (mk_time 0 0)) (- IST_OFFSET))
        as (u & Hu & _).
      { rewrite instant_combine, Hlast.
        unfold IST_OFFSET, timedelta_of, MAXORDINAL.
        cbn [t_hour t_minute]. lia. }
      congruence.
    - rewrite to_utc_from_ist_sub in Hds.
      destruct (add_spec (combine date_dt (mk_time 0 0)) (- IST_OFFSET))
        as (u & Hu & _).
      { rewrite instant_combine, Hlast.
        unfold IST_OFFSET, timedelta_of, MAXORDINAL.
        cbn [t_hour t_minute]. lia. }
      congruence. }
  right.
  destruct (day_window date_dt Hv H0h H0m H0s ltac:(lia))
    as (ds & nd & de & Hds & Hnd & Hde & Hvs & Hve & His & Hie).
  rewrite Hds, Hnd, Hde.
  exists date_dt, ds, de.
  repeat (split; [first [reflexivity|assumption|lia]|]). reflexivity.
Qed.

Lemma get_availability_outcomes_witness :
  (ist_date_from_str "10/06/2024" = Raise date_error
   /\ get_availability fromisoformat_strict 17 "10/06/2024" empty_store
      = (Raise date_error, empty_store))
  \/ (exists date_dt,
        ist_date_from_str "10/06/2024" = Ok date_dt /\ 5 <= weekday date_dt
        /\ get_availability fromisoformat_strict 17 "10/06/2024" empty_store
           = (Ok (mk_AvailabilityResponse "10/06/2024" []), empty_store))
  \/ (exists date_dt,
        ist_date_from_str "10/06/2024" = Ok date_dt /\ weekday date_dt < 5
        /\ (toordinal date_dt = 1 \/ toordinal date_dt = MAXORDINAL)
        /\ get_availability fromisoformat_strict 17 "10/06/2024" empty_store
           = (Raise OverflowError, empty_store))
  \/ (exists date_dt day_start_utc day_end_utc,
        ist_date_from_str "10/06/2024" = Ok date_dt /\ weekday date_dt < 5
        /\ 1 < toordinal date_dt < MAXORDINAL
        /\ valid day_start_utc /\ valid day_end_utc
        /\ instant day_start_utc = toordinal date_dt * 86400 - 19800
        /\ instant day_end_utc = instant day_start_utc + 86400
        /\ get_availability fromisoformat_strict 17 "10/06/2024" empty_store
           = (Ok (mk_AvailabilityResponse "10/06/2024"
                    (available_in fromisoformat_strict empty_store
                       day_start_utc day_end_utc working_day_grid)),
              log (Find "booking" (day_query day_start_utc day_end_utc))
                empty_store)).
Proof.
  apply (get_availability_outcomes fromisoformat_strict 17 "10/06/2024"
           empty_store).
  lia.
Defined.




(** The answer depends on the collections alone. *)
Lemma get_availability_collections fromisoformat fuel date st1 st2 :
  collections st1 = collections st2 ->
  fst (get_availability fromisoformat fuel date st1)
  = fst (get_availability fromisoformat fuel date st2).
Proof.
  intros Hcoll. rewrite !get_availability_cases.
  destruct (ist_date_from_str date) as [date_dt| |]; try reflexivity.
  destruct (weekday date_dt >=? 5); [reflexivity|].
  destruct (slot_loop fuel date_dt _ []); try reflexivity.
  destruct (to_utc_from_ist date_dt (mk_time 0 0)); try reflexivity.
  destruct (add date_dt (timedelta_of 1 0 0)); try reflexivity.
  destruct (to_utc_from_ist _ (mk_time 0 0)); try reflexivity.
  cbn [fst]. unfold available_in, taken_in, collection. rewrite Hcoll.
  reflexivity.
Qed.

(** X8: [get_availability] never writes: the collections are the same
    after it whatever its outcome, the store is reached by one [find] at
    most, and the same query made again gets the same outcome. *)
Theorem get_availability_reads_only fromisoformat fuel date st r st' :
  get_availability fromisoformat fuel date st = (r, st') ->
  collections st' = collections st
  /\ (st' = st \/ exists q, st' = log (Find "booking" q) st)
  /\ fst (get_availability fromisoformat fuel date st') = r.
Proof.
  intros Hrun.
  assert (Hstate : collections st' = collections st
                   /\ (st' = st \/ exists q, st' = log (Find "booking" q) st)).
  { rewrite get_availability_cases in Hrun.
    destruct (ist_date_from_str date) as [date_dt| |];
      [|injection Hrun as <- <-; auto..].
    destruct (weekday date_dt >=? 5); [injection Hrun as <- <-; auto|].
    destruct (slot_loop fuel date_dt _ []);
      [|injection Hrun as <- <-; auto..].
    destruct (to_utc_from_ist date_dt (mk_time 0 0));
      [|injection Hrun as <- <-; auto..].
    destruct (add date_dt (timedelta_of 1 0 0));
      [|injection Hrun as <- <-; auto..].
    destruct (to_utc_from_ist _ (mk_time 0 0));
      [|injection Hrun as <- <-; auto..].
    injection Hrun as <- <-. split; [reflexivity|]. right. eauto. }
  destruct Hstate as [Hcoll Hlog]. split; [assumption|]. split; [assumption|].
  rewrite (get_availability_collections _ _ _ st' st Hcoll), Hrun.
  reflexivity.
Qed.

Lemma get_availability_reads_only_witness :
  collections empty_store = collections empty_store
  /\ (empty_store = empty_store
      \/ exists q, empty_store = log (Find "booking" q) empty_store)
  /\ fst (get_availability fromisoformat_strict 0 "2024-06-08" empty_store)
     = Ok (mk_AvailabilityResponse "2024-06-08" []).
Proof.
  apply (get_availability_reads_only fromisoformat_strict 0 "2024-06-08"
           empty_store).
  reflexivity.
Defined.

(** X9: on a weekday that is neither the first nor the last day of the
    calendar, if every stored booking carries timestamps of the routes'
    format and none starts within the day, from 18:30 UTC of the day before
    to 18:30 UTC of the day, the answer is the whole grid. *)
Theorem free_day_lists_whole_grid fromisoformat fuel date date_dt st :
  (17 <= fuel)%nat ->
  ist_date_from_str date = Ok date_dt ->
  weekday date_dt < 5 ->
  1 < toordinal date_dt < MAXORDINAL ->
  Forall (fun doc =>
            exists s e,
              stamped doc s e /\ valid s
              /\ ~ (toordinal date_dt * 86400 - 19800 <= instant s
                    < toordinal date_dt * 86400 + 66600))
    (collection st "booking") ->
  fst (get_availability fromisoformat fuel date st)
  = Ok (mk_AvailabilityResponse date working_day_grid).
Proof.
  intros Hfuel Hdate Hwd Hord Hfree.
  pose proof (ist_date_from_str_inv _ _ Hdate) as (Hv & H0h & H0m & H0s).
  destruct (day_window date_dt Hv H0h H0m H0s Hord)
    as (ds & nd & de & Hds & Hnd & Hde & Hvs & Hve & His & Hie).
  apply (availability_of_free_day _ _ _ date_dt _ ds nd de); try assumption.
  eapply Forall_impl; [exact Hfree|].
  intros doc (s & e & Hdoc & Hvalid & Hout). cbv beta.
  rewrite (matches_day_query _ _ _ _ _ Hdoc).
  rewrite str_le_isoformat_instant, str_lt_isoformat_instant by assumption.
  apply andb_false_iff.
  destruct (Z.leb_spec (instant ds) (instant s)); [right|left; reflexivity].
  apply Z.ltb_ge. lia.
Qed.

Lemma free_day_lists_whole_grid_witness :
  fst (get_availability fromisoformat_strict 17 "2024-06-11"
         (snd (create_booking (request "2024-06-10" "16:30") empty_store)))
  = Ok (mk_AvailabilityResponse "2024-06-11" working_day_grid).
Proof.
  apply (free_day_lists_whole_grid fromisoformat_strict 17 "2024-06-11"
           (mk_datetime 2024 6 11 0 0 0));
    [lia|reflexivity|computed|computed|].
  rewrite (create_booking_checked (request "2024-06-10" "16:30") empty_store
             (mk_datetime 2024 6 10 0 0 0) (mk_time 16 30)
             (mk_datetime 2024 6 10 11 0 0) (mk_datetime 2024 6 10 11 30 0))
    by computed.
  cbv zeta. change (collection empty_store "booking") with (@nil document).
  cbn [List.filter head app snd]. rewrite collection_insert.
  constructor; [|constructor].
  exists (mk_datetime 2024 6 10 11 0 0), (mk_datetime 2024 6 10 11 30 0).
  split; [apply booking_doc_stamped|]. computed.
Defined.

(** *** The order of the checks of a booking *)

(** X10: [create_booking] checks the date, then the weekday, then the time:
    a text that is no date is rejected as such whatever the time; a weekend
    date is rejected as such whatever the time, be it no time at all; and
    on a weekday a text that is no time is rejected as such.  None of the
    three reaches the store. *)
Theorem create_booking_check_order payload st :
  (ist_date_from_str (req_date payload) = Raise date_error ->
   create_booking payload st = (Raise date_error, st))
  /\ (forall date_dt,
        ist_date_from_str (req_date payload) = Ok date_dt ->
        5 <= weekday date_dt ->
        create_booking payload st = (Raise weekend_error, st))
  /\ (forall date_dt,
        ist_date_from_str (req_date payload) = Ok date_dt ->
        weekday date_dt < 5 ->
        time_from_str (req_time payload) = Raise time_error ->
        create_booking payload st = (Raise time_error, st)).
Proof.
  rewrite create_booking_cases. split; [|split].
  - intros ->. reflexivity.
  - intros date_dt -> Hwe.
    replace (weekday date_dt >=? 5) with true; [reflexivity|].
    symmetry. rewrite Z.geb_leb. apply Z.leb_le. assumption.
  - intros date_dt -> Hwd ->. rewrite (weekday_test _ Hwd). reflexivity.
Qed.

Lemma create_booking_check_order_witness :
  create_booking (request "2024-06-08" "25:61") empty_store
  = (Raise weekend_error, empty_store)
  /\ create_booking (request "2024-06-10" "25:61") empty_store
     = (Raise time_error, empty_store)
  /\ create_booking (request "2024-02-30" "10:00") empty_store
     = (Raise date_error, empty_store).
Proof.
  split; [|split].
  - apply (create_booking_check_order (request "2024-06-08" "25:61") empty_store)
      with (date_dt := mk_datetime 2024 6 8 0 0 0); computed.
  - apply (create_booking_check_order (request "2024-06-10" "25:61") empty_store)
      with (date_dt := mk_datetime 2024 6 10 0 0 0); computed.
  - apply (create_booking_check_order (request "2024-02-30" "10:00") empty_store).
    reflexivity.
Defined.

(** *** No double booking *)

Lemma head_filter_none {A} (f : A -> bool) l :
  head (List.filter f l) = None -> Forall (fun x => f x = false) l.
Proof.
  induction l as [|x l IH]; simpl; [constructor|].
  destruct (f x) eqn:Hx; [discriminate|]. intros Hl. constructor; auto.
Qed.

Lemma ForallOrdPairs_snoc {A} (R : A -> A -> Prop) l x :
  ForallOrdPairs R l -> Forall (fun a => R a x) l ->
  ForallOrdPairs R (l ++ [x]).
Proof.
  induction 1 as [|a l Ha Hl IH]; intros Hx; simpl.
  - constructor; constructor.
  - inversion Hx as [|a' l' Hax Hlx]; subst.
    constructor; [|apply IH; assumption].
    apply List.Forall_app. split; [assumption|]. constructor; [assumption|constructor].
Qed.

(** The conflict query, on a stored interval of the routes' format, is the
    overlap test. *)
Lemma matches_conflict_overlaps doc iv start_utc end_utc :
  half_hour doc iv -> valid start_utc -> valid end_utc ->
  matches (conflict_query start_utc end_utc) doc
  = overlaps (fst iv) (snd iv) start_utc end_utc.
Proof.
  intros (Hdoc & Hs & He & _) Hstart Hend.
  rewrite (matches_conflict_query _ _ _ _ _ Hdoc).
  rewrite !str_lt_isoformat by assumption. reflexivity.
Qed.

(** What [create_booking] does to the collection: nothing, or one more
    booking that overlaps none of those found there. *)
Lemma create_booking_collection payload st :
  collection (snd (create_booking payload st)) "booking"
  = collection st "booking"
  \/ exists start_utc end_utc,
       valid start_utc /\ valid end_utc
       /\ instant end_utc = instant start_utc + 1800
       /\ Forall (fun doc =>
                    matches (conflict_query start_utc end_utc) doc = false)
            (collection st "booking")
       /\ collection (snd (create_booking payload st)) "booking"
          = collection st "booking"
            ++ [booking_doc payload start_utc end_utc].
Proof.
  rewrite create_booking_cases.
  destruct (ist_date_from_str (req_date payload)) as [date_dt| |]; auto.
  destruct (weekday date_dt >=? 5); auto.
  destruct (time_from_str (req_time payload)) as [t_obj| |]; auto.
  destruct (negb _); auto.
  destruct (to_utc_from_ist date_dt t_obj) as [start_utc| |] eqn:Hstart; auto.
  destruct (add start_utc _) as [end_utc| |] eqn:Hend; auto.
  cbv zeta.
  destruct (head _) eqn:Hhead; [left; reflexivity|right].
  destruct (to_utc_from_ist_inv _ _ _ Hstart) as [Hvs _].
  destruct (slot_end_inv _ _ Hend) as [Hve Hie].
  exists start_utc, end_utc. cbn [snd]. rewrite collection_insert.
  repeat (split; [first [assumption|lia|apply head_filter_none; assumption]|]).
  reflexivity.
Qed.

Lemma create_booking_keeps_invariant payload st :
  no_double_booking (collection st "booking") ->
  no_double_booking (collection (snd (create_booking payload st)) "booking").
Proof.
  intros (ivs & Hivs & Hapart).
  destruct (create_booking_collection payload st)
    as [->|(start_utc & end_utc & Hvs & Hve & Hie & Hfree & ->)].
  { exists ivs. auto. }
  exists (ivs ++ [(start_utc, end_utc)]). split.
  - apply Forall2_app; [assumption|]. constructor; [|constructor].
    split; [apply booking_doc_stamped|]. auto.
  - apply ForallOrdPairs_snoc; [assumption|].
    clear Hapart. induction Hivs as [|doc iv docs ivs Hdoc _ IH];
      [constructor|].
    inversion Hfree as [|? ? Hmatch Hrest]; subst.
    constructor; [|apply IH; assumption].
    unfold apart. cbn [fst snd].
    rewrite <- (matches_conflict_overlaps _ _ _ _ Hdoc Hvs Hve). assumption.
Qed.

(** X11: the invariant of the data model holds along every sequence of
    requests served one after the other: if the stored bookings are
    intervals of thirty minutes of which no two overlap, they still are
    after any number of calls of [create_booking], whatever the requests
    and their outcomes. *)
Theorem bookings_never_overlap payloads st :
  no_double_booking (collection st "booking") ->
  no_double_booking (collection (book_all payloads st) "booking").
Proof.
  revert st. induction payloads as [|payload payloads IH]; intros st Hinv;
    [assumption|].
  simpl. apply IH. apply create_booking_keeps_invariant. assumption.
Qed.

Lemma bookings_never_overlap_witness :
  no_double_booking
    (collection
       (book_all [request "2024-06-10" "10:00"; request "2024-06-10" "10:15";
                  request "2024-06-10" "10:30"] empty_store)
       "booking").
Proof.
  apply (bookings_never_overlap
           [request "2024-06-10" "10:00"; request "2024-06-10" "10:15";
            request "2024-06-10" "10:30"] empty_store).
  exists []. split; constructor.
Defined.

(** *** A booking and the answers that follow *)

Lemma collection_of_insert st name docs cs :
  collections st = <[name := docs]> cs -> collection st name = docs.
Proof. intros Hst. unfold collection. rewrite Hst, lookup_insert_eq. reflexivity. Qed.

Lemma stamped_marks_slot fromisoformat doc s e ist_start :
  reads_back fromisoformat -> stamped doc s e -> valid s -> valid e ->
  add s IST_OFFSET = Ok ist_start ->
  taken_slot fromisoformat doc
  = Ok (hhmm (hour ist_start) (minute ist_start)).
Proof.
  intros Hrb [Hs He] Hvs Hve Hadd. unfold taken_slot, fromisoformat_field.
  rewrite Hs, He, (Hrb _ Hvs), result_bind_ok, (Hrb _ Hve), result_bind_ok.
  rewrite Hadd. reflexivity.
Qed.

Lemma available_without (taken : gset string) slot all :
  List.filter (fun s => bool_decide (s ∉ {[slot]} ∪ taken)) all
  = without slot (List.filter (fun s => bool_decide (s ∉ taken)) all).
Proof.
  unfold without. induction all as [|s all IH]; [reflexivity|]. simpl.
  destruct (String.eqb_spec s slot) as [->|Hne].
  - rewrite (bool_decide_eq_false_2 (slot ∉ {[slot]} ∪ taken))
      by set_solver.
    destruct (bool_decide (slot ∉ taken)); simpl;
      [rewrite String.eqb_refl; simpl|]; exact IH.
  - destruct (decide (s ∈ taken)) as [Hin|Hout].
    + rewrite !bool_decide_eq_false_2
        by (intros Hn; apply Hn;
            first [assumption|apply elem_of_union_r; assumption]).
      exact IH.
    + rewrite (bool_decide_eq_true_2 (s ∉ taken)) by assumption.
      rewrite (bool_decide_eq_true_2 (s ∉ {[slot]} ∪ taken))
        by (intros [Hn|Hn]%elem_of_union;
            [apply elem_of_singleton in Hn|]; contradiction).
      simpl.
      replace (String.eqb s slot) with false
        by (symmetry; apply String.eqb_neq; assumption).
      simpl. rewrite IH. reflexivity.
Qed.

(** The instant at which a confirmed booking starts lies within the window
    of its day, between 03:30 and 11:30 UTC. *)
Lemma booking_start_in_day date_dt t_obj start_utc :
  valid date_dt -> 0 <= t_minute t_obj <= 59 ->
  START_HOUR_IST <= t_hour t_obj < END_HOUR_IST ->
  to_utc_from_ist date_dt t_obj = Ok start_utc ->
  valid start_utc
  /\ toordinal date_dt * 86400 + 12600 <= instant start_utc
     < toordinal date_dt * 86400 + 41400.
Proof.
  intros Hv Hm Hh Hstart.
  destruct (to_utc_from_ist_inv _ _ _ Hstart) as [Hvs His].
  unfold START_HOUR_IST, END_HOUR_IST in Hh.
  split; [assumption|lia].
Qed.

(** X12: a confirmed booking changes the answer for its date by taking out
    the label of its time, and nothing else: every other slot listed before
    is listed after, in the same order. *)
Theorem booking_takes_out_one_slot fromisoformat fuel payload st resp st'
    t_obj av av' st1 st2 :
  reads_back fromisoformat ->
  create_booking payload st = (Ok resp, st') ->
  time_from_str (req_time payload) = Ok t_obj ->
  get_availability fromisoformat fuel (req_date payload) st = (Ok av, st1) ->
  get_availability fromisoformat fuel (req_date payload) st' = (Ok av', st2) ->
  av_slots av' = without (hhmm (t_hour t_obj) (t_minute t_obj)) (av_slots av).
Proof.
  intros Hrb Hbook Htime Hav Hav'.
  destruct (create_booking_ok_inv _ _ _ _ Hbook)
    as (date_dt & t_obj' & start_utc & end_utc & Hdate & Hwd & Htime' & Hh
        & Hstart & Hend & _ & _ & Hst').
  rewrite Htime in Htime'. injection Htime' as <-.
  pose proof (ist_date_from_str_inv _ _ Hdate) as (Hv & H0h & H0m & H0s).
  destruct (time_from_str_inv _ _ Htime) as [Hhour Hm].
  destruct (booking_start_in_day _ _ _ Hv Hm Hh Hstart) as [Hvs Hin].
  rewrite get_availability_cases, Hdate, (weekday_test _ Hwd) in Hav, Hav'.
  destruct (slot_loop fuel date_dt _ []) as [all_slots_ist| |];
    try discriminate.
  destruct (to_utc_from_ist date_dt (mk_time 0 0)) as [ds| |] eqn:Hds;
    try discriminate.
  destruct (add date_dt (timedelta_of 1 0 0)) as [nd| |] eqn:Hnd;
    try discriminate.
  destruct (to_utc_from_ist nd (mk_time 0 0)) as [de| |] eqn:Hde;
    try discriminate.
  injection Hav as <- _. injection Hav' as <- _. cbn [av_slots].
  destruct (day_window_inv _ _ _ _ Hv H0h H0m H0s Hds Hnd Hde)
    as (Hvds & Hvde & Hids & Hide).
  assert (Htaken : taken_in fromisoformat st' ds de
                   = {[hhmm (t_hour t_obj) (t_minute t_obj)]}
                     ∪ taken_in fromisoformat st ds de).
  { unfold taken_in. rewrite (collection_of_insert _ _ _ _ Hst').
    rewrite List.filter_app, fold_left_app, filter_one.
    rewrite (matches_day_query _ _ _ _ _
               (booking_doc_stamped payload start_utc end_utc)).
    rewrite str_le_isoformat_instant, str_lt_isoformat_instant by assumption.
    replace (instant ds <=? instant start_utc) with true
      by (symmetry; apply Z.leb_le; lia).
    replace (instant start_utc <? instant de) with true
      by (symmetry; apply Z.ltb_lt; lia).
    cbn [andb fold_left]. unfold mark_taken at 1.
    rewrite (booking_marks_its_slot _ _ _ _ _ _ Hrb Hv Hhour Hm Hstart Hend).
    reflexivity. }
  unfold available_in. rewrite Htaken. apply available_without.
Qed.

Lemma booking_takes_out_one_slot_witness :
  av_slots
    (mk_AvailabilityResponse "2024-06-10"
       (available_in fromisoformat_strict
          (snd (create_booking (request "2024-06-10" "10:00") empty_store))
          (mk_datetime 2024 6 9 18 30 0) (mk_datetime 2024 6 10 18 30 0)
          working_day_grid))
  = without (hhmm 10 0)
      (av_slots
         (mk_AvailabilityResponse "2024-06-10"
            (available_in fromisoformat_strict empty_store
               (mk_datetime 2024 6 9 18 30 0) (mk_datetime 2024 6 10 18 30 0)
               working_day_grid))).
Proof.
  apply (booking_takes_out_one_slot fromisoformat_strict 17
           (request "2024-06-10" "10:00") empty_store
           (confirmed (request "2024-06-10" "10:00"))
           (snd (create_booking (request "2024-06-10" "10:00") empty_store))
           (mk_time 10 0) _ _
           (log (Find "booking"
                   (day_query (mk_datetime 2024 6 9 18 30 0)
                      (mk_datetime 2024 6 10 18 30 0))) empty_store)
           (log (Find "booking"
                   (day_query (mk_datetime 2024 6 9 18 30 0)
                      (mk_datetime 2024 6 10 18 30 0)))
              (snd (create_booking (request "2024-06-10" "10:00")
                      empty_store)))).
  - exact fromisoformat_strict_reads_back.
  - rewrite (create_booking_checked (request "2024-06-10" "10:00") empty_store
               (mk_datetime 2024 6 10 0 0 0) (mk_time 10 0)
               (mk_datetime 2024 6 10 4 30 0) (mk_datetime 2024 6 10 5 0 0))
      by computed.
    reflexivity.
  - reflexivity.
  - apply (get_availability_checked fromisoformat_strict 17 "2024-06-10" _
             (mk_datetime 2024 6 10 0 0 0) (mk_datetime 2024 6 9 18 30 0)
             (mk_datetime 2024 6 11 0 0 0) (mk_datetime 2024 6 10 18 30 0));
      (lia || computed).
  - apply (get_availability_checked fromisoformat_strict 17 "2024-06-10" _
             (mk_datetime 2024 6 10 0 0 0) (mk_datetime 2024 6 9 18 30 0)
             (mk_datetime 2024 6 11 0 0 0) (mk_datetime 2024 6 10 18 30 0));
      (lia || computed).
Defined.

(** X13: a confirmed booking leaves the answers for every other date as
    they were. *)
Theorem booking_leaves_other_days fromisoformat fuel payload st resp st'
    date_dt other other_dt :
  create_booking payload st = (Ok resp, st') ->
  ist_date_from_str (req_date payload) = Ok date_dt ->
  ist_date_from_str other = Ok other_dt ->
  toordinal other_dt <> toordinal date_dt ->
  fst (get_availability fromisoformat fuel other st')
  = fst (get_availability fromisoformat fuel other st).
Proof.
  intros Hbook Hdate Hother Hdiff.
  destruct (create_booking_ok_inv _ _ _ _ Hbook)
    as (date_dt' & t_obj & start_utc & end_utc & Hdate' & Hwd & Htime & Hh
        & Hstart & Hend & _ & _ & Hst').
  rewrite Hdate in Hdate'. injection Hdate' as <-.
  pose proof (ist_date_from_str_inv _ _ Hdate) as (Hv & _).
  pose proof (ist_date_from_str_inv _ _ Hother) as (Hvo & H0h & H0m & H0s).
  destruct (time_from_str_inv _ _ Htime) as [_ Hm].
  destruct (booking_start_in_day _ _ _ Hv Hm Hh Hstart) as [Hvs Hin].
  rewrite !get_availability_cases, Hother.
  destruct (weekday other_dt >=? 5); [reflexivity|].
  destruct (slot_loop fuel other_dt _ []) as [all_slots_ist| |];
    try reflexivity.
  destruct (to_utc_from_ist other_dt (mk_time 0 0)) as [ds| |] eqn:Hds;
    try reflexivity.
  destruct (add other_dt (timedelta_of 1 0 0)) as [nd| |] eqn:Hnd;
    try reflexivity.
  destruct (to_utc_from_ist nd (mk_time 0 0)) as [de| |] eqn:Hde;
    try reflexivity.
  destruct (day_window_inv _ _ _ _ Hvo H0h H0m H0s Hds Hnd Hde)
    as (Hvds & Hvde & Hids & Hide).
  assert (Htaken : taken_in fromisoformat st' ds de
                   = taken_in fromisoformat st ds de).
  { unfold taken_in. rewrite (collection_of_insert _ _ _ _ Hst').
    rewrite List.filter_app, filter_one.
    rewrite (matches_day_query _ _ _ _ _
               (booking_doc_stamped payload start_utc end_utc)).
    rewrite str_le_isoformat_instant, str_lt_isoformat_instant by assumption.
    replace ((instant ds <=? instant start_utc)
             && (instant start_utc <? instant de)) with false.
    - rewrite List.app_nil_r. reflexivity.
    - symmetry. apply andb_false_iff.
      destruct (Z.leb_spec (instant ds) (instant start_utc));
        [right|left; reflexivity].
      apply Z.ltb_ge. lia. }
  cbn [fst]. unfold available_in. rewrite Htaken. reflexivity.
Qed.

Lemma booking_leaves_other_days_witness :
  fst (get_availability fromisoformat_strict 17 "2024-06-11"
         (snd (create_booking (request "2024-06-10" "10:00") empty_store)))
  = fst (get_availability fromisoformat_strict 17 "2024-06-11" empty_store).
Proof.
  apply (booking_leaves_other_days fromisoformat_strict 17
           (request "2024-06-10" "10:00") empty_store
           (confirmed (request "2024-06-10" "10:00"))
           (snd (create_booking (request "2024-06-10" "10:00") empty_store))
           (mk_datetime 2024 6 10 0 0 0) "2024-06-11"
           (mk_datetime 2024 6 11 0 0 0)).
  - rewrite (create_booking_checked (request "2024-06-10" "10:00") empty_store
               (mk_datetime 2024 6 10 0 0 0) (mk_time 10 0)
               (mk_datetime 2024 6 10 4 30 0) (mk_datetime 2024 6 10 5 0 0))
      by computed.
    reflexivity.
  - reflexivity.
  - reflexivity.
  - computed.
Defined.

(** *** Slots listed and slots that can be booked, on the grid *)

Lemma grid_times slot :
  In slot working_day_grid ->
  exists h m,
    time_from_str slot = Ok (mk_time h m)
    /\ 9 <= h < 17 /\ (m = 0 \/ m = 30) /\ hhmm h m = slot.
Proof.
  unfold working_day_grid. simpl In. intros Hin.
  repeat (destruct Hin as [<-|Hin];
    [match goal with
     | |- context [time_from_str ?s] =>
         let r := eval vm_compute in (time_from_str s) in
         match r with
         | Ok (mk_time ?h ?m) =>
             exists h, m; split; [reflexivity|];
             split; [lia|]; split; [lia|reflexivity]
         end
     end|]).
  contradiction.
Qed.

(** X14: when every stored booking is an interval of thirty minutes that
    starts on a half hour of the clock, as the bookings of grid slots do,
    the answer of [get_availability] can be trusted: a request for a slot
    it lists is confirmed. *)
Theorem listed_slot_can_be_booked fromisoformat fuel payload st av st1 :
  reads_back fromisoformat ->
  on_the_half_hour (collection st "booking") ->
  get_availability fromisoformat fuel (req_date payload) st = (Ok av, st1) ->
  In (req_time payload) (av_slots av) ->
  fst (create_booking payload st) = Ok (confirmed payload).
Proof.
  intros Hrb Haligned Hav Hin.
  rewrite get_availability_cases in Hav.
  destruct (ist_date_from_str (req_date payload)) as [date_dt| |] eqn:Hdate;
    try discriminate.
  pose proof (ist_date_from_str_inv _ _ Hdate) as (Hv & H0h & H0m & H0s).
  destruct (Z.geb_spec (weekday date_dt) 5) as [Hwe|Hwd].
  { injection Hav as <- _. contradiction Hin. }
  destruct (slot_loop fuel date_dt _ []) as [all_slots_ist| |] eqn:Hloop;
    try discriminate.
  destruct (to_utc_from_ist date_dt (mk_time 0 0)) as [ds| |] eqn:Hds;
    try discriminate.
  destruct (add date_dt (timedelta_of 1 0 0)) as [nd| |] eqn:Hnd;
    try discriminate.
  destruct (to_utc_from_ist nd (mk_time 0 0)) as [de| |] eqn:Hde;
    try discriminate.
  injection Hav as <- _. cbn [av_slots] in Hin.
  apply slot_loop_ok_inv in Hloop; [subst all_slots_ist|assumption].
  apply elem_of_available in Hin as [Hgrid Hfree].
  destruct (day_window_inv _ _ _ _ Hv H0h H0m H0s Hds Hnd Hde)
    as (Hvds & Hvde & Hids & Hide).
  destruct (grid_times _ Hgrid) as (h & m & Htime & Hh & Hm & Hlabel).
  assert (Hhours : START_HOUR_IST <= t_hour (mk_time h m) < END_HOUR_IST)
    by (unfold START_HOUR_IST, END_HOUR_IST; simpl; lia).
  assert (Hmin : 0 <= t_minute (mk_time h m) <= 59) by (simpl; lia).
  destruct (booking_interval date_dt (mk_time h m) Hv Hmin Hhours)
    as (start_utc & end_utc & Hstart & Hend & Hvs & Hve & His & Hie).
  destruct (booking_start_in_day _ _ _ Hv Hmin Hhours Hstart) as [_ Hwin].
  rewrite instant_combine in His. cbn [t_hour t_minute] in His.
  rewrite (create_booking_checked _ st _ _ _ _ Hdate Hwd Htime Hhours
             Hstart Hend).
  cbv zeta.
  rewrite filter_none; [reflexivity|].
  apply List.Forall_forall. intros doc Hdoc.
  destruct (matches (conflict_query start_utc end_utc) doc) eqn:Hmatch;
    [exfalso|reflexivity].
  unfold on_the_half_hour in Haligned. rewrite List.Forall_forall in Haligned.
  destruct (Haligned doc Hdoc) as ([s e] & Hhalf & Hmod).
  rewrite (matches_conflict_overlaps _ _ _ _ Hhalf Hvs Hve) in Hmatch.
  destruct Hhalf as (Hstamped & Hvs' & Hve' & Hlen). cbn [fst snd] in *.
  unfold overlaps in Hmatch. rewrite !lt_instant in Hmatch by assumption.
  apply andb_true_iff in Hmatch as [Hlt1 Hlt2].
  apply Z.ltb_lt in Hlt1, Hlt2.
  assert (Hsame : s = start_utc).
  { apply instant_inj; [assumption..|].
    revert Hmod. rewrite Hlen in Hlt2. rewrite Hie in Hlt1.
    generalize dependent (instant s). intros i.
    generalize dependent (instant start_utc). intros j.
    intros. destruct Hm; subst m; Z.div_mod_to_equations; lia. }
  subst s. apply Hfree. unfold taken_in.
  apply (fold_mark_taken_in _ _ _ doc).
  - apply filter_In. split; [assumption|].
    rewrite (matches_day_query _ _ _ _ _ Hstamped).
    rewrite str_le_isoformat_instant, str_lt_isoformat_instant by assumption.
    apply andb_true_iff. split; [apply Z.leb_le|apply Z.ltb_lt]; lia.
  - rewrite (stamped_marks_slot fromisoformat doc start_utc e
               (combine date_dt (mk_time h m)) Hrb Hstamped Hvs' Hve').
    + simpl. rewrite Hlabel. reflexivity.
    + apply add_to; [apply combine_valid; (assumption || simpl; lia)|].
      rewrite instant_combine. cbn [t_hour t_minute].
      unfold IST_OFFSET, timedelta_of. lia.
Qed.

Lemma listed_slot_can_be_booked_witness :
  fst (create_booking (request "2024-06-10" "10:30")
         (snd (create_booking (request "2024-06-10" "10:00") empty_store)))
  = Ok (confirmed (request "2024-06-10" "10:30")).
Proof.
  assert (Hst : snd (create_booking (request "2024-06-10" "10:00") empty_store)
                = mk_state
                    (<["booking" :=
                         [booking_doc (request "2024-06-10" "10:00")
                            (mk_datetime 2024 6 10 4 30 0)
                            (mk_datetime 2024 6 10 5 0 0)]]>
                       (collections empty_store))
                    (accesses empty_store
                     ++ [FindOne "booking"
                           (conflict_query (mk_datetime 2024 6 10 4 30 0)
                              (mk_datetime 2024 6 10 5 0 0));
                         InsertOne "booking"
                           (booking_doc (request "2024-06-10" "10:00")
                              (mk_datetime 2024 6 10 4 30 0)
                              (mk_datetime 2024 6 10 5 0 0))])).
  { rewrite (create_booking_checked (request "2024-06-10" "10:00") empty_store
               (mk_datetime 2024 6 10 0 0 0) (mk_time 10 0)
               (mk_datetime 2024 6 10 4 30 0) (mk_datetime 2024 6 10 5 0 0))
      by computed.
    reflexivity. }
  rewrite Hst. clear Hst.
  generalize fromisoformat_strict_reads_back.
  generalize fromisoformat_strict. intros parser Hrb.
  eapply (listed_slot_can_be_booked parser 17 (request "2024-06-10" "10:30")).
  - exact Hrb.
  - rewrite collection_insert. constructor; [|constructor].
    exists (mk_datetime 2024 6 10 4 30 0, mk_datetime 2024 6 10 5 0 0).
    split; [split; [apply booking_doc_stamped|computed]|reflexivity].
  - apply (get_availability_checked parser 17 "2024-06-10" _
             (mk_datetime 2024 6 10 0 0 0) (mk_datetime 2024 6 9 18 30 0)
             (mk_datetime 2024 6 11 0 0 0) (mk_datetime 2024 6 10 18 30 0));
      (lia || computed).
  - cbn [av_slots req_time request]. apply elem_of_available.
    split; [unfold working_day_grid; simpl In; tauto|].
    unfold taken_in. rewrite collection_insert.
    set (booked := booking_doc (request "2024-06-10" "10:00")
                     (mk_datetime 2024 6 10 4 30 0)
                     (mk_datetime 2024 6 10 5 0 0)).
    set (window := day_query (mk_datetime 2024 6 9 18 30 0)
                     (mk_datetime 2024 6 10 18 30 0)).
    intros Htaken.
    apply fold_mark_taken_inv in Htaken as [Hempty|(doc & Hdoc & Hslot)];
      [exact (not_elem_of_empty _ Hempty)|].
    apply filter_In in Hdoc as [[<-|[]] _]. subst booked.
    rewrite (booking_marks_its_slot parser
               (request "2024-06-10" "10:00") (mk_datetime 2024 6 10 0 0 0)
               (mk_time 10 0) (mk_datetime 2024 6 10 4 30 0)
               (mk_datetime 2024 6 10 5 0 0) Hrb)
      in Hslot by computed.
    vm_compute in Hslot. discriminate Hslot.
Defined.

(** *** Stored documents without timestamps *)

Lemma unstamped_never_conflicts doc start_utc end_utc :
  unstamped doc -> matches (conflict_query start_utc end_utc) doc = false.
Proof.
  intros Hdoc. unfold matches, conflict_query, matches_fields. simpl.
  destruct Hdoc as [Hs|He].
  - destruct (doc !! "start_utc_iso") as [[| s |]|] eqn:Hlook; simpl;
      try reflexivity.
    contradiction (Hs s). reflexivity.
  - destruct (doc !! "end_utc_iso") as [[| s |]|] eqn:Hlook; simpl;
      rewrite ?andb_false_r; try reflexivity.
    contradiction (He s). reflexivity.
Qed.

Lemma unstamped_takes_no_slot fromisoformat doc taken :
  unstamped doc -> mark_taken fromisoformat taken doc = taken.
Proof.
  intros Hdoc. unfold mark_taken, taken_slot, fromisoformat_field.
  destruct Hdoc as [Hs|He].
  - destruct (doc !! "start_utc_iso") as [[| s |]|] eqn:Hlook;
      try reflexivity.
    contradiction (Hs s). reflexivity.
  - destruct (doc !! "end_utc_iso") as [[| s |]|] eqn:Hlook;
      [| contradiction (He s); reflexivity | |];
      (destruct (match doc !! "start_utc_iso" with
                 | Some (VStr s0) => fromisoformat s0
                 | _ => Raise TypeError
                 end); reflexivity).
Qed.

Lemma filter_cons {A} (f : A -> bool) x l :
  List.filter f (x :: l) = if f x then x :: List.filter f l else List.filter f l.
Proof. reflexivity. Qed.

(** X15: a stored document that lacks one of its two timestamps, or holds
    something that is no string in its place, does not count: both routes
    end as they would without it.  The loop of [get_availability] skips it
    and the conflict query does not select it. *)
Theorem unstamped_documents_do_not_count fromisoformat fuel date payload
    st st2 before after doc :
  unstamped doc ->
  collection st "booking" = before ++ after ->
  collection st2 "booking" = before ++ doc :: after ->
  fst (get_availability fromisoformat fuel date st2)
  = fst (get_availability fromisoformat fuel date st)
  /\ fst (create_booking payload st2) = fst (create_booking payload st).
Proof.
  intros Hdoc Hst Hst2. split.
  - rewrite !get_availability_cases.
    destruct (ist_date_from_str date) as [date_dt| |]; try reflexivity.
    destruct (weekday date_dt >=? 5); [reflexivity|].
    destruct (slot_loop fuel date_dt _ []); try reflexivity.
    destruct (to_utc_from_ist date_dt (mk_time 0 0)) as [ds| |];
      try reflexivity.
    destruct (add date_dt (timedelta_of 1 0 0)) as [nd| |]; try reflexivity.
    destruct (to_utc_from_ist nd (mk_time 0 0)) as [de| |]; try reflexivity.
    assert (Htaken : taken_in fromisoformat st2 ds de
                     = taken_in fromisoformat st ds de).
    { unfold taken_in. rewrite Hst, Hst2, !List.filter_app, !fold_left_app.
      rewrite filter_cons.
      destruct (matches (day_query ds de) doc); [|reflexivity].
      cbn [fold_left]. rewrite unstamped_takes_no_slot by assumption.
      reflexivity. }
    cbn [fst]. unfold available_in. rewrite Htaken. reflexivity.
  - rewrite !create_booking_cases.
    destruct (ist_date_from_str (req_date payload)) as [date_dt| |];
      try reflexivity.
    destruct (weekday date_dt >=? 5); [reflexivity|].
    destruct (time_from_str (req_time payload)) as [t_obj| |];
      try reflexivity.
    destruct (negb _); [reflexivity|].
    destruct (to_utc_from_ist date_dt t_obj) as [start_utc| |];
      try reflexivity.
    destruct (add start_utc _) as [end_utc| |]; try reflexivity.
    cbv zeta. rewrite Hst, Hst2, !List.filter_app, filter_cons.
    rewrite unstamped_never_conflicts by assumption.
    destruct (head _); reflexivity.
Qed.

Lemma unstamped_documents_do_not_count_witness :
  fst (get_availability fromisoformat_strict 17 "2024-06-10"
         (mk_state
            (<["booking" :=
                 [<["start_utc_iso" := VStr "2024-06-10T04:30:00"]> ∅]]> ∅) []))
  = fst (get_availability fromisoformat_strict 17 "2024-06-10" empty_store)
  /\ fst (create_booking (request "2024-06-10" "10:00")
            (mk_state
               (<["booking" :=
                    [<["start_utc_iso" := VStr "2024-06-10T04:30:00"]> ∅]]> ∅)
               []))
     = fst (create_booking (request "2024-06-10" "10:00") empty_store).
Proof.
  apply (unstamped_documents_do_not_count fromisoformat_strict 17 "2024-06-10"
           (request "2024-06-10" "10:00") empty_store _ [] []
           (<["start_utc_iso" := VStr "2024-06-10T04:30:00"]> ∅)).
  - right. intros s Hlook. vm_compute in Hlook. discriminate Hlook.
  - reflexivity.
  - reflexivity.
Defined.

(** *** Stores built from grid slots *)

Lemma create_booking_result payload st :
  (exists resp,
     create_booking payload st = (Ok resp, snd (create_booking payload st)))
  \/ collection (snd (create_booking payload st)) "booking"
     = collection st "booking".
Proof.
  rewrite create_booking_cases.
  destruct (ist_date_from_str (req_date payload)) as [date_dt| |]; auto.
  destruct (weekday date_dt >=? 5); auto.
  destruct (time_from_str (req_time payload)) as [t_obj| |]; auto.
  destruct (negb _); auto.
  destruct (to_utc_from_ist date_dt t_obj) as [start_utc| |]; auto.
  destruct (add start_utc _) as [end_utc| |]; auto.
  cbv zeta. destruct (head _); [right; reflexivity|left; eauto].
Qed.

Lemma grid_booking_keeps_half_hours payload st :
  In (req_time payload) working_day_grid ->
  on_the_half_hour (collection st "booking") ->
  on_the_half_hour (collection (snd (create_booking payload st)) "booking").
Proof.
  intros Hgrid Haligned.
  destruct (create_booking_result payload st) as [[resp Hbook] | ->];
    [|assumption].
  destruct (create_booking_ok_inv _ _ _ _ Hbook)
    as (date_dt & t_obj & start_utc & end_utc & Hdate & Hwd & Htime & Hh
        & Hstart & Hend & _ & _ & Hst').
  rewrite (collection_of_insert _ _ _ _ Hst').
  pose proof (ist_date_from_str_inv _ _ Hdate) as (Hv & _).
  destruct (grid_times _ Hgrid) as (h & m & Htime' & _ & Hm & _).
  rewrite Htime in Htime'. injection Htime' as ->.
  destruct (to_utc_from_ist_inv _ _ _ Hstart) as [Hvs His].
  destruct (slot_end_inv _ _ Hend) as [Hve Hie].
  cbn [t_hour t_minute] in His.
  apply List.Forall_app. split; [assumption|].
  constructor; [|constructor].
  exists (start_utc, end_utc). unfold half_hour. cbn [fst snd].
  split; [split; [apply booking_doc_stamped|]|].
  - split; [assumption|]. split; [assumption|]. lia.
  - rewrite His. destruct Hm; subst m; Z.div_mod_to_equations; lia.
Qed.

(** X16: requests for slots of the grid keep the store on the half hour:
    if every stored booking is an interval of thirty minutes that starts on
    a half hour of the clock, it still is after any number of calls of
    [create_booking] for times of the grid, whatever the dates and the
    outcomes. *)
Theorem grid_bookings_stay_on_the_half_hour payloads st :
  Forall (fun payload => In (req_time payload) working_day_grid) payloads ->
  on_the_half_hour (collection st "booking") ->
  on_the_half_hour (collection (book_all payloads st) "booking").
Proof.
  intros Hgrid. revert st.
  induction Hgrid as [|payload payloads Hslot _ IH]; intros st Haligned;
    [assumption|].
  simpl. apply IH. apply grid_booking_keeps_half_hours; assumption.
Qed.

Lemma grid_bookings_stay_on_the_half_hour_witness :
  on_the_half_hour
    (collection
       (book_all [request "2024-06-10" "10:00"; request "2024-06-11" "16:30";
                  request "2024-06-10" "10:00"] empty_store)
       "booking").
Proof.
  apply (grid_bookings_stay_on_the_half_hour
           [request "2024-06-10" "10:00"; request "2024-06-11" "16:30";
            request "2024-06-10" "10:00"] empty_store).
  - repeat constructor; unfold working_day_grid; simpl In; tauto.
  - constructor.
Defined.

(** *** Requests that overlap a stored booking *)

Lemma head_filter_some {A} (f : A -> bool) l x :
  In x l -> f x = true -> exists y, head (List.filter f l) = Some y.
Proof.
  induction l as [|a l IH]; intros Hin Hx; [contradiction|].
  simpl. destruct (f a) eqn:Ha; [eauto|].
  destruct Hin as [->|Hin]; [congruence|auto].
Qed.

(** X17: a weekday request within hours whose interval overlaps the
    interval of a stored booking, both of thirty minutes and in the routes'
    format, ends in the conflict error of status 409; the one [find_one] is
    the only access to the store. *)
Theorem overlapping_request_is_rejected payload st date_dt t_obj
    start_utc end_utc doc iv :
  ist_date_from_str (req_date payload) = Ok date_dt ->
  weekday date_dt < 5 ->
  time_from_str (req_time payload) = Ok t_obj ->
  START_HOUR_IST <= t_hour t_obj < END_HOUR_IST ->
  to_utc_from_ist date_dt t_obj = Ok start_utc ->
  add start_utc (timedelta_of 0 0 SLOT_MINUTES) = Ok end_utc ->
  In doc (collection st "booking") ->
  half_hour doc iv ->
  overlaps (fst iv) (snd iv) start_utc end_utc = true ->
  create_booking payload st
  = (Raise conflict_error,
     log (FindOne "booking" (conflict_query start_utc end_utc)) st).
Proof.
  intros Hdate Hwd Htime Hh Hstart Hend Hdoc Hhalf Hover.
  destruct (to_utc_from_ist_inv _ _ _ Hstart) as [Hvs _].
  destruct (slot_end_inv _ _ Hend) as [Hve _].
  rewrite (create_booking_checked _ st _ _ _ _ Hdate Hwd Htime Hh Hstart Hend).
  cbv zeta.
  destruct (head_filter_some (matches (conflict_query start_utc end_utc))
              _ doc Hdoc) as [found ->]; [|reflexivity].
  rewrite (matches_conflict_overlaps _ _ _ _ Hhalf Hvs Hve). assumption.
Qed.

Lemma overlapping_request_is_rejected_witness :
  create_booking (request "2024-06-10" "10:15")
    (mk_state
       (<["booking" :=
            [booking_doc (request "2024-06-10" "10:00")
               (mk_datetime 2024 6 10 4 30 0) (mk_datetime 2024 6 10 5 0 0)]]>
          ∅) [])
  = (Raise conflict_error,
     log (FindOne "booking"
            (conflict_query (mk_datetime 2024 6 10 4 45 0)
               (mk_datetime 2024 6 10 5 15 0)))
       (mk_state
          (<["booking" :=
               [booking_doc (request "2024-06-10" "10:00")
                  (mk_datetime 2024 6 10 4 30 0)
                  (mk_datetime 2024 6 10 5 0 0)]]>
             ∅) [])).
Proof.
  apply (overlapping_request_is_rejected (request "2024-06-10" "10:15") _
           (mk_datetime 2024 6 10 0 0 0) (mk_time 10 15)
           (mk_datetime 2024 6 10 4 45 0) (mk_datetime 2024 6 10 5 15 0)
           (booking_doc (request "2024-06-10" "10:00")
              (mk_datetime 2024 6 10 4 30 0) (mk_datetime 2024 6 10 5 0 0))
           (mk_datetime 2024 6 10 4 30 0, mk_datetime 2024 6 10 5 0 0)).
  - reflexivity.
  - computed.
  - reflexivity.
  - computed.
  - reflexivity.
  - reflexivity.
  - left. reflexivity.
  - split; [apply booking_doc_stamped|computed].
  - reflexivity.
Defined.
